(** * The e-commerce store of [app.py]: data operations and their contracts

    A shallow embedding of the data-operation layer of [app.py] (SQLite
    through Python's [sqlite3], pandas for the read side) and proofs of the
    properties the specification states about it.

    Modelling conventions
    - A table is the list of its rows in rowid order.
    - INTEGER columns and Python [int]s are [Z].  Monetary amounts
      (DECIMAL(10, 2) columns, Python [float]s) are exact numbers counted in
      hundredths, also [Z]; rounding of binary floating point is not modelled.
      DECIMAL(10, 2) gives a column NUMERIC affinity: a number without
      fractional part is stored as an INTEGER, any other as a REAL.
    - [orders.total_amount] receives whatever object [Series.sum()] returns,
      so its cells are of type [Amount]: a number, or the bytes that
      [sqlite3] stores for an object it does not know.  The number that
      SQLite's SUM reads from such bytes is a parameter, [blob_real], as
      the SHA-256 digest of [hashlib] is.
    - A nullable column, and a DataFrame cell that may hold NaN/None, is an
      [option].  A key of a Python dictionary is an [entry]: missing, or
      bound to a value that may be [None].
    - A DataFrame of cart lines is [NoColumns] ([pd.DataFrame()]) or a
      [Frame] of rows with the dtype of its [subtotal] column.
    - TIMESTAMP columns are [Z] (seconds); CURRENT_TIMESTAMP is the [now]
      argument of the operation that writes.
    - Text is a [string] of code points below 256; letter case is that of
      the ASCII letters.
    - Calls run one after the other, each on a connection of its own. *)

From Stdlib Require Import ZArith NArith List String Ascii Bool Lia.
From Stdlib Require Import Permutation Sorted.
Import ListNotations.

Open Scope string_scope.
Open Scope list_scope.
Open Scope Z_scope.

(** ** Python text operations used by [main] *)

Module Text.

(** [str.isspace] on one character: the ASCII white space of CPython
    (TAB, LF, VT, FF, CR, FS, GS, RS, US, SPACE) and, above 127, NEL and
    NBSP. *)
Definition isspace (c : ascii) : bool :=
  let n := N_of_ascii c in
  ((9 <=? n) && (n <=? 13) || (28 <=? n) && (n <=? 32)
   || (n =? 133) || (n =? 160))%N.

Fixpoint lstrip (s : string) : string :=
  match s with
  | String c s' => if isspace c then lstrip s' else s
  | EmptyString => EmptyString
  end.

Fixpoint rstrip (s : string) : string :=
  match s with
  | EmptyString => EmptyString
  | String c s' =>
      match rstrip s' with
      | EmptyString => if isspace c then EmptyString else String c EmptyString
      | r => String c r
      end
  end.

(** [s.strip()] *)
Definition strip (s : string) : string := rstrip (lstrip s).

(** Case mapping of one character: the ASCII letters.  Below 256 Python
    also maps the accented letters, to characters outside ASCII, and the
    sharp s to "SS"; neither can complete an ASCII keyword that has no
    double S, so [startswith] on the mapped text is not affected. *)
Definition upper_char (c : ascii) : ascii :=
  let n := N_of_ascii c in
  if ((97 <=? n) && (n <=? 122))%N then ascii_of_N (n - 32) else c.

Definition lower_char (c : ascii) : ascii :=
  let n := N_of_ascii c in
  if ((65 <=? n) && (n <=? 90))%N then ascii_of_N (n + 32) else c.

(** [s.upper()] *)
Fixpoint upper (s : string) : string :=
  match s with
  | EmptyString => EmptyString
  | String c s' => String (upper_char c) (upper s')
  end.

(** [s.startswith(p)] *)
Fixpoint startswith (s p : string) : bool :=
  match p, s with
  | EmptyString, _ => true
  | String _ _, EmptyString => false
  | String a p', String b s' => Ascii.eqb a b && startswith s' p'
  end.

(** Two texts of the same length whose characters agree up to letter
    case: the reading of "case-insensitively equal" used to state the
    properties (it folds to lower case, the code folds to upper case). *)
Fixpoint same_ignoring_case (s t : string) : Prop :=
  match s, t with
  | EmptyString, EmptyString => True
  | String a s', String b t' =>
      lower_char a = lower_char b /\ same_ignoring_case s' t'
  | _, _ => False
  end.

Fixpoint all_space (s : string) : Prop :=
  match s with
  | EmptyString => True
  | String c s' => isspace c = true /\ all_space s'
  end.

(** *** The regular expressions of [Series.str.contains]

    [products['product_name'].str.contains(search, case=False)] leaves
    pandas' [regex=True] default on: [search] is compiled with
    [re.IGNORECASE] and each name is tested with [regex.search].  The
    model covers patterns made of ordinary characters and of the wildcard
    ['.']; a pattern with any other special character is outside it
    ([re_compile] gives [None]). *)

Inductive re_item : Type :=
| ReChar (c : ascii)   (* an ordinary character, matched ignoring case *)
| ReDot.               (* '.': any character but a newline *)

(** The special characters of Python's [re]: . ^ $ * + ? { } [ ] \ | ( ) *)
Definition re_special (c : ascii) : bool :=
  existsb (Ascii.eqb c)
    (list_ascii_of_string ".^$*+?{}[]\|()").

Fixpoint re_compile (pat : string) : option (list re_item) :=
  match pat with
  | EmptyString => Some []
  | String c pat' =>
      match re_compile pat' with
      | None => None
      | Some items =>
          if Ascii.eqb c "." then Some (ReDot :: items)
          else if re_special c then None
          else Some (ReChar c :: items)
      end
  end.

Definition re_item_matches (i : re_item) (c : ascii) : bool :=
  match i with
  | ReChar a => Ascii.eqb (lower_char a) (lower_char c)
  | ReDot => negb (Ascii.eqb c "010")
  end.

(** [regex.match]: the items match a prefix of [s]. *)
Fixpoint re_match (items : list re_item) (s : string) : bool :=
  match items, s with
  | [], _ => true
  | _ :: _, EmptyString => false
  | i :: items', String c s' => re_item_matches i c && re_match items' s'
  end.

(** [regex.search]: the items match at some position of [s]. *)
Fixpoint re_search (items : list re_item) (s : string) : bool :=
  re_match items s ||
  match s with
  | EmptyString => false
  | String _ s' => re_search items s'
  end.

(** [name] contains [pat] as a substring, ignoring letter case. *)
Definition contains_ignoring_case (name pat : string) : Prop :=
  exists before mid after,
    name = (before ++ mid ++ after)%string /\ same_ignoring_case mid pat.

End Text.

(** ** The relational store *)

(** *** Rows of the tables created by [init_database] *)

Inductive OrderStatus : Type :=
  pending | processing | shipped | delivered | cancelled.

Record Category : Type := mkCategory {
  c_id : Z;                       (* category_id *)
  c_name : string;                (* category_name TEXT NOT NULL UNIQUE *)
  c_description : string;
  c_created_at : Z
}.

Record Product : Type := mkProduct {
  p_id : Z;                       (* product_id *)
  p_name : string;                (* product_name TEXT NOT NULL *)
  p_category_id : option Z;
  p_price : Z;                    (* price NOT NULL *)
  p_stock : option Z;             (* stock_quantity INTEGER DEFAULT 0 *)
  p_description : option string;
  p_image_url : option string;
  p_created_at : Z;
  p_updated_at : Z
}.

Record Customer : Type := mkCustomer {
  cu_id : Z;                      (* customer_id *)
  cu_first_name : string;         (* first_name TEXT NOT NULL *)
  cu_last_name : string;          (* last_name TEXT NOT NULL *)
  cu_email : string;              (* email TEXT UNIQUE NOT NULL *)
  cu_password_hash : string;      (* password_hash TEXT NOT NULL *)
  cu_phone : option string;
  cu_address : option string;
  cu_city : option string;
  cu_state : option string;
  cu_zip_code : option string;
  cu_country : option string;
  cu_created_at : Z
}.

(** A cell of [orders.total_amount]: a number (INTEGER or REAL), or a BLOB
    with its bytes.  NUMERIC affinity leaves a BLOB as it is. *)
Inductive Amount : Type :=
| Number (hundredths : Z)
| Blob (bytes : list Z).

Record Order : Type := mkOrder {
  o_id : Z;                       (* order_id *)
  o_customer_id : Z;
  o_date : Z;                     (* order_date DEFAULT CURRENT_TIMESTAMP *)
  o_total : Amount;               (* total_amount DECIMAL(10, 2) NOT NULL *)
  o_status : OrderStatus;         (* DEFAULT 'pending' *)
  o_shipping_address : string;
  o_payment_method : string
}.

Record OrderItem : Type := mkOrderItem {
  oi_id : Z;                      (* order_item_id *)
  oi_order_id : Z;
  oi_product_id : option Z;
  oi_quantity : Z;                (* NOT NULL *)
  oi_unit_price : Z;              (* NOT NULL *)
  oi_subtotal : Z                 (* NOT NULL *)
}.

Record CartRow : Type := mkCartRow {
  ct_id : Z;                      (* cart_id *)
  ct_customer_id : Z;
  ct_product_id : Z;
  ct_quantity : Z;                (* NOT NULL *)
  ct_added_at : Z
}.

(** AUTOINCREMENT: [sqlite_sequence] keeps, per table, the largest rowid
    handed out so far. *)
Record Sequence : Type := mkSequence {
  seq_categories : Z;
  seq_products : Z;
  seq_customers : Z;
  seq_orders : Z;
  seq_order_items : Z;
  seq_cart : Z
}.

(** The database file.  The [reviews] table is created by [init_database]
    and touched by no operation; it is left out. *)
Record Database : Type := mkDatabase {
  categories : list Category;
  products : list Product;
  customers : list Customer;
  orders : list Order;
  order_items : list OrderItem;
  cart : list CartRow;
  sqlite_sequence : Sequence
}.

Definition empty_database : Database :=
  mkDatabase [] [] [] [] [] [] (mkSequence 0 0 0 0 0 0).

(** [init_database]: every statement is CREATE TABLE IF NOT EXISTS, so a
    missing file becomes the empty schema and an existing one is kept. *)
Definition init_database (file : option Database) : Database :=
  match file with
  | Some db => db
  | None => empty_database
  end.

(** *** Connections, exceptions and transactions

    [sqlite3.connect] with its default isolation level: the first
    INSERT/UPDATE/DELETE of a connection opens a transaction, [commit]
    writes it to the file, and a connection that is closed or dropped
    without [commit] loses its pending statements.  A connection therefore
    carries the file as committed ([disk]) and as seen by its own statements
    ([txn]). *)

Inductive exn : Type :=
| IntegrityError (constraint : string)
| KeyError (key : string)
| AttributeError (name : string).

Inductive result (A : Type) : Type :=
| Value (a : A)
| Raised (e : exn).
Arguments Value {A} a.
Arguments Raised {A} e.

Record Connection : Type := mkConnection {
  disk : Database;
  txn : Database
}.

(** [create_connection]: [up] tells whether [sqlite3.connect] succeeds;
    when it raises, the function reports the error and returns [None]. *)
Definition create_connection (up : bool) (db : Database) : option Connection :=
  if up then Some (mkConnection db db) else None.

(** Python code running against an open connection: it returns or raises,
    and leaves the connection in some state. *)
Definition exec (A : Type) : Type := Connection -> result A * Connection.

Definition ret {A : Type} (a : A) : exec A := fun c => (Value a, c).

Definition raise {A : Type} (e : exn) : exec A := fun c => (Raised e, c).

Definition bind {A B : Type} (m : exec A) (k : A -> exec B) : exec B :=
  fun c =>
    match m c with
    | (Value a, c') => k a c'
    | (Raised e, c') => (Raised e, c')
    end.

Declare Scope exec_scope.
Delimit Scope exec_scope with exec.
Notation "x <- m ;; k" := (bind m (fun x => k))
  (at level 61, m at next level, right associativity) : exec_scope.
Notation "m ;;; k" := (bind m (fun _ => k))
  (at level 61, right associativity) : exec_scope.

(** [try: body  except Exception as e: handler] *)
Definition try_except {A : Type} (body : exec A) (handler : exn -> exec A) : exec A :=
  fun c =>
    match body c with
    | (Value a, c') => (Value a, c')
    | (Raised e, c') => handler e c'
    end.

(** [for x in xs: body x] *)
Fixpoint for_each {A : Type} (xs : list A) (body : A -> exec unit) : exec unit :=
  match xs with
  | [] => ret tt
  | x :: xs' => (body x ;;; for_each xs' body)%exec
  end.

Definition commit : exec unit :=
  fun c => (Value tt, mkConnection (txn c) (txn c)).

(** A statement that reads: it sees the connection's own pending writes. *)
Definition query {A : Type} (q : Database -> A) : exec A :=
  fun c => (Value (q (txn c)), c).

(** A statement that writes: it changes the pending transaction only, or
    fails on a constraint and changes nothing. *)
Definition statement {A : Type} (s : Database -> result (A * Database)) : exec A :=
  fun c =>
    match s (txn c) with
    | Value (a, db') => (Value a, mkConnection (disk c) db')
    | Raised e => (Raised e, c)
    end.

(** [conn = create_connection()], [if conn: body], [return otherwise].
    The second component is the file once the call is over and its
    connection is gone, whether the body returned or raised. *)
Definition with_connection {A : Type}
    (up : bool) (db : Database) (body : exec A) (otherwise : A)
  : result A * Database :=
  match create_connection up db with
  | Some conn => let (r, conn') := body conn in (r, disk conn')
  | None => (Value otherwise, db)
  end.

(** *** The SQL statements of the services

    Each one maps the database seen by the connection to the new one, or
    raises [IntegrityError] and leaves it as it was.  FOREIGN KEY clauses
    are not enforced (SQLite's default), so they impose nothing here. *)

Definition eq_param (a : option Z) (b : Z) : bool :=   (* [column = ?] *)
  match a with
  | Some x => x =? b
  | None => false                                       (* NULL equals nothing *)
  end.

Definition sub_null (a b : option Z) : option Z :=      (* SQL [a - b] *)
  match a, b with
  | Some x, Some y => Some (x - y)
  | _, _ => None
  end.

Definition bump_categories (s : Sequence) : Sequence :=
  mkSequence (seq_categories s + 1) (seq_products s) (seq_customers s)
             (seq_orders s) (seq_order_items s) (seq_cart s).
Definition bump_products (s : Sequence) : Sequence :=
  mkSequence (seq_categories s) (seq_products s + 1) (seq_customers s)
             (seq_orders s) (seq_order_items s) (seq_cart s).
Definition bump_customers (s : Sequence) : Sequence :=
  mkSequence (seq_categories s) (seq_products s) (seq_customers s + 1)
             (seq_orders s) (seq_order_items s) (seq_cart s).
Definition bump_orders (s : Sequence) : Sequence :=
  mkSequence (seq_categories s) (seq_products s) (seq_customers s)
             (seq_orders s + 1) (seq_order_items s) (seq_cart s).
Definition bump_order_items (s : Sequence) : Sequence :=
  mkSequence (seq_categories s) (seq_products s) (seq_customers s)
             (seq_orders s) (seq_order_items s + 1) (seq_cart s).
Definition bump_cart (s : Sequence) : Sequence :=
  mkSequence (seq_categories s) (seq_products s) (seq_customers s)
             (seq_orders s) (seq_order_items s) (seq_cart s + 1).

(** INSERT INTO customers (first_name, ..., country) VALUES (?, ..., ?) *)
Definition insert_customer (now : Z)
    (first last email : option string) (hash : string)
    (phone address city state zip country : option string)
    (db : Database) : result (unit * Database) :=
  match first, last, email with
  | None, _, _ =>
      Raised (IntegrityError "NOT NULL constraint failed: customers.first_name")
  | _, None, _ =>
      Raised (IntegrityError "NOT NULL constraint failed: customers.last_name")
  | _, _, None =>
      Raised (IntegrityError "NOT NULL constraint failed: customers.email")
  | Some first, Some last, Some email =>
      if existsb (fun c => (cu_email c =? email)%string) (customers db)
      then Raised (IntegrityError "UNIQUE constraint failed: customers.email")
      else
        let id := seq_customers (sqlite_sequence db) + 1 in
        Value (tt, mkDatabase (categories db) (products db)
          (customers db ++
             [mkCustomer id first last email hash phone address city state zip country
                         now])
          (orders db) (order_items db) (cart db)
          (bump_customers (sqlite_sequence db)))
  end.

(** INSERT INTO categories (category_name, description) VALUES (?, ?) *)
Definition insert_category (now : Z) (name description : string)
    (db : Database) : result (unit * Database) :=
  if existsb (fun c => (c_name c =? name)%string) (categories db)
  then Raised (IntegrityError "UNIQUE constraint failed: categories.category_name")
  else
    let id := seq_categories (sqlite_sequence db) + 1 in
    Value (tt, mkDatabase
      (categories db ++ [mkCategory id name description now])
      (products db) (customers db) (orders db) (order_items db) (cart db)
      (bump_categories (sqlite_sequence db))).

(** INSERT INTO products (product_name, category_id, price, stock_quantity,
    description, image_url) VALUES (?, ?, ?, ?, ?, ?) *)
Definition insert_product (now : Z)
    (name : option string) (category_id price stock : option Z)
    (description image_url : option string)
    (db : Database) : result (unit * Database) :=
  match name, price with
  | None, _ => Raised (IntegrityError "NOT NULL constraint failed: products.product_name")
  | _, None => Raised (IntegrityError "NOT NULL constraint failed: products.price")
  | Some name, Some price =>
      let id := seq_products (sqlite_sequence db) + 1 in
      Value (tt, mkDatabase (categories db)
        (products db ++
           [mkProduct id name category_id price stock description image_url now now])
        (customers db) (orders db) (order_items db) (cart db)
        (bump_products (sqlite_sequence db)))
  end.

Definition cart_entry_of (customer_id product_id : Z) (r : CartRow) : bool :=
  (ct_customer_id r =? customer_id) && (ct_product_id r =? product_id).

(** SELECT * FROM cart WHERE customer_id = ? AND product_id = ? *)
Definition select_cart (customer_id product_id : Z) (db : Database) : list CartRow :=
  filter (cart_entry_of customer_id product_id) (cart db).

Definition add_quantity (quantity : Z) (r : CartRow) : CartRow :=
  mkCartRow (ct_id r) (ct_customer_id r) (ct_product_id r)
            (ct_quantity r + quantity) (ct_added_at r).

(** UPDATE cart SET quantity = quantity + ? WHERE customer_id = ? AND product_id = ? *)
Definition update_cart (quantity customer_id product_id : Z)
    (db : Database) : result (unit * Database) :=
  Value (tt, mkDatabase (categories db) (products db) (customers db)
    (orders db) (order_items db)
    (map (fun r => if cart_entry_of customer_id product_id r
                   then add_quantity quantity r else r) (cart db))
    (sqlite_sequence db)).

(** INSERT INTO cart (customer_id, product_id, quantity) VALUES (?, ?, ?) *)
Definition insert_cart (now : Z) (customer_id product_id quantity : Z)
    (db : Database) : result (unit * Database) :=
  let id := seq_cart (sqlite_sequence db) + 1 in
  Value (tt, mkDatabase (categories db) (products db) (customers db)
    (orders db) (order_items db)
    (cart db ++ [mkCartRow id customer_id product_id quantity now])
    (bump_cart (sqlite_sequence db))).

(** DELETE FROM cart WHERE customer_id = ? *)
Definition delete_cart (customer_id : Z) (db : Database) : result (unit * Database) :=
  Value (tt, mkDatabase (categories db) (products db) (customers db)
    (orders db) (order_items db)
    (filter (fun r => negb (ct_customer_id r =? customer_id)) (cart db))
    (sqlite_sequence db)).

(** INSERT INTO orders (customer_id, total_amount, shipping_address,
    payment_method) VALUES (?, ?, ?, ?); the value is [cursor.lastrowid]. *)
Definition insert_order (now : Z) (customer_id : Z) (total : Amount)
    (shipping_address payment_method : string)
    (db : Database) : result (Z * Database) :=
  let id := seq_orders (sqlite_sequence db) + 1 in
  Value (id, mkDatabase (categories db) (products db) (customers db)
    (orders db ++
       [mkOrder id customer_id now total pending shipping_address payment_method])
    (order_items db) (cart db)
    (bump_orders (sqlite_sequence db))).

(** INSERT INTO order_items (order_id, product_id, quantity, unit_price,
    subtotal) VALUES (?, ?, ?, ?, ?) *)
Definition insert_order_item (order_id : Z)
    (product_id quantity unit_price subtotal : option Z)
    (db : Database) : result (unit * Database) :=
  match quantity, unit_price, subtotal with
  | None, _, _ => Raised (IntegrityError "NOT NULL constraint failed: order_items.quantity")
  | _, None, _ => Raised (IntegrityError "NOT NULL constraint failed: order_items.unit_price")
  | _, _, None => Raised (IntegrityError "NOT NULL constraint failed: order_items.subtotal")
  | Some quantity, Some unit_price, Some subtotal =>
      let id := seq_order_items (sqlite_sequence db) + 1 in
      Value (tt, mkDatabase (categories db) (products db) (customers db)
        (orders db)
        (order_items db ++
           [mkOrderItem id order_id product_id quantity unit_price subtotal])
        (cart db)
        (bump_order_items (sqlite_sequence db)))
  end.

Definition take_stock (quantity product_id : option Z) (p : Product) : Product :=
  if eq_param product_id (p_id p)
  then mkProduct (p_id p) (p_name p) (p_category_id p) (p_price p)
                 (sub_null (p_stock p) quantity)
                 (p_description p) (p_image_url p) (p_created_at p) (p_updated_at p)
  else p.

(** UPDATE products SET stock_quantity = stock_quantity - ? WHERE product_id = ? *)
Definition update_stock (quantity product_id : option Z)
    (db : Database) : result (unit * Database) :=
  Value (tt, mkDatabase (categories db)
    (map (take_stock quantity product_id) (products db))
    (customers db) (orders db) (order_items db) (cart db)
    (sqlite_sequence db)).

(** *** Sorting (ORDER BY, [DataFrame.sort_values])

    A stable insertion sort; rows with equal keys keep their order. *)

Fixpoint insert_by {A : Type} (le : A -> A -> bool) (x : A) (l : list A) : list A :=
  match l with
  | [] => [x]
  | y :: l' => if le x y then x :: l else y :: insert_by le x l'
  end.

Fixpoint order_by {A : Type} (le : A -> A -> bool) (l : list A) : list A :=
  match l with
  | [] => []
  | x :: l' => insert_by le x (order_by le l')
  end.

(** ** The services *)

(** One key of a dictionary passed to a service: missing, or bound to a
    value that may be Python's [None]. *)
Inductive entry (A : Type) : Type :=
| Missing
| Bound (v : option A).
Arguments Missing {A}.
Arguments Bound {A} v.

(** The dictionary passed to [register_customer]. *)
Record Registration : Type := mkRegistration {
  reg_first_name : entry string;
  reg_last_name : entry string;
  reg_email : entry string;
  reg_password : entry string;
  reg_phone : entry string;
  reg_address : entry string;
  reg_city : entry string;
  reg_state : entry string;
  reg_zip_code : entry string;
  reg_country : entry string
}.

(** The dictionary that the "Register" form of the sidebar builds: every
    key bound to the text of its widget. *)
Definition register_form
    (first_name last_name email password phone address city state zip_code country
       : string) : Registration :=
  mkRegistration
    (Bound (Some first_name)) (Bound (Some last_name)) (Bound (Some email))
    (Bound (Some password)) (Bound (Some phone)) (Bound (Some address))
    (Bound (Some city)) (Bound (Some state)) (Bound (Some zip_code))
    (Bound (Some country)).

Record ProductData : Type := mkProductData {
  pd_name : entry string;
  pd_category_id : entry Z;
  pd_price : entry Z;
  pd_stock : entry Z;
  pd_description : entry string;
  pd_image_url : entry string
}.

(** [data[key]] *)
Definition getitem {A : Type} (key : string) (e : entry A) : exec (option A) :=
  match e with
  | Bound v => ret v
  | Missing => raise (KeyError key)
  end.

(** [data.get(key, default)] *)
Definition get_default {A : Type} (e : entry A) (default : A) : option A :=
  match e with
  | Bound v => v
  | Missing => Some default
  end.

(** [password.encode()], the first step of [hash_password]: [None] has no
    such method. *)
Definition encode (password : option string) : exec string :=
  match password with
  | Some text => ret text
  | None => raise (AttributeError "encode")
  end.

(** One row of the DataFrame handed to [create_order]; the columns are the
    ones it reads.  A cell is [None] when the frame holds NaN/None there. *)
Record CartLine : Type := mkCartLine {
  l_product_id : option Z;
  l_quantity : option Z;
  l_price : option Z;
  l_subtotal : option Z
}.

(** The dtype of a column of numbers. *)
Inductive dtype : Type := int64 | float64 | object.

(** The DataFrame handed to [create_order]: [pd.DataFrame()], which has no
    column at all, or a frame with the columns of [get_cart_items], its
    rows and the dtype of its [subtotal] column.  In an int64 column every
    cell is a whole number [n], held as [100 * n] hundredths. *)
Inductive DataFrame : Type :=
| NoColumns
| Frame (subtotal : dtype) (lines : list CartLine).

(** [df.iterrows()].  The frame has text columns, so every row is a Series
    of dtype object and its cells are Python ints and floats. *)
Definition iterrows (df : DataFrame) : list CartLine :=
  match df with
  | NoColumns => []
  | Frame _ lines => lines
  end.

(** [df.empty] *)
Definition empty (df : DataFrame) : bool :=
  match iterrows df with
  | [] => true
  | _ :: _ => false
  end.

(** [df['subtotal']] *)
Definition subtotal_column (df : DataFrame) : exec (dtype * list (option Z)) :=
  match df with
  | NoColumns => raise (KeyError "subtotal")
  | Frame subtotal lines => ret (subtotal, map l_subtotal lines)
  end.

(** The sum of the cells: missing cells are skipped, the empty sum is 0. *)
Fixpoint series_sum (cells : list (option Z)) : Z :=
  match cells with
  | [] => 0
  | Some x :: cells' => x + series_sum cells'
  | None :: cells' => series_sum cells'
  end.

(** The object that [Series.sum()] returns: a [numpy.int64] for an int64
    column; a Python number for the others ([numpy.float64] is a Python
    float, and the sum of an object column is built from its cells). *)
Inductive scalar : Type :=
| numpy_int64 (n : Z)
| python_number (hundredths : Z).

Definition sum_result (column : dtype * list (option Z)) : scalar :=
  match fst column with
  | int64 => numpy_int64 (series_sum (snd column) / 100)
  | float64 | object => python_number (series_sum (snd column))
  end.

(** The eight bytes of a [numpy.int64], least significant first. *)
Definition int64_bytes (n : Z) : list Z :=
  map (fun i => Z.land (Z.shiftr n (8 * Z.of_nat i)) 255) (List.seq 0 8).

(** The cell that [sqlite3] writes for a parameter of [total_amount]: a
    Python number is bound as a number; a [numpy.int64] is no Python int
    and is bound through the buffer protocol, as a BLOB of its bytes. *)
Definition bound_amount (v : scalar) : Amount :=
  match v with
  | python_number hundredths => Number hundredths
  | numpy_int64 n => Blob (int64_bytes n)
  end.

(** The storage class of a number in a DECIMAL(10, 2) column: INTEGER when
    it has no fractional part. *)
Definition is_integer (hundredths : Z) : bool := hundredths mod 100 =? 0.

(** The dtype that [pd.read_sql] gives a result column of numbers, from
    whether each of its values is an INTEGER: object without rows, int64
    when all are, float64 otherwise. *)
Definition read_dtype (integers : list bool) : dtype :=
  match integers with
  | [] => object
  | _ :: _ => if forallb (fun b => b) integers then int64 else float64
  end.

(** A row of [get_orders]: [o.*, c.first_name, c.last_name, c.email]. *)
Record OrderView : Type := mkOrderView {
  ov_order : Order;
  ov_first_name : string;
  ov_last_name : string;
  ov_email : string
}.

(** A row of [get_products]: [p.*, c.category_name]. *)
Record ProductView : Type := mkProductView {
  pv_product : Product;
  pv_category_name : option string
}.

(** Python truth value of an optional integer argument. *)
Definition truthy (x : option Z) : bool :=
  match x with
  | Some n => negb (n =? 0)
  | None => false
  end.

(** [hashlib.sha256(bytes).hexdigest()] on the UTF-8 encoding of a text: the
    digest comes from Python's library and is a parameter here. *)
Class Sha256 : Type := sha256_hexdigest : string -> string.

(** In arithmetic SQLite reads a BLOB as the number that its bytes spell as
    text (the longest numeric prefix, 0 without one).  The conversion is
    SQLite's and is a parameter here; it gives hundredths. *)
Class BlobReader : Type := blob_real : list Z -> Z.

(** A cell of [total_amount] as SUM reads it. *)
Definition sql_real {reader : BlobReader} (a : Amount) : Z :=
  match a with
  | Number hundredths => hundredths
  | Blob bytes => blob_real bytes
  end.

Section Services.

Context {digest : Sha256}.

Definition hash_password (password : string) : string :=
  sha256_hexdigest password.

(** SELECT * FROM customers WHERE email = ? AND password_hash = ? *)
Definition select_customer (email hash : string) (db : Database) : list Customer :=
  filter (fun c => (cu_email c =? email)%string && (cu_password_hash c =? hash)%string)
         (customers db).

Definition authenticate_user (up : bool) (db : Database)
    (email password : string) : option Customer :=
  match create_connection up db with
  | Some conn =>
      match query (select_customer email (hash_password password)) conn with
      | (Value rows, _) => hd_error rows          (* cursor.fetchone() *)
      | (Raised _, _) => None
      end
  | None => None
  end.

Definition register_customer (up : bool) (now : Z) (db : Database)
    (data : Registration) : result bool * Database :=
  with_connection up db
    (first_name <- getitem "first_name" (reg_first_name data) ;;
     last_name <- getitem "last_name" (reg_last_name data) ;;
     email <- getitem "email" (reg_email data) ;;
     password <- getitem "password" (reg_password data) ;;
     password <- encode password ;;
     let hash := hash_password password in
     phone <- getitem "phone" (reg_phone data) ;;
     address <- getitem "address" (reg_address data) ;;
     city <- getitem "city" (reg_city data) ;;
     state <- getitem "state" (reg_state data) ;;
     zip_code <- getitem "zip_code" (reg_zip_code data) ;;
     country <- getitem "country" (reg_country data) ;;
     try_except
       (statement (insert_customer now first_name last_name email hash
                     phone address city state zip_code country) ;;;
        commit ;;;
        ret true)
       (fun _ => ret false))%exec
    false.

Definition add_product (up : bool) (now : Z) (db : Database)
    (data : ProductData) : result bool * Database :=
  with_connection up db
    (name <- getitem "name" (pd_name data) ;;
     category_id <- getitem "category_id" (pd_category_id data) ;;
     price <- getitem "price" (pd_price data) ;;
     stock <- getitem "stock" (pd_stock data) ;;
     description <- getitem "description" (pd_description data) ;;
     let image_url := get_default (pd_image_url data) "" in
     try_except
       (statement (insert_product now name category_id price stock
                                  description image_url) ;;;
        commit ;;;
        ret true)
       (fun _ => ret false))%exec
    false.

(** SELECT p.*, c.category_name FROM products p LEFT JOIN categories c
    ON p.category_id = c.category_id ORDER BY p.created_at DESC *)
Definition get_products (up : bool) (db : Database) : list ProductView :=
  if up then
    order_by (fun a b => p_created_at (pv_product b) <=? p_created_at (pv_product a))
      (flat_map
         (fun p =>
            match filter (fun c => eq_param (p_category_id p) (c_id c)) (categories db) with
            | [] => [mkProductView p None]
            | cs => map (fun c => mkProductView p (Some (c_name c))) cs
            end)
         (products db))
  else [].

(** SELECT * FROM categories ORDER BY category_name *)
Definition get_categories (up : bool) (db : Database) : list Category :=
  if up then order_by (fun a b => String.leb (c_name a) (c_name b)) (categories db)
  else [].

Definition add_category (up : bool) (now : Z) (db : Database)
    (name description : string) : result bool * Database :=
  with_connection up db
    (try_except
       (statement (insert_category now name description) ;;;
        commit ;;;
        ret true)
       (fun _ => ret false))%exec
    false.

Definition add_to_cart (up : bool) (now : Z) (db : Database)
    (customer_id product_id quantity : Z) : result bool * Database :=
  with_connection up db
    (existing <- query (fun d => hd_error (select_cart customer_id product_id d)) ;;
     match existing with
     | Some _ => statement (update_cart quantity customer_id product_id)
     | None => statement (insert_cart now customer_id product_id quantity)
     end ;;;
     commit ;;;
     ret true)%exec
    false.

(** ... FROM cart c JOIN products p ON c.product_id = p.product_id
    WHERE c.customer_id = ? *)
Definition cart_join (db : Database) (customer_id : Z) : list (CartRow * Product) :=
  flat_map
    (fun c => map (pair c) (filter (fun p => p_id p =? ct_product_id c) (products db)))
    (filter (fun c => ct_customer_id c =? customer_id) (cart db)).

(** SELECT c.*, p.product_name, p.price, p.image_url,
    (c.quantity * p.price) as subtotal *)
Definition cart_line (x : CartRow * Product) : CartLine :=
  mkCartLine (Some (ct_product_id (fst x))) (Some (ct_quantity (fst x)))
             (Some (p_price (snd x))) (Some (ct_quantity (fst x) * p_price (snd x))).

(** [c.quantity] is an INTEGER, so the product [c.quantity * p.price] is an
    INTEGER exactly when [p.price] is stored as one. *)
Definition get_cart_items (up : bool) (db : Database) (customer_id : Z)
  : DataFrame :=
  if up then
    let rows := cart_join db customer_id in
    Frame (read_dtype (map (fun x => is_integer (p_price (snd x))) rows))
          (map cart_line rows)
  else NoColumns.

Definition clear_cart (up : bool) (db : Database) (customer_id : Z)
  : result unit * Database :=
  with_connection up db
    (statement (delete_cart customer_id) ;;;
     commit)%exec
    tt.

Definition create_order (up : bool) (now : Z) (db : Database)
    (customer_id : Z) (cart_items : DataFrame)
    (shipping_address payment_method : string) : result (option Z) * Database :=
  with_connection up db
    (subtotal <- subtotal_column cart_items ;;
     let total := sum_result subtotal in
     order_id <- statement (insert_order now customer_id (bound_amount total)
                              shipping_address payment_method) ;;
     for_each (iterrows cart_items)
       (fun item =>
          statement (insert_order_item order_id (l_product_id item)
                       (l_quantity item) (l_price item) (l_subtotal item)) ;;;
          statement (update_stock (l_quantity item) (l_product_id item))) ;;;
     commit ;;;
     ret (Some order_id))%exec
    None.

Definition order_view (o : Order) (c : Customer) : OrderView :=
  mkOrderView o (cu_first_name c) (cu_last_name c) (cu_email c).

(** ... FROM orders o JOIN customers c ON o.customer_id = c.customer_id *)
Definition orders_with_customers (db : Database) : list OrderView :=
  flat_map
    (fun o => map (order_view o)
                (filter (fun c => cu_id c =? o_customer_id o) (customers db)))
    (orders db).

Definition newest_first (a b : OrderView) : bool :=
  o_date (ov_order b) <=? o_date (ov_order a).

Definition get_orders (up : bool) (db : Database) (customer_id : option Z)
  : list OrderView :=
  if up then
    if truthy customer_id then
      order_by newest_first
        (filter (fun v => eq_param customer_id (o_customer_id (ov_order v)))
                (orders_with_customers db))
    else
      order_by newest_first (orders_with_customers db)
  else [].

(** *** The pieces of [main] that decide what reaches the store *)

(** The Shop tab ("Apply filters", "Apply sorting"): [products] is the
    frame of [get_products].  [None] when the search text is a pattern
    outside the modelled regular expressions. *)
Definition list_products (search category_filter sort_by : string)
    (products : list ProductView) : option (list ProductView) :=
  let searched :=
    if (search =? "")%string then Some products      (* [if search:] *)
    else
      match Text.re_compile search with
      | Some items =>
          Some (filter (fun v => Text.re_search items (p_name (pv_product v))) products)
      | None => None
      end in
  match searched with
  | None => None
  | Some products =>
      let products :=
        if negb (category_filter =? "All")%string
        then filter (fun v => match pv_category_name v with
                              | Some n => (n =? category_filter)%string
                              | None => false
                              end) products
        else products in
      Some
        (if (sort_by =? "Name")%string then
           order_by (fun a b => String.leb (p_name (pv_product a)) (p_name (pv_product b)))
                   products
         else if (sort_by =? "Price: Low to High")%string then
           order_by (fun a b => p_price (pv_product a) <=? p_price (pv_product b)) products
         else
           order_by (fun a b => p_price (pv_product b) <=? p_price (pv_product a)) products)
  end.




(** The "Custom SQL Query" expander of the Database tab. *)
Inductive GatewayOutcome : Type :=
| Executed (sql : string)   (* [pd.read_sql(custom_query, conn)] was called *)
| NoConnection              (* the query passed the check, [create_connection] gave None *)
| Rejected.                 (* "Only SELECT queries are allowed for safety!" *)

Definition query_allowed (custom_query : string) : bool :=
  Text.startswith (Text.upper (Text.strip custom_query)) "SELECT".

Definition execute_query (up : bool) (custom_query : string) : GatewayOutcome :=
  if query_allowed custom_query then
    if up then Executed custom_query else NoConnection
  else Rejected.

(** The statements handed to the store by the gateway. *)
Definition statements_run (o : GatewayOutcome) : list string :=
  match o with
  | Executed sql => [sql]
  | NoConnection | Rejected => []
  end.

(** *** Reachable states

    The calls that write, and the states they lead to from a fresh
    database file. *)
Inductive request : Type :=
| Register (data : Registration)
| AddProduct (data : ProductData)
| AddCategory (name description : string)
| AddToCart (customer_id product_id quantity : Z)
| ClearCart (customer_id : Z)
| CreateOrder (customer_id : Z) (cart_items : DataFrame)
              (shipping_address payment_method : string).

(** The database file after a call, returned or raised. *)
Definition serve (up : bool) (now : Z) (db : Database) (r : request) : Database :=
  match r with
  | Register data => snd (register_customer up now db data)
  | AddProduct data => snd (add_product up now db data)
  | AddCategory name description => snd (add_category up now db name description)
  | AddToCart c p q => snd (add_to_cart up now db c p q)
  | ClearCart c => snd (clear_cart up db c)
  | CreateOrder c items a m => snd (create_order up now db c items a m)
  end.

Inductive reachable : Database -> Prop :=
| reach_init : reachable (init_database None)
| reach_serve up now db r : reachable db -> reachable (serve up now db r).

(** A run of calls, each with its own connection outcome and clock. *)
Fixpoint serve_all (db : Database) (calls : list (bool * Z * request)) : Database :=
  match calls with
  | [] => db
  | (up, now, r) :: calls' => serve_all (serve up now db r) calls'
  end.

End Services.

(** *** More of [main]: the category form and the checkout *)

(** The "Add Category" form of the Admin tab. *)
Inductive CategoryMessage : Type :=
| CategoryNameRequired    (* "Category name is required!" *)
| CategoryAdded           (* "Category ... added successfully!" *)
| CategoryFailed.         (* "Failed to add category!" *)

(** [if st.form_submit_button("Add Category"): ...] *)
Definition submit_add_category (up : bool) (now : Z) (db : Database)
    (cat_name cat_desc : string) : result CategoryMessage * Database :=
  if (Text.strip cat_name =? "")%string then (Value CategoryNameRequired, db)
  else
    match add_category up now db (Text.strip cat_name) (Text.strip cat_desc) with
    | (Value true, db') => (Value CategoryAdded, db')
    | (Value false, db') => (Value CategoryFailed, db')
    | (Raised e, db') => (Raised e, db')
    end.

(** The Cart tab.  [cart_items] is the frame that [get_cart_items] gave when
    the page was drawn; the form exists only when it has rows. *)
Inductive CheckoutMessage : Type :=
| CartIsEmpty                   (* "Your cart is empty" *)
| OrderPlaced (order_id : Z)    (* "Order #... placed successfully!" *)
| NoOrder.                      (* [create_order] gave a falsy value *)

(** [if st.form_submit_button("Place Order"): ...] *)
Definition submit_checkout (up_order up_clear : bool) (now : Z) (db : Database)
    (customer_id : Z) (cart_items : DataFrame)
    (shipping_address payment_method : string)
  : result CheckoutMessage * Database :=
  if empty cart_items then (Value CartIsEmpty, db)
  else
      match create_order up_order now db customer_id cart_items
              shipping_address payment_method with
      | (Value order_id, db1) =>
          if truthy order_id then
            match order_id, clear_cart up_clear db1 customer_id with
            | Some id, (Value _, db2) => (Value (OrderPlaced id), db2)
            | None, (Value _, db2) => (Value NoOrder, db2)
            | _, (Raised e, db2) => (Raised e, db2)
            end
          else (Value NoOrder, db1)
      | (Raised e, db1) => (Raised e, db1)
      end.

(** *** The reports of [get_sales_analytics]

    [date_of] is SQL's DATE on a timestamp: the day number.  The order of
    rows that tie under ORDER BY is left open by SQL; the model keeps them
    in ascending order of the GROUP BY key. *)

Definition sum_of {A : Type} (f : A -> Z) (l : list A) : Z :=
  fold_right (fun x acc => f x + acc) 0 l.

(** The distinct values of a column. *)
Fixpoint distinct (keys : list Z) : list Z :=
  match keys with
  | [] => []
  | k :: keys' => k :: filter (fun x => negb (x =? k)) (distinct keys')
  end.

(** GROUP BY an integer key: the groups in ascending order of the key,
    each with its rows. *)
Definition group_by {A : Type} (key : A -> Z) (rows : list A) : list (Z * list A) :=
  map (fun k => (k, filter (fun r => key r =? k) rows))
      (order_by Z.leb (distinct (map key rows))).

Definition date_of (timestamp : Z) : Z := timestamp / 86400.

Record DailySales : Type := mkDailySales {
  ds_date : Z;
  ds_orders : Z;      (* COUNT( * ) *)
  ds_revenue : Z      (* SUM(total_amount) *)
}.

(** ... FROM orders WHERE order_date >= DATE('now', '-30 days') *)
Definition recent_orders (now : Z) (db : Database) : list Order :=
  filter (fun o => date_of now - 30 <=? date_of (o_date o)) (orders db).

(** SELECT DATE(order_date) as date, COUNT( * ) as orders,
    SUM(total_amount) as revenue ... GROUP BY DATE(order_date) ORDER BY date *)
Definition daily_sales {reader : BlobReader} (now : Z) (db : Database)
  : list DailySales :=
  map (fun g => mkDailySales (fst g) (Z.of_nat (List.length (snd g)))
                             (sum_of (fun o => sql_real (o_total o)) (snd g)))
      (group_by (fun o => date_of (o_date o)) (recent_orders now db)).

Record ProductSales : Type := mkProductSales {
  ps_product_name : string;
  ps_total_sold : Z;  (* SUM(oi.quantity) *)
  ps_revenue : Z      (* SUM(oi.subtotal) *)
}.

(** ... FROM order_items oi JOIN products p ON oi.product_id = p.product_id *)
Definition sold_items (db : Database) : list (OrderItem * Product) :=
  flat_map
    (fun oi => map (pair oi)
                 (filter (fun p => eq_param (oi_product_id oi) (p_id p)) (products db)))
    (order_items db).

(** SELECT p.product_name, SUM(oi.quantity) as total_sold, SUM(oi.subtotal)
    as revenue ... GROUP BY p.product_id *)
Definition product_sales (db : Database) : list ProductSales :=
  map (fun g => mkProductSales
                  (match snd g with (_, p) :: _ => p_name p | [] => "" end)
                  (sum_of (fun x => oi_quantity (fst x)) (snd g))
                  (sum_of (fun x => oi_subtotal (fst x)) (snd g)))
      (group_by (fun x => p_id (snd x)) (sold_items db)).

(** ... ORDER BY total_sold DESC LIMIT 10 *)
Definition top_products (db : Database) : list ProductSales :=
  firstn 10 (order_by (fun a b => ps_total_sold b <=? ps_total_sold a)
                      (product_sales db)).

Record CategorySales : Type := mkCategorySales {
  cs_category_name : string;
  cs_orders : Z;      (* COUNT(DISTINCT oi.order_id) *)
  cs_revenue : Z      (* SUM(oi.subtotal) *)
}.

(** ... JOIN categories c ON p.category_id = c.category_id *)
Definition categorised_items (db : Database) : list (OrderItem * Category) :=
  flat_map
    (fun x => map (pair (fst x))
                (filter (fun c => eq_param (p_category_id (snd x)) (c_id c))
                        (categories db)))
    (sold_items db).

(** SELECT c.category_name, COUNT(DISTINCT oi.order_id) as orders,
    SUM(oi.subtotal) as revenue ... GROUP BY c.category_id
    ORDER BY revenue DESC *)
Definition category_sales (db : Database) : list CategorySales :=
  order_by (fun a b => cs_revenue b <=? cs_revenue a)
    (map (fun g => mkCategorySales
                     (match snd g with (_, c) :: _ => c_name c | [] => "" end)
                     (Z.of_nat (List.length
                                  (distinct (map (fun x => oi_order_id (fst x)) (snd g)))))
                     (sum_of (fun x => oi_subtotal (fst x)) (snd g)))
         (group_by (fun x => c_id (snd x)) (categorised_items db))).

Definition get_sales_analytics {reader : BlobReader}
    (up : bool) (now : Z) (db : Database)
  : list DailySales * list ProductSales * list CategorySales :=
  if up then (daily_sales now db, top_products db, category_sales db)
  else ([], [], []).

(** *** Notions used to state the properties *)

(** The category name that [get_products] shows for a product: that of the
    category its category_id names, if there is one. *)
Definition category_name_of (db : Database) (p : Product) : option string :=
  option_map c_name
    (find (fun c => eq_param (p_category_id p) (c_id c)) (categories db)).

(** The customer that an order names, if there is one. *)
Definition customer_of (db : Database) (o : Order) : option Customer :=
  find (fun c => cu_id c =? o_customer_id o) (customers db).

(** The quantity of one product in one customer's cart. *)
Definition cart_quantity (db : Database) (customer_id product_id : Z) : Z :=
  fold_right (fun r acc => ct_quantity r + acc) 0
             (select_cart customer_id product_id db).

(** The line that [get_cart_items] gives for a cart row: none when no
    product has the row's product_id. *)
Definition line_of (db : Database) (r : CartRow) : option CartLine :=
  option_map
    (fun p => mkCartLine (Some (ct_product_id r)) (Some (ct_quantity r))
                (Some (p_price p)) (Some (ct_quantity r * p_price p)))
    (find (fun p => p_id p =? ct_product_id r) (products db)).

Definition lines_of_row (db : Database) (r : CartRow) : list CartLine :=
  match line_of db r with Some l => [l] | None => [] end.

(** The order items of a product, and the row that the top-products
    report has for it. *)
Definition items_for (db : Database) (p : Product) : list OrderItem :=
  filter (fun oi => eq_param (oi_product_id oi) (p_id p)) (order_items db).

Definition sales_row (db : Database) (p : Product) : ProductSales :=
  mkProductSales (p_name p) (sum_of oi_quantity (items_for db p))
                 (sum_of oi_subtotal (items_for db p)).

(** The quantity that order-item rows carry of a product. *)
Definition sold_in (rows : list OrderItem) (p : Product) : Z :=
  sum_of oi_quantity (filter (fun oi => eq_param (oi_product_id oi) (p_id p)) rows).

(** Primary keys handed out by AUTOINCREMENT: distinct, positive and no
    larger than the table's counter. *)
Definition keyed {A : Type} (key : A -> Z) (rows : list A) (seq : Z) : Prop :=
  0 <= seq /\ NoDup (map key rows) /\ Forall (fun r => 1 <= key r <= seq) rows.

Record well_keyed (db : Database) : Prop := mkWellKeyed {
  wk_categories : keyed c_id (categories db) (seq_categories (sqlite_sequence db));
  wk_products : keyed p_id (products db) (seq_products (sqlite_sequence db));
  wk_customers : keyed cu_id (customers db) (seq_customers (sqlite_sequence db));
  wk_orders : keyed o_id (orders db) (seq_orders (sqlite_sequence db));
  wk_order_items :
    keyed oi_id (order_items db) (seq_order_items (sqlite_sequence db));
  wk_cart : keyed ct_id (cart db) (seq_cart (sqlite_sequence db));
  wk_emails : NoDup (map cu_email (customers db));
  wk_names : NoDup (map c_name (categories db));
  wk_pending : Forall (fun o => o_status o = pending) (orders db)
}.


(** A text without white space. *)
Fixpoint no_space (s : string) : Prop :=
  match s with
  | EmptyString => True
  | String c s' => Text.isspace c = false /\ no_space s'
  end.

(** The value of a key; the text of a key that holds one. *)
Definition value_of {A : Type} (e : entry A) : option A :=
  match e with
  | Bound v => v
  | Missing => None
  end.

Definition text_of (e : entry string) : string :=
  match value_of e with
  | Some text => text
  | None => ""
  end.

(** The keys of a registration in the order in which [register_customer]
    reads them. *)
Definition registration_keys (data : Registration) : list (string * entry string) :=
  [("first_name", reg_first_name data); ("last_name", reg_last_name data);
   ("email", reg_email data); ("password", reg_password data);
   ("phone", reg_phone data); ("address", reg_address data);
   ("city", reg_city data); ("state", reg_state data);
   ("zip_code", reg_zip_code data); ("country", reg_country data)].

(** A registration that can be read: it has the ten keys, and its password
    is a text. *)
Definition readable (data : Registration) : Prop :=
  Forall (fun kv => snd kv <> Missing) (registration_keys data) /\
  reg_password data <> Bound None.

(** The exception that reading the keys raises, if any: KeyError for the
    first key that is missing, AttributeError for a password that is None
    when no key before it is missing. *)
Fixpoint first_error (keys : list (string * entry string)) : option exn :=
  match keys with
  | [] => None
  | (key, Missing) :: _ => Some (KeyError key)
  | (key, Bound None) :: keys' =>
      if (key =? "password")%string then Some (AttributeError "encode")
      else first_error keys'
  | (_, Bound (Some _)) :: keys' => first_error keys'
  end.

(** The row that a successful [register_customer] writes. *)
Definition customer_row {digest : Sha256}
    (now : Z) (db : Database) (data : Registration) : Customer :=
  mkCustomer (seq_customers (sqlite_sequence db) + 1)
    (text_of (reg_first_name data)) (text_of (reg_last_name data))
    (text_of (reg_email data)) (hash_password (text_of (reg_password data)))
    (value_of (reg_phone data)) (value_of (reg_address data))
    (value_of (reg_city data)) (value_of (reg_state data))
    (value_of (reg_zip_code data)) (value_of (reg_country data)) now.

(** The dtype of the subtotal column of a frame that has its columns. *)
Definition subtotal_dtype (df : DataFrame) : dtype :=
  match df with
  | Frame subtotal _ => subtotal
  | NoColumns => object
  end.

(** A price that is a whole number of units. *)
Definition whole_price (l : CartLine) : Prop :=
  exists price, l_price l = Some price /\ price mod 100 = 0.

(** The cell that [create_order] writes as the total of a frame that has
    its columns: the sum of the subtotals as a number, or, for an int64
    column, the bytes of the sum counted in whole units. *)
Definition stored_total (subtotal : dtype) (lines : list CartLine) : Amount :=
  match subtotal with
  | int64 => Blob (int64_bytes (series_sum (map l_subtotal lines) / 100))
  | float64 | object => Number (series_sum (map l_subtotal lines))
  end.

Definition email_taken (email : string) (db : Database) : bool :=
  existsb (fun c => (cu_email c =? email)%string) (customers db).

(** What the INSERT of a registration needs: a first name, a last name and
    an email that are not None, the email being that of no customer. *)
Definition accepted (data : Registration) (db : Database) : bool :=
  match value_of (reg_first_name data), value_of (reg_last_name data),
        value_of (reg_email data) with
  | Some _, Some _, Some email => negb (email_taken email db)
  | _, _, _ => false
  end.

(** The order-item rows written for the lines of an order, one per line
    and in the order of the lines: each row carries the order, the line's
    product, quantity, price (as unit price) and subtotal. *)
Fixpoint items_of (first_id order_id : Z)
    (lines : list CartLine) (rows : list OrderItem) : Prop :=
  match lines, rows with
  | [], [] => True
  | l :: lines', r :: rows' =>
      (oi_id r = first_id /\ oi_order_id r = order_id /\
       oi_product_id r = l_product_id l /\
       l_quantity l = Some (oi_quantity r) /\
       l_price l = Some (oi_unit_price r) /\
       l_subtotal l = Some (oi_subtotal r)) /\
      items_of (first_id + 1) order_id lines' rows'
  | _, _ => False
  end.

(** The products table after the stock updates of the lines, in turn. *)
Definition stock_after (lines : list CartLine) (ps : list Product) : list Product :=
  fold_left (fun ps l => map (take_stock (l_quantity l) (l_product_id l)) ps) lines ps.

(** The quantity that the lines order of one product. *)
Fixpoint quantity_ordered (product_id : Z) (lines : list CartLine) : Z :=
  match lines with
  | [] => 0
  | l :: lines' =>
      (if eq_param (l_product_id l) product_id
       then match l_quantity l with Some q => q | None => 0 end
       else 0) + quantity_ordered product_id lines'
  end.

Definition with_stock (p : Product) (stock : option Z) : Product :=
  mkProduct (p_id p) (p_name p) (p_category_id p) (p_price p) stock
            (p_description p) (p_image_url p) (p_created_at p) (p_updated_at p).

(** A line with a missing cell in a column that order_items declares
    NOT NULL. *)
Definition incomplete (l : CartLine) : Prop :=
  l_quantity l = None \/ l_price l = None \/ l_subtotal l = None.

(** At most one cart row for every (customer, product) pair. *)
Definition cart_unique (db : Database) : Prop :=
  forall c p, (List.length (select_cart c p db) <= 1)%nat.

(** The sum of the subtotals of order-item rows. *)
Definition total_of (rows : list OrderItem) : Z :=
  fold_right (fun r acc => oi_subtotal r + acc) 0 rows.

(** A line whose subtotal is its quantity times its price, the price being
    that of the product it names in [db]. *)
Definition priced_from (db : Database) (l : CartLine) : Prop :=
  exists q p,
    In p (products db) /\
    l_product_id l = Some (p_id p) /\ l_quantity l = Some q /\
    l_price l = Some (p_price p) /\ l_subtotal l = Some (q * p_price p).

(** The order items of an order, and the consistency of orders with their
    items: every item belongs to a stored order, and every order's total is
    the sum of its items' subtotals, as a number or as the bytes of the sum
    counted in whole units. *)
Definition items_in (db : Database) (o : Order) : list OrderItem :=
  filter (fun oi => oi_order_id oi =? o_id o) (order_items db).

Definition total_matches (db : Database) (o : Order) : Prop :=
  o_total o = Number (total_of (items_in db o)) \/
  o_total o = Blob (int64_bytes (total_of (items_in db o) / 100)).

Definition orders_consistent (db : Database) : Prop :=
  Forall (fun oi => 1 <= oi_order_id oi <= seq_orders (sqlite_sequence db) /\
                    exists o, In o (orders db) /\ o_id o = oi_order_id oi)
         (order_items db) /\
  Forall (total_matches db) (orders db).

(** A search text without any special character of [re]. *)
Fixpoint plain (s : string) : Prop :=
  match s with
  | EmptyString => True
  | String c s' => Text.re_special c = false /\ plain s'
  end.

(** *** Data of the scenarios

    The services run on concrete inputs.  The digest is a parameter of the
    development; the scenarios run with a stand-in, since the properties
    hold for any function. *)

Instance demo_digest : Sha256 :=
  fun password => ("sha256:" ++ password)%string.

Definition alice : Registration :=
  register_form "Alice" "Archer" "alice@example.org" "correct horse"
                "555-0100" "1 Main St" "Springfield" "IL" "62701" "US".

Definition impostor : Registration :=
  register_form "Mallory" "Moss" "alice@example.org" "guess"
                "" "" "" "" "" "".

Definition db_alice : Database :=
  snd (register_customer (digest := demo_digest) true 1 (init_database None) alice).

(** One widget at 5.00 with 5 in stock, and customer 1 holding 2 of it in
    the cart. *)
Definition demo_shop : Database :=
  mkDatabase []
    [mkProduct 1 "widget-9000" None 500 (Some 5) None None 0 0]
    [] [] []
    [mkCartRow 1 1 1 2 0]
    (mkSequence 0 1 0 0 0 1).

Definition widget_data : ProductData :=
  mkProductData (Bound (Some "widget-9000")) (Bound (Some 1)) (Bound (Some 500))
                (Bound (Some 5)) (Bound (Some "")) Missing.

(** A shop with one category, one product (key 1, 5.00, 5 in stock), Alice
    as customer 1 and two widgets in her cart; and the same shop once she
    has checked out. *)
Definition shop_calls : list (bool * Z * request) :=
  [(true, 1, AddCategory "tools" "hand tools");
   (true, 2, AddProduct widget_data);
   (true, 3, Register alice);
   (true, 4, AddToCart 1 1 2)].

Definition db_shop : Database :=
  serve_all (digest := demo_digest) (init_database None) shop_calls.

Definition db_sold : Database :=
  serve_all (digest := demo_digest) db_shop
    [(true, 9, CreateOrder 1 (get_cart_items true db_shop 1) "home" "PayPal");
     (true, 10, ClearCart 1)].

Definition alice_row : Customer :=
  mkCustomer 1 "Alice" "Archer" "alice@example.org" "sha256:correct horse"
             (Some "555-0100") (Some "1 Main St") (Some "Springfield") (Some "IL")
             (Some "62701") (Some "US") 3.

Definition widget_row : Product :=
  mkProduct 1 "widget-9000" (Some 1) 500 (Some 5) (Some "") (Some "") 2 2.

(** ** Properties *)

Section Properties.

Context {digest : Sha256} {reader : BlobReader}.

(** *** Sorting *)

Section Sorting.

Context {A : Type} (le : A -> A -> bool).
Hypothesis le_total : forall a b, le a b = false -> le b a = true.

Let R (a b : A) : Prop := le a b = true.

Lemma insert_by_perm (x : A) (l : list A) :
  Permutation (insert_by le x l) (x :: l).
Proof.
  induction l as [|y l IH]; simpl.
  - apply Permutation_refl.
  - destruct (le x y).
    + apply Permutation_refl.
    + apply perm_trans with (y :: x :: l).
      * apply perm_skip, IH.
      * apply perm_swap.
Qed.

Lemma order_by_perm (l : list A) : Permutation (order_by le l) l.
Proof.
  induction l as [|x l IH]; simpl.
  - apply perm_nil.
  - apply perm_trans with (x :: order_by le l).
    + apply insert_by_perm.
    + apply perm_skip, IH.
Qed.

Lemma insert_by_hd (a x : A) (l : list A) :
  R a x -> HdRel R a l -> HdRel R a (insert_by le x l).
Proof.
  intros Hax Hl. destruct l as [|y l]; simpl.
  - constructor. exact Hax.
  - destruct (le x y); constructor.
    + exact Hax.
    + inversion Hl; assumption.
Qed.

Lemma insert_by_sorted (x : A) (l : list A) :
  Sorted R l -> Sorted R (insert_by le x l).
Proof.
  induction l as [|y l IH]; simpl; intros Hs.
  - repeat constructor.
  - destruct (le x y) eqn:Hxy.
    + constructor; [exact Hs | constructor; exact Hxy].
    + inversion Hs as [|? ? Hs' Hhd]; subst.
      constructor.
      * apply IH, Hs'.
      * apply insert_by_hd; [apply le_total, Hxy | exact Hhd].
Qed.

Lemma order_by_sorted (l : list A) : Sorted R (order_by le l).
Proof.
  induction l as [|x l IH]; simpl.
  - constructor.
  - apply insert_by_sorted, IH.
Qed.

End Sorting.

(** *** Text: trimming and case folding *)

Ltac each_ascii c := destruct c as [[] [] [] [] [] [] [] []].

Lemma isspace_upper_char (c : ascii) :
  Text.isspace (Text.upper_char c) = Text.isspace c.
Proof. each_ascii c; reflexivity. Qed.

Lemma isspace_lower_char (c : ascii) :
  Text.isspace (Text.lower_char c) = Text.isspace c.
Proof. each_ascii c; reflexivity. Qed.

Lemma upper_lower_char (c : ascii) :
  Text.upper_char (Text.lower_char c) = Text.upper_char c.
Proof. each_ascii c; reflexivity. Qed.

Lemma lower_upper_char (c : ascii) :
  Text.lower_char (Text.upper_char c) = Text.lower_char c.
Proof. each_ascii c; reflexivity. Qed.

(** Folding to upper case and comparing with an upper-case character is
    comparing the lower-case foldings. *)
Lemma upper_char_matches (a c : ascii) :
  Text.upper_char a = a ->
  (Ascii.eqb a (Text.upper_char c) = true <-> Text.lower_char c = Text.lower_char a).
Proof.
  intros Ha. rewrite Ascii.eqb_eq. split; intros H.
  - rewrite H. apply eq_sym, lower_upper_char.
  - rewrite <- Ha, <- (upper_lower_char a), <- H. apply upper_lower_char.
Qed.

Lemma startswith_empty (s : string) : Text.startswith s "" = true.
Proof. destruct s; reflexivity. Qed.

Lemma startswith_upper (k s : string) :
  Text.upper k = k ->
  (Text.startswith (Text.upper s) k = true <->
   exists kw rest, s = (kw ++ rest)%string /\ Text.same_ignoring_case kw k).
Proof.
  revert s. induction k as [|a k IH]; intros s Hk.
  - split; [intros _ | intros _; apply startswith_empty].
    exists EmptyString, s. split; [reflexivity | exact I].
  - simpl in Hk. injection Hk as Ha Hk'.
    destruct s as [|c s]; simpl.
    + split; [discriminate|].
      intros (kw & rest & Heq & Hsame).
      destruct kw; simpl in *; [contradiction | discriminate].
    + rewrite andb_true_iff, (upper_char_matches a c Ha), (IH s Hk').
      split.
      * intros (Hc & kw & rest & Heq & Hsame).
        exists (String c kw), rest. simpl. subst s. auto.
      * intros (kw & rest & Heq & Hsame).
        destruct kw as [|c' kw]; simpl in Hsame; [contradiction|].
        destruct Hsame as (Hc & Hsame). simpl in Heq. injection Heq as -> ->.
        split; [exact Hc | exists kw, rest; auto].
Qed.

Lemma rstrip_cons (c : ascii) (s : string) :
  Text.isspace c = false -> Text.rstrip (String c s) = String c (Text.rstrip s).
Proof. intros Hc. simpl. rewrite Hc. destruct (Text.rstrip s); reflexivity. Qed.

(** Trailing white space cannot decide whether a text starts with a
    keyword that has none. *)
Lemma startswith_rstrip (k s : string) :
  no_space k ->
  Text.startswith (Text.upper (Text.rstrip s)) k = Text.startswith (Text.upper s) k.
Proof.
  revert k. induction s as [|c s IH]; intros k Hk; [reflexivity|].
  destruct k as [|a k]; [rewrite !startswith_empty; reflexivity|].
  destruct Hk as (Ha & Hk).
  destruct (Text.isspace c) eqn:Hc.
  - assert (Hne : Ascii.eqb a (Text.upper_char c) = false).
    { apply Ascii.eqb_neq. intros ->. rewrite isspace_upper_char in Ha. congruence. }
    simpl. rewrite Hc, Hne.
    destruct (Text.rstrip s); simpl; [reflexivity | rewrite Hne; reflexivity].
  - rewrite (rstrip_cons c s Hc). simpl. rewrite (IH k Hk). reflexivity.
Qed.

Lemma lstrip_split (q : string) :
  exists ws, q = (ws ++ Text.lstrip q)%string /\ Text.all_space ws.
Proof.
  induction q as [|c q (ws & Heq & Hws)]; simpl.
  - exists EmptyString. split; [reflexivity | exact I].
  - destruct (Text.isspace c) eqn:Hc.
    + exists (String c ws). simpl. rewrite <- Heq. auto.
    + exists EmptyString. split; [reflexivity | exact I].
Qed.

Lemma lstrip_app (ws t : string) :
  Text.all_space ws -> Text.lstrip (ws ++ t) = Text.lstrip t.
Proof.
  induction ws as [|c ws IH]; simpl; intros Hws; [reflexivity|].
  destruct Hws as (Hc & Hws). rewrite Hc. apply IH, Hws.
Qed.

Lemma lstrip_keyword (a : ascii) (k kw rest : string) :
  Text.isspace a = false ->
  Text.same_ignoring_case kw (String a k) ->
  Text.lstrip (kw ++ rest) = (kw ++ rest)%string.
Proof.
  intros Ha Hsame. destruct kw as [|c kw]; simpl in Hsame; [contradiction|].
  destruct Hsame as (Hc & _). simpl.
  rewrite <- (isspace_lower_char c), Hc, isspace_lower_char, Ha. reflexivity.
Qed.

(** *** The ad-hoc query gateway *)

Lemma query_allowed_lstrip (q : string) :
  query_allowed q = Text.startswith (Text.upper (Text.lstrip q)) "SELECT".
Proof.
  unfold query_allowed, Text.strip. apply startswith_rstrip.
  simpl. repeat split; reflexivity.
Qed.

(** C5. The gateway lets a query through exactly when the query, after its
    surrounding white space is trimmed, begins with SELECT in any letter
    case; that is, when it is white space, then the keyword, then anything.
    A query that is not let through is rejected and nothing is handed to
    the store.  "  select * from products" passes, "DROP TABLE products"
    is rejected. *)
Theorem gateway_accepts_exactly_select (up : bool) (custom_query : string) :
  (execute_query up custom_query <> Rejected <->
     exists kw rest,
       Text.strip custom_query = (kw ++ rest)%string /\
       Text.same_ignoring_case kw "SELECT") /\
  (execute_query up custom_query <> Rejected <->
     exists ws kw rest,
       custom_query = (ws ++ kw ++ rest)%string /\
       Text.all_space ws /\ Text.same_ignoring_case kw "SELECT") /\
  (execute_query up custom_query = Rejected ->
     statements_run (execute_query up custom_query) = []) /\
  execute_query true custom_query =
    (if query_allowed custom_query then Executed custom_query else Rejected) /\
  execute_query true "  select * from products" = Executed "  select * from products" /\
  execute_query up "DROP TABLE products" = Rejected.
Proof.
  assert (Hgate : execute_query up custom_query <> Rejected <->
                  query_allowed custom_query = true).
  { unfold execute_query. destruct (query_allowed custom_query), up;
      split; intros H; congruence. }
  split; [|split; [|split; [|split; [|split]]]].
  - rewrite Hgate. unfold query_allowed. apply startswith_upper. reflexivity.
  - rewrite Hgate, query_allowed_lstrip, (startswith_upper "SELECT"); [|reflexivity].
    split.
    + intros (kw & rest & Heq & Hsame).
      destruct (lstrip_split custom_query) as (ws & Hq & Hws).
      exists ws, kw, rest. rewrite <- Heq. auto.
    + intros (ws & kw & rest & Heq & Hws & Hsame).
      exists kw, rest. split; [|exact Hsame].
      rewrite Heq, (lstrip_app ws _ Hws).
      apply (lstrip_keyword "S" "ELECT"); [reflexivity | exact Hsame].
  - intros ->. reflexivity.
  - reflexivity.
  - reflexivity.
  - reflexivity.
Qed.

(** *** Order history ([get_orders]) *)

Lemma newest_first_total (a b : OrderView) :
  newest_first a b = false -> newest_first b a = true.
Proof. unfold newest_first. intros H. apply Z.leb_gt in H. apply Z.leb_le. lia. Qed.

(** *** What each call leaves in the file *)

Ltac run_exec :=
  unfold with_connection, create_connection, try_except, bind, statement,
         query, commit, ret, raise; cbn [txn disk].

Lemma register_customer_eq (up : bool) (now : Z) (db : Database) (data : Registration) :
  register_customer up now db data =
  if up then
    match first_error (registration_keys data) with
    | Some e => (Raised e, db)
    | None =>
        if accepted data db
        then (Value true,
              mkDatabase (categories db) (products db)
                (customers db ++ [customer_row now db data])
                (orders db) (order_items db) (cart db)
                (bump_customers (sqlite_sequence db)))
        else (Value false, db)
    end
  else (Value false, db).
Proof.
  destruct data as [f l e p ph a c s z co].
  unfold register_customer, insert_customer, accepted, email_taken, customer_row,
         registration_keys, getitem, encode.
  run_exec.
  destruct up; cbn [txn disk]; [|reflexivity].
  cbn [reg_first_name reg_last_name reg_email reg_password reg_phone reg_address
       reg_city reg_state reg_zip_code reg_country first_error String.eqb Ascii.eqb
       Bool.eqb].
  destruct f as [|f]; [reflexivity|].
  destruct l as [|l]; [destruct f; reflexivity|].
  destruct e as [|e]; [destruct f, l; reflexivity|].
  destruct p as [|[p|]]; [destruct f, l, e; reflexivity | | destruct f, l, e; reflexivity].
  destruct ph as [|ph]; [destruct f, l, e; reflexivity|].
  destruct a as [|a]; [destruct f, l, e, ph; reflexivity|].
  destruct c as [|c]; [destruct f, l, e, ph, a; reflexivity|].
  destruct s as [|s]; [destruct f, l, e, ph, a, c; reflexivity|].
  destruct z as [|z]; [destruct f, l, e, ph, a, c, s; reflexivity|].
  destruct co as [|co]; [destruct f, l, e, ph, a, c, s, z; reflexivity|].
  destruct f as [f|], l as [l|], e as [e|], ph, a, c, s, z, co;
    cbn [first_error String.eqb Ascii.eqb Bool.eqb value_of text_of];
    try reflexivity;
    cbn [txn disk customers];
    destruct (existsb _ (customers db)); reflexivity.
Qed.

(** [register_customer] either leaves the file as it was and does not
    return True, or appends the row of the registration. *)
Lemma register_customer_cases (up : bool) (now : Z) (db : Database)
    (data : Registration) :
  snd (register_customer up now db data) = db /\
  fst (register_customer up now db data) <> Value true
  \/
  up = true /\ first_error (registration_keys data) = None /\
  accepted data db = true /\
  register_customer up now db data =
  (Value true,
   mkDatabase (categories db) (products db)
     (customers db ++ [customer_row now db data])
     (orders db) (order_items db) (cart db)
     (bump_customers (sqlite_sequence db))).
Proof.
  rewrite register_customer_eq.
  destruct up; [|left; split; [reflexivity | discriminate]].
  destruct (first_error (registration_keys data));
    [left; split; [reflexivity | discriminate]|].
  destruct (accepted data db); [right; auto | left; split; [reflexivity | discriminate]].
Qed.

Lemma add_category_eq (up : bool) (now : Z) (db : Database) (name description : string) :
  add_category up now db name description =
  if up && negb (existsb (fun c => (c_name c =? name)%string) (categories db))
  then (Value true,
        mkDatabase
          (categories db ++
             [mkCategory (seq_categories (sqlite_sequence db) + 1) name description now])
          (products db) (customers db) (orders db) (order_items db) (cart db)
          (bump_categories (sqlite_sequence db)))
  else (Value false, db).
Proof.
  unfold add_category, insert_category. run_exec.
  destruct up; cbn [txn disk]; [|reflexivity].
  destruct (existsb _ (categories db)); reflexivity.
Qed.

Lemma add_to_cart_eq (up : bool) (now : Z) (db : Database) (c p q : Z) :
  add_to_cart up now db c p q =
  if up then
    (Value true,
     match select_cart c p db with
     | _ :: _ =>
         mkDatabase (categories db) (products db) (customers db)
           (orders db) (order_items db)
           (map (fun r => if cart_entry_of c p r then add_quantity q r else r) (cart db))
           (sqlite_sequence db)
     | [] =>
         mkDatabase (categories db) (products db) (customers db)
           (orders db) (order_items db)
           (cart db ++ [mkCartRow (seq_cart (sqlite_sequence db) + 1) c p q now])
           (bump_cart (sqlite_sequence db))
     end)
  else (Value false, db).
Proof.
  unfold add_to_cart, update_cart, insert_cart. run_exec.
  destruct up; cbn [txn disk]; [|reflexivity].
  destruct (select_cart c p db); reflexivity.
Qed.

Lemma clear_cart_eq (up : bool) (db : Database) (c : Z) :
  clear_cart up db c =
  (Value tt,
   if up then
     mkDatabase (categories db) (products db) (customers db)
       (orders db) (order_items db)
       (filter (fun r => negb (ct_customer_id r =? c)) (cart db))
       (sqlite_sequence db)
   else db).
Proof. unfold clear_cart, delete_cart. run_exec. destruct up; reflexivity. Qed.

(** [add_product] either leaves the file as it was, or adds one product
    row built from entries that are all bound. *)
Lemma add_product_cases (up : bool) (now : Z) (db : Database) (data : ProductData) :
  snd (add_product up now db data) = db /\ fst (add_product up now db data) <> Value true
  \/
  exists name category_id price stock description,
    up = true /\
    pd_name data = Bound (Some name) /\
    pd_category_id data = Bound category_id /\
    pd_price data = Bound (Some price) /\
    pd_stock data = Bound stock /\
    pd_description data = Bound description /\
    add_product up now db data =
    (Value true,
     mkDatabase (categories db)
       (products db ++
          [mkProduct (seq_products (sqlite_sequence db) + 1) name category_id price
             stock description (get_default (pd_image_url data) "") now now])
       (customers db) (orders db) (order_items db) (cart db)
       (bump_products (sqlite_sequence db))).
Proof.
  destruct data as [n c p s d i].
  unfold add_product, insert_product, getitem. run_exec.
  destruct up; cbn [txn disk]; [|left; split; [reflexivity | discriminate]].
  destruct n as [|[n|]], c as [|c], p as [|[p|]], s as [|s], d as [|d]; simpl;
    try (left; split; [reflexivity | discriminate]).
  right. exists n, c, p, s, d. repeat split.
Qed.

(** *** Order placement *)

(** The loop of [create_order] over the lines: it never touches the
    committed file; when it completes, the pending transaction holds one
    new order-item row per line and the stock updates, and nothing else
    has changed; when it raises, some line is incomplete. *)
Lemma order_lines_run (order_id : Z) (items : list CartLine) (c : Connection) :
  match
    for_each items
      (fun item =>
         statement (insert_order_item order_id (l_product_id item)
                      (l_quantity item) (l_price item) (l_subtotal item)) ;;;
         statement (update_stock (l_quantity item) (l_product_id item)))%exec c
  with
  | (Value _, c') =>
      disk c' = disk c /\
      exists rows,
        items_of (seq_order_items (sqlite_sequence (txn c)) + 1) order_id items rows /\
        txn c' =
          mkDatabase (categories (txn c)) (stock_after items (products (txn c)))
            (customers (txn c)) (orders (txn c))
            (order_items (txn c) ++ rows) (cart (txn c))
            (mkSequence (seq_categories (sqlite_sequence (txn c)))
               (seq_products (sqlite_sequence (txn c)))
               (seq_customers (sqlite_sequence (txn c)))
               (seq_orders (sqlite_sequence (txn c)))
               (seq_order_items (sqlite_sequence (txn c)) + Z.of_nat (List.length items))
               (seq_cart (sqlite_sequence (txn c))))
  | (Raised e, c') =>
      disk c' = disk c /\ (exists k, e = IntegrityError k) /\
      exists item, In item items /\ incomplete item
  end.
Proof.
  match goal with |- context [for_each items ?b] => set (body := b) end.
  revert c. induction items as [|item items IH]; intros c.
  - simpl. unfold ret. split; [reflexivity|].
    exists []. split; [exact I|].
    rewrite app_nil_r, Z.add_0_r.
    destruct c as [d [cs ps us os ois ct [s1 s2 s3 s4 s5 s6]]]. reflexivity.
  - cbn [for_each]. unfold bind at 1. unfold body at 1.
    unfold bind, statement, insert_order_item, update_stock.
    destruct (l_quantity item) as [q|] eqn:Hq;
      [|split; [reflexivity|]; split; [eexists; reflexivity|];
        exists item; unfold incomplete; auto using in_eq].
    destruct (l_price item) as [pr|] eqn:Hp;
      [|split; [reflexivity|]; split; [eexists; reflexivity|];
        exists item; unfold incomplete; auto using in_eq].
    destruct (l_subtotal item) as [st|] eqn:Hs;
      [|split; [reflexivity|]; split; [eexists; reflexivity|];
        exists item; unfold incomplete; auto using in_eq].
    cbn [txn disk].
    match goal with |- context [for_each items body ?c2] =>
      specialize (IH c2); revert IH;
      destruct (for_each items body c2) as [[u|e] c']; intros IH end;
      cbn [txn disk products categories customers orders order_items cart
           sqlite_sequence bump_order_items seq_categories seq_products
           seq_customers seq_orders seq_order_items seq_cart] in IH.
    + destruct IH as (Hd & rows & Hrows & Htxn). split; [exact Hd|].
      exists (mkOrderItem (seq_order_items (sqlite_sequence (txn c)) + 1)
                order_id (l_product_id item) q pr st :: rows).
      split.
      * simpl. rewrite Hq, Hp, Hs. repeat split; assumption.
      * rewrite Htxn. unfold stock_after. cbn [fold_left List.length].
        rewrite Nat2Z.inj_succ, <- app_assoc, Hq. cbn [app].
        do 2 f_equal. lia.
    + destruct IH as (Hd & Hk & it & Hin & Hinc). split; [exact Hd|].
      split; [exact Hk|]. exists it. split; [right; exact Hin | exact Hinc].
Qed.

Lemma bound_amount_stored (subtotal : dtype) (lines : list CartLine) :
  bound_amount (sum_result (subtotal, map l_subtotal lines)) = stored_total subtotal lines.
Proof. destruct subtotal; reflexivity. Qed.

(** [create_order], case by case. *)
Lemma create_order_run (up : bool) (now : Z) (db : Database) (customer_id : Z)
    (cart_items : DataFrame) (shipping_address payment_method : string) :
  match create_order up now db customer_id cart_items shipping_address payment_method with
  | (Value (Some order_id), db') =>
      up = true /\ order_id = seq_orders (sqlite_sequence db) + 1 /\
      exists subtotal lines rows,
        cart_items = Frame subtotal lines /\
        items_of (seq_order_items (sqlite_sequence db) + 1) order_id lines rows /\
        db' =
          mkDatabase (categories db) (stock_after lines (products db))
            (customers db)
            (orders db ++
               [mkOrder order_id customer_id now (stored_total subtotal lines)
                  pending shipping_address payment_method])
            (order_items db ++ rows) (cart db)
            (mkSequence (seq_categories (sqlite_sequence db))
               (seq_products (sqlite_sequence db))
               (seq_customers (sqlite_sequence db))
               (seq_orders (sqlite_sequence db) + 1)
               (seq_order_items (sqlite_sequence db) + Z.of_nat (List.length lines))
               (seq_cart (sqlite_sequence db)))
  | (Value None, db') => up = false /\ db' = db
  | (Raised e, db') =>
      up = true /\ db' = db /\
      (cart_items = NoColumns /\ e = KeyError "subtotal" \/
       (exists k, e = IntegrityError k) /\
       exists item, In item (iterrows cart_items) /\ incomplete item)
  end.
Proof.
  unfold create_order, with_connection, create_connection.
  destruct up; [|split; reflexivity].
  destruct cart_items as [|subtotal lines];
    [cbn; split; [reflexivity|]; split; [reflexivity|]; left; split; reflexivity|].
  unfold subtotal_column. unfold bind at 1. unfold ret at 1.
  rewrite bound_amount_stored. cbn [iterrows].
  unfold bind at 1. unfold statement at 1, insert_order. cbn [txn disk].
  unfold bind at 1.
  match goal with |- context [for_each lines ?b ?c] =>
    pose proof (order_lines_run (seq_orders (sqlite_sequence db) + 1) lines c) as H;
    revert H; destruct (for_each lines b c) as [[u|e] c']; intros H end;
    cbn [txn disk products categories customers orders order_items cart
         sqlite_sequence bump_orders seq_categories seq_products
         seq_customers seq_orders seq_order_items seq_cart] in H.
  - destruct H as (_ & rows & Hrows & Htxn).
    unfold bind, commit, ret. cbn [disk]. rewrite Htxn.
    split; [reflexivity|]. split; [reflexivity|].
    exists subtotal, lines, rows. split; [reflexivity|]. split; [exact Hrows | reflexivity].
  - destruct H as (Hd & Hinc). cbn [disk] in *. auto.
Qed.

Lemma items_of_complete (first_id order_id : Z) (lines : list CartLine)
    (rows : list OrderItem) :
  items_of first_id order_id lines rows ->
  forall l, In l lines -> ~ incomplete l.
Proof.
  revert first_id rows. induction lines as [|l lines IH]; intros f rows H l' Hin.
  - destruct Hin.
  - destruct rows as [|r rows]; [destruct H|].
    destruct H as ((_ & _ & _ & Hq & Hp & Hs) & H).
    destruct Hin as [<- | Hin].
    + unfold incomplete. rewrite Hq, Hp, Hs. intros [|[|]]; discriminate.
    + apply (IH _ _ H _ Hin).
Qed.

Lemma with_stock_same (p : Product) :
  with_stock p (sub_null (p_stock p) (Some 0)) = p.
Proof.
  destruct p as [i n c pr [s|] d im t1 t2]; unfold with_stock; simpl;
    [rewrite Z.sub_0_r|]; reflexivity.
Qed.

(** The stock updates of the lines add up: each product loses the total
    quantity that the lines order of it. *)
Lemma stock_after_total (lines : list CartLine) (ps : list Product) :
  (forall l, In l lines -> ~ incomplete l) ->
  stock_after lines ps =
  map (fun p => with_stock p
                  (sub_null (p_stock p) (Some (quantity_ordered (p_id p) lines)))) ps.
Proof.
  revert ps. induction lines as [|l lines IH]; intros ps Hall.
  - unfold stock_after. simpl. rewrite <- (map_id ps) at 1.
    apply map_ext. intros p. apply eq_sym, with_stock_same.
  - unfold stock_after. cbn [fold_left]. fold (stock_after lines).
    rewrite IH by (intros l' Hl'; apply Hall; right; exact Hl').
    rewrite map_map. apply map_ext. intros p.
    destruct (l_quantity l) as [q|] eqn:Hq;
      [|exfalso; apply (Hall l (in_eq _ _)); left; exact Hq].
    unfold take_stock. cbn [quantity_ordered]. rewrite Hq.
    destruct (eq_param (l_product_id l) (p_id p)); [|reflexivity].
    unfold with_stock. cbn [p_id p_name p_category_id p_price p_stock
                            p_description p_image_url p_created_at p_updated_at].
    f_equal. destruct (p_stock p) as [s|]; simpl; [f_equal; lia | reflexivity].
Qed.

(** C1. [create_order] is atomic.  Whatever the arguments, the call either
    returns the new order's identifier, and then the frame has its columns
    and the file holds all of the writes (the order row with the total as
    it is stored, one order-item row per line in the order of the lines,
    and the stock updates of the lines, which take from each product the
    total quantity ordered of it) and is otherwise unchanged; or it returns
    None or raises, and then the file is exactly as before. *)
Theorem create_order_is_atomic (up : bool) (now : Z) (db : Database) (customer_id : Z)
    (cart_items : DataFrame) (shipping_address payment_method : string) :
  let (r, db') :=
    create_order up now db customer_id cart_items shipping_address payment_method in
  (exists order_id subtotal lines rows,
     r = Value (Some order_id) /\
     cart_items = Frame subtotal lines /\
     orders db' =
       orders db ++
         [mkOrder order_id customer_id now (stored_total subtotal lines)
            pending shipping_address payment_method] /\
     order_items db' = order_items db ++ rows /\
     items_of (seq_order_items (sqlite_sequence db) + 1) order_id lines rows /\
     products db' = stock_after lines (products db) /\
     products db' =
       map (fun p => with_stock p
              (sub_null (p_stock p) (Some (quantity_ordered (p_id p) lines))))
           (products db) /\
     categories db' = categories db /\
     customers db' = customers db /\
     cart db' = cart db)
  \/
  ((r = Value None \/ exists e, r = Raised e) /\ db' = db).
Proof.
  pose proof (create_order_run up now db customer_id cart_items
                shipping_address payment_method) as H.
  destruct (create_order up now db customer_id cart_items
              shipping_address payment_method) as [[[order_id|]|e] db'].
  - left. destruct H as (_ & _ & subtotal & lines & rows & -> & Hrows & ->).
    exists order_id, subtotal, lines, rows.
    cbn [orders order_items products categories customers cart].
    repeat (split; [reflexivity || exact Hrows|]).
    split; [|repeat split].
    apply stock_after_total, (items_of_complete _ _ _ _ Hrows).
  - right. destruct H as (_ & ->). auto.
  - right. destruct H as (_ & -> & _). split; [right; exists e|]; reflexivity.
Qed.

(** *** The cart *)

Lemma filter_map_same {A : Type} (P : A -> bool) (f : A -> A) (l : list A) :
  (forall x, P (f x) = P x) -> filter P (map f l) = map f (filter P l).
Proof.
  intros HP. induction l as [|x l IH]; simpl; [reflexivity|].
  rewrite HP. destruct (P x); simpl; rewrite IH; reflexivity.
Qed.

Lemma filter_filter_length {A : Type} (P Q : A -> bool) (l : list A) :
  (List.length (filter P (filter Q l)) <= List.length (filter P l))%nat.
Proof.
  induction l as [|x l IH]; simpl; [lia|].
  destruct (Q x); simpl; destruct (P x); simpl; lia.
Qed.

Lemma cart_entry_of_add (c p c' p' q : Z) (r : CartRow) :
  cart_entry_of c' p'
    (if cart_entry_of c p r then add_quantity q r else r) = cart_entry_of c' p' r.
Proof. destruct (cart_entry_of c p r); reflexivity. Qed.

Lemma cart_unique_same_cart (db db' : Database) :
  cart db' = cart db -> cart_unique db -> cart_unique db'.
Proof. unfold cart_unique, select_cart. intros ->. auto. Qed.

Lemma add_to_cart_cart_unique (up : bool) (now : Z) (db : Database) (c p q : Z) :
  cart_unique db -> cart_unique (snd (add_to_cart up now db c p q)).
Proof.
  intros Hu. rewrite add_to_cart_eq. destruct up; [|exact Hu].
  cbn [snd]. intros c' p'. specialize (Hu c' p').
  destruct (select_cart c p db) as [|r0 rs] eqn:Hsel;
    unfold select_cart in *; cbn [cart].
  - rewrite filter_app, length_app. cbn [filter].
    match goal with |- context [cart_entry_of c' p' ?r] =>
      destruct (cart_entry_of c' p' r) eqn:Hsame end; [|simpl; lia].
    unfold cart_entry_of in Hsame. cbn [ct_customer_id ct_product_id] in Hsame.
    apply andb_true_iff in Hsame. rewrite !Z.eqb_eq in Hsame. destruct Hsame; subst.
    rewrite Hsel. simpl. lia.
  - rewrite filter_map_same by (intros r; apply cart_entry_of_add).
    rewrite length_map. exact Hu.
Qed.

Lemma serve_cart_unique (up : bool) (now : Z) (db : Database) (r : request) :
  cart_unique db -> cart_unique (serve up now db r).
Proof.
  intros Hu. destruct r as [data|data|name descr|c p q|c|c items a m]; cbn [serve].
  - destruct (register_customer_cases up now db data) as [[-> _]|(_ & _ & _ & ->)]; [exact Hu|].
    revert Hu. apply cart_unique_same_cart. reflexivity.
  - destruct (add_product_cases up now db data) as [[-> _]|(n & ci & pr & st & d & _ & _ & _ & _ & _ & _ & ->)];
      [exact Hu|].
    revert Hu. apply cart_unique_same_cart. reflexivity.
  - rewrite add_category_eq.
    destruct (up && negb _); cbn [snd]; [|exact Hu].
    revert Hu. apply cart_unique_same_cart. reflexivity.
  - apply add_to_cart_cart_unique, Hu.
  - rewrite clear_cart_eq. destruct up; cbn [snd]; [|exact Hu].
    intros c' p'. unfold select_cart. cbn [cart].
    eapply Nat.le_trans; [apply filter_filter_length | apply Hu].
  - pose proof (create_order_run up now db c items a m) as H.
    destruct (create_order up now db c items a m) as [[[oid|]|e] db']; cbn [snd].
    + destruct H as (_ & _ & subtotal & lines & rows & _ & _ & ->).
      revert Hu. apply cart_unique_same_cart. reflexivity.
    + destruct H as (_ & ->). exact Hu.
    + destruct H as (_ & -> & _). exact Hu.
Qed.

Lemma reachable_cart_unique (db : Database) : reachable db -> cart_unique db.
Proof.
  induction 1 as [|up now db r _ IH].
  - intros c p. simpl. lia.
  - apply serve_cart_unique, IH.
Qed.

(** C3. In every reachable state the cart holds at most one row for a
    (customer, product) pair.  [add_to_cart] on a pair that has a row adds
    the given quantity to that row and inserts nothing; on a pair that has
    none it appends one row with the given quantity; so calling it twice on
    a pair that had no row leaves one row, with twice the quantity. *)
Theorem cart_has_one_entry_per_pair (db : Database) (now now' : Z)
    (customer_id product_id quantity : Z) :
  reachable db ->
  let db1 := snd (add_to_cart true now db customer_id product_id quantity) in
  let db2 := snd (add_to_cart true now' db1 customer_id product_id quantity) in
  (forall c p, (List.length (select_cart c p db) <= 1)%nat) /\
  fst (add_to_cart true now db customer_id product_id quantity) = Value true /\
  (forall r, select_cart customer_id product_id db = [r] ->
     select_cart customer_id product_id db1 = [add_quantity quantity r] /\
     List.length (cart db1) = List.length (cart db)) /\
  (select_cart customer_id product_id db = [] ->
     let r := mkCartRow (seq_cart (sqlite_sequence db) + 1)
                customer_id product_id quantity now in
     cart db1 = cart db ++ [r] /\
     select_cart customer_id product_id db1 = [r] /\
     select_cart customer_id product_id db2 = [add_quantity quantity r] /\
     ct_quantity (add_quantity quantity r) = quantity + quantity /\
     List.length (cart db2) = S (List.length (cart db))).
Proof.
  intros Hreach db1 db2.
  assert (Hexisting : forall t d r,
    select_cart customer_id product_id d = [r] ->
    select_cart customer_id product_id
      (snd (add_to_cart true t d customer_id product_id quantity))
      = [add_quantity quantity r] /\
    List.length (cart (snd (add_to_cart true t d customer_id product_id quantity)))
      = List.length (cart d)).
  { intros t d r Hsel. rewrite add_to_cart_eq, Hsel. cbn [snd].
    unfold select_cart in *. cbn [cart].
    rewrite filter_map_same by (intros x; apply cart_entry_of_add).
    rewrite Hsel, length_map. cbn [map].
    assert (Hr : cart_entry_of customer_id product_id r = true).
    { apply (proj1 (filter_In _ r (cart d))). rewrite Hsel. apply in_eq. }
    rewrite Hr. split; reflexivity. }
  split; [apply reachable_cart_unique, Hreach|].
  split; [rewrite add_to_cart_eq; reflexivity|].
  split; [apply Hexisting|].
  intros Hnone r.
  assert (Hcart1 : cart db1 = cart db ++ [r]).
  { unfold db1. rewrite add_to_cart_eq, Hnone. reflexivity. }
  assert (Hsel1 : select_cart customer_id product_id db1 = [r]).
  { unfold select_cart in *. rewrite Hcart1, filter_app, Hnone. simpl.
    unfold cart_entry_of. simpl. rewrite !Z.eqb_refl. reflexivity. }
  destruct (Hexisting now' db1 r Hsel1) as (Hsel2 & Hlen2).
  repeat split; try assumption.
  fold db2 in Hlen2. rewrite Hlen2, Hcart1, length_app. simpl. lia.
Qed.

(** *** Tables that only grow *)

(** No call removes or rewrites a customer or an order item: after any
    call both tables are the old ones followed by what was appended. *)
Lemma serve_appends (up : bool) (now : Z) (db : Database) (r : request) :
  (exists cs, customers (serve up now db r) = customers db ++ cs) /\
  (exists ois, order_items (serve up now db r) = order_items db ++ ois).
Proof.
  assert (Hsame : forall d, customers d = customers db -> order_items d = order_items db ->
            (exists cs, customers d = customers db ++ cs) /\
            (exists ois, order_items d = order_items db ++ ois)).
  { intros d -> ->. split; exists []; rewrite app_nil_r; reflexivity. }
  destruct r as [data|data|name descr|c p q|c|c items a m]; cbn [serve].
  - destruct (register_customer_cases up now db data) as [[-> _]|(_ & _ & _ & ->)]; [apply Hsame; reflexivity|].
    split; [eexists; reflexivity | exists []; rewrite app_nil_r; reflexivity].
  - destruct (add_product_cases up now db data)
      as [[-> _]|(n & ci & pr & st & d & _ & _ & _ & _ & _ & _ & ->)];
      apply Hsame; reflexivity.
  - rewrite add_category_eq.
    destruct (up && negb _); apply Hsame; reflexivity.
  - rewrite add_to_cart_eq.
    destruct up; [destruct (select_cart c p db)|]; apply Hsame; reflexivity.
  - rewrite clear_cart_eq. destruct up; apply Hsame; reflexivity.
  - pose proof (create_order_run up now db c items a m) as H.
    destruct (create_order up now db c items a m) as [[[oid|]|e] db']; cbn [snd].
    + destruct H as (_ & _ & subtotal & lines & rows & _ & _ & ->).
      split; [exists []; rewrite app_nil_r; reflexivity | exists rows; reflexivity].
    + destruct H as (_ & ->). apply Hsame; reflexivity.
    + destruct H as (_ & -> & _). apply Hsame; reflexivity.
Qed.

Lemma serve_all_appends (calls : list (bool * Z * request)) (db : Database) :
  (exists cs, customers (serve_all db calls) = customers db ++ cs) /\
  (exists ois, order_items (serve_all db calls) = order_items db ++ ois).
Proof.
  revert db. induction calls as [|[[up now] r] calls IH]; intros db; cbn [serve_all].
  - split; exists []; rewrite app_nil_r; reflexivity.
  - destruct (IH (serve up now db r)) as ((cs & Hcs) & (ois & Hois)).
    destruct (serve_appends up now db r) as ((cs0 & Hcs0) & (ois0 & Hois0)).
    rewrite Hcs, Hois, Hcs0, Hois0, <- !app_assoc.
    split; eexists; reflexivity.
Qed.

Lemma serve_all_reachable (calls : list (bool * Z * request)) (db : Database) :
  reachable db -> reachable (serve_all db calls).
Proof.
  revert db. induction calls as [|[[up now] r] calls IH]; intros db H; cbn [serve_all].
  - exact H.
  - apply IH, reach_serve, H.
Qed.

(** *** Registration and login *)

Lemma email_taken_In (c : Customer) (db : Database) :
  In c (customers db) -> email_taken (cu_email c) db = true.
Proof.
  intros H. unfold email_taken. apply existsb_exists.
  exists c. split; [exact H | apply String.eqb_refl].
Qed.

Lemma first_error_none (keys : list (string * entry string)) :
  first_error keys = None <->
  Forall (fun kv => snd kv <> Missing /\
                    (fst kv = "password" -> snd kv <> Bound None)) keys.
Proof.
  induction keys as [|[key [|[text|]]] keys IH]; cbn [first_error].
  - split; [constructor | reflexivity].
  - split; [discriminate|]. intros H. inversion H as [|? ? (Hm & _) _]; subst.
    destruct Hm. reflexivity.
  - rewrite IH. split; [|apply Forall_inv_tail].
    intros H. constructor; [|exact H]. split; [discriminate | intros _; discriminate].
  - destruct (String.eqb_spec key "password") as [->|Hkey].
    + split; [discriminate|]. intros H. inversion H as [|? ? (_ & Hp) _]; subst.
      destruct Hp; reflexivity.
    + rewrite IH. split; [|apply Forall_inv_tail].
      intros H. constructor; [|exact H]. split; [discriminate|].
      intros Hk. destruct (Hkey Hk).
Qed.

Lemma readable_iff (data : Registration) :
  readable data <-> first_error (registration_keys data) = None.
Proof.
  rewrite first_error_none. unfold readable, registration_keys. split.
  - intros (Hall & Hp).
    repeat (apply Forall_cons_iff in Hall; destruct Hall as [? Hall]).
    cbn [snd] in *.
    repeat (apply Forall_cons;
            [split; cbn [fst snd];
             [assumption | intros Hk; first [discriminate Hk | assumption]]|]).
    apply Forall_nil.
  - intros Hall.
    repeat (apply Forall_cons_iff in Hall; destruct Hall as [[? ?] Hall]).
    cbn [fst snd] in *.
    split; [repeat constructor; assumption | auto].
Qed.

(** A registration that can be read has a text as its password. *)
Lemma readable_password (data : Registration) :
  readable data -> exists password, reg_password data = Bound (Some password).
Proof.
  intros (Hall & Hp). unfold registration_keys in Hall.
  do 3 apply Forall_inv_tail in Hall. apply Forall_inv in Hall. cbn [snd] in Hall.
  destruct (reg_password data) as [|[password|]]; [destruct Hall | eauto | destruct Hp];
    reflexivity.
Qed.

Lemma accepted_email (data : Registration) (db : Database) :
  accepted data db = true ->
  exists email, reg_email data = Bound (Some email) /\ email_taken email db = false.
Proof.
  unfold accepted.
  destruct (value_of (reg_first_name data)); [|discriminate].
  destruct (value_of (reg_last_name data)); [|discriminate].
  destruct (reg_email data) as [|[email|]]; cbn [value_of]; try discriminate.
  intros H. exists email. split; [reflexivity|].
  destruct (email_taken email db); [discriminate | reflexivity].
Qed.

Lemma register_customer_success (up : bool) (now : Z) (db db' : Database)
    (data : Registration) :
  register_customer up now db data = (Value true, db') ->
  exists email password,
    reg_email data = Bound (Some email) /\
    reg_password data = Bound (Some password) /\
    email_taken email db = false /\
    customers db' = customers db ++ [customer_row now db data].
Proof.
  intros Hrun.
  destruct (register_customer_cases up now db data)
    as [[_ Hne]|(_ & Hread & Hacc & Heq)].
  - rewrite Hrun in Hne. destruct Hne. reflexivity.
  - rewrite Hrun in Heq. injection Heq as ->.
    destruct (accepted_email _ _ Hacc) as (email & He & Hfree).
    destruct (readable_password data (proj2 (readable_iff data) Hread))
      as (password & Hp).
    exists email, password. repeat split; assumption.
Qed.

(** C7. When a registration has succeeded, a later registration with the
    same email (whatever its other fields, and whatever calls came in
    between) does not return True and leaves the file exactly as it was;
    it returns False whenever its dictionary can be read, as that of the
    form always can.  The record written by the first registration is
    still there. *)
Theorem second_registration_is_refused
    (up1 up2 : bool) (now1 now2 : Z) (db db1 : Database)
    (first second : Registration) (calls : list (bool * Z * request)) :
  register_customer up1 now1 db first = (Value true, db1) ->
  reg_email second = reg_email first ->
  let db2 := serve_all db1 calls in
  In (customer_row now1 db first) (customers db1) /\
  (readable second -> register_customer up2 now2 db2 second = (Value false, db2)) /\
  fst (register_customer up2 now2 db2 second) <> Value true /\
  snd (register_customer up2 now2 db2 second) = db2 /\
  In (customer_row now1 db first) (customers db2).
Proof.
  intros Hfirst Hemail db2.
  destruct (register_customer_success _ _ _ _ _ Hfirst)
    as (email & password & He & _ & _ & Hcs).
  assert (Hin1 : In (customer_row now1 db first) (customers db1)).
  { rewrite Hcs. apply in_or_app. right. apply in_eq. }
  assert (Hin2 : In (customer_row now1 db first) (customers db2)).
  { destruct (serve_all_appends calls db1) as ((cs & Hgrow) & _).
    unfold db2. rewrite Hgrow. apply in_or_app. left. exact Hin1. }
  pose proof (email_taken_In (customer_row now1 db first) db2 Hin2) as Htaken.
  cbn [customer_row cu_email] in Htaken.
  unfold text_of in Htaken. rewrite He in Htaken. cbn [value_of] in Htaken.
  assert (Hrefused : accepted second db2 = false).
  { unfold accepted. rewrite Hemail, He. cbn [value_of]. rewrite Htaken.
    destruct (value_of (reg_first_name second)), (value_of (reg_last_name second));
      reflexivity. }
  split; [exact Hin1|]. rewrite register_customer_eq, Hrefused.
  split; [|split; [|split; [|exact Hin2]]].
  - intros Hread. apply readable_iff in Hread. rewrite Hread.
    destruct up2; reflexivity.
  - destruct up2; [destruct (first_error _)|]; discriminate.
  - destruct up2; [destruct (first_error _)|]; reflexivity.
Qed.

Lemma no_match_without_email (email hash : string) (l : list Customer) :
  existsb (fun c => (cu_email c =? email)%string) l = false ->
  filter (fun c => (cu_email c =? email)%string && (cu_password_hash c =? hash)%string) l
  = [].
Proof.
  induction l as [|c l IH]; simpl; [reflexivity|].
  destruct (cu_email c =? email)%string; simpl; [discriminate|]. exact IH.
Qed.

(** C9. After a successful registration, [authenticate_user] with the same
    email and password finds the record that the registration wrote (the
    submitted fields with the password's digest), also after any further
    calls: both sides hash the password with the same function and the
    lookup is on the exact (email, hash) pair. *)
Theorem register_then_authenticate
    (up : bool) (now : Z) (db db' : Database) (data : Registration)
    (calls : list (bool * Z * request)) :
  register_customer up now db data = (Value true, db') ->
  exists email password,
    reg_email data = Bound (Some email) /\
    reg_password data = Bound (Some password) /\
    authenticate_user true (serve_all db' calls) email password
    = Some (customer_row now db data) /\
    cu_email (customer_row now db data) = email /\
    cu_password_hash (customer_row now db data) = hash_password password /\
    In (customer_row now db data) (customers db').
Proof.
  intros Hreg.
  destruct (register_customer_success _ _ _ _ _ Hreg)
    as (email & password & He & Hp & Hfree & Hcs).
  destruct (serve_all_appends calls db') as ((cs & Hgrow) & _).
  assert (Hrow_email : cu_email (customer_row now db data) = email)
    by (cbn [customer_row cu_email]; unfold text_of; rewrite He; reflexivity).
  assert (Hrow_hash : cu_password_hash (customer_row now db data) = hash_password password)
    by (cbn [customer_row cu_password_hash]; unfold text_of; rewrite Hp; reflexivity).
  exists email, password.
  split; [exact He|]. split; [exact Hp|].
  split; [|split; [exact Hrow_email | split; [exact Hrow_hash|]]].
  - unfold authenticate_user, create_connection, query, select_customer. cbn [txn].
    rewrite Hgrow, Hcs, !filter_app.
    rewrite (no_match_without_email _ _ _ Hfree).
    cbn [filter app]. rewrite Hrow_email, Hrow_hash, !String.eqb_refl. reflexivity.
  - rewrite Hcs. apply in_or_app. right. apply in_eq.
Qed.

(** *** Order totals and price snapshots *)

Lemma items_of_total (first_id order_id : Z) (lines : list CartLine)
    (rows : list OrderItem) :
  items_of first_id order_id lines rows ->
  series_sum (map l_subtotal lines) = total_of rows.
Proof.
  revert first_id rows. induction lines as [|l lines IH]; intros f [|r rows] H;
    try destruct H.
  - reflexivity.
  - destruct H as (_ & _ & _ & _ & _ & Hs). simpl. rewrite Hs.
    f_equal. eapply IH. eassumption.
Qed.

(** The rows of a cart frame, cart row by cart row. *)
Lemma iterrows_get_cart_items (db : Database) (customer_id : Z) :
  iterrows (get_cart_items true db customer_id) =
  flat_map
    (fun c =>
       map (fun p => mkCartLine (Some (ct_product_id c)) (Some (ct_quantity c))
                       (Some (p_price p)) (Some (ct_quantity c * p_price p)))
           (filter (fun p => p_id p =? ct_product_id c) (products db)))
    (filter (fun c => ct_customer_id c =? customer_id) (cart db)).
Proof.
  unfold get_cart_items, cart_join. cbn [iterrows].
  induction (filter (fun c => ct_customer_id c =? customer_id) (cart db))
    as [|c rows IH]; [reflexivity|].
  cbn [flat_map]. rewrite map_app, IH, map_map. reflexivity.
Qed.

(** The lines of [get_cart_items] are priced from the products table. *)
Lemma cart_lines_priced (up : bool) (db : Database) (customer_id : Z) (l : CartLine) :
  In l (iterrows (get_cart_items up db customer_id)) -> priced_from db l.
Proof.
  destruct up; [|intros []]. rewrite iterrows_get_cart_items.
  rewrite in_flat_map. intros (c & _ & Hl).
  apply in_map_iff in Hl. destruct Hl as (p & <- & Hp).
  apply filter_In in Hp. destruct Hp as (Hp & Hid). apply Z.eqb_eq in Hid.
  exists (ct_quantity c), p. simpl. rewrite Hid. auto.
Qed.

Lemma items_of_priced (db0 : Database) (first_id order_id : Z)
    (lines : list CartLine) (rows : list OrderItem) :
  items_of first_id order_id lines rows ->
  (forall l, In l lines -> priced_from db0 l) ->
  Forall (fun r =>
            oi_subtotal r = oi_quantity r * oi_unit_price r /\
            exists p, In p (products db0) /\
                      oi_product_id r = Some (p_id p) /\ oi_unit_price r = p_price p)
         rows.
Proof.
  revert first_id rows. induction lines as [|l lines IH]; intros f [|r rows] H Hall;
    try destruct H; constructor.
  - destruct H as (_ & _ & Hpid & Hq & Hp & Hs).
    destruct (Hall l (in_eq _ _)) as (q & p & Hin & Hpid' & Hq' & Hp' & Hs').
    rewrite Hq in Hq'. rewrite Hp in Hp'. rewrite Hs in Hs'.
    injection Hq' as ->. injection Hp' as Hp'. injection Hs' as ->.
    rewrite Hp'. split; [reflexivity|].
    exists p. rewrite Hpid. auto.
  - eapply IH; [eassumption|]. intros l' Hl'. apply Hall. right. exact Hl'.
Qed.

(** X29. Every order item is a snapshot of its line: it carries the line's
    product, quantity, price (as unit price) and subtotal as they were
    supplied.  When the frame is a result of [get_cart_items], each item's
    subtotal is its quantity times its unit price, the unit price being the
    product's price in the database the frame was read from.  No later
    call changes or removes a stored order item. *)
Theorem order_items_are_snapshots
    (up : bool) (now : Z) (db db' : Database) (customer_id order_id : Z)
    (cart_items : DataFrame) (shipping_address payment_method : string)
    (calls : list (bool * Z * request)) :
  create_order up now db customer_id cart_items shipping_address payment_method
  = (Value (Some order_id), db') ->
  exists rows,
    order_items db' = order_items db ++ rows /\
    items_of (seq_order_items (sqlite_sequence db) + 1) order_id
             (iterrows cart_items) rows /\
    (forall up0 db0 c0,
       cart_items = get_cart_items up0 db0 c0 ->
       Forall (fun r =>
                 oi_subtotal r = oi_quantity r * oi_unit_price r /\
                 exists p, In p (products db0) /\
                           oi_product_id r = Some (p_id p) /\
                           oi_unit_price r = p_price p)
              rows) /\
    (exists later,
       order_items (serve_all db' calls) = order_items db ++ rows ++ later).
Proof.
  intros Hrun.
  pose proof (create_order_run up now db customer_id cart_items
                shipping_address payment_method) as H.
  rewrite Hrun in H. destruct H as (_ & _ & subtotal & lines & rows & -> & Hrows & ->).
  exists rows. cbn [orders order_items iterrows].
  repeat (split; [reflexivity || exact Hrows|]).
  split.
  - intros up0 db0 c0 Hframe.
    apply (items_of_priced db0 _ _ _ _ Hrows).
    intros l Hl. apply (cart_lines_priced up0 db0 c0 l).
    rewrite <- Hframe. exact Hl.
  - match goal with |- context [serve_all ?d calls] =>
      destruct (serve_all_appends calls d) as (_ & (later & Hlater)) end.
    exists later. rewrite Hlater. cbn [order_items]. rewrite app_assoc. reflexivity.
Qed.

(** *** Adding products *)


(** *** Product search *)

Lemma re_compile_plain (pat : string) :
  plain pat ->
  Text.re_compile pat = Some (map Text.ReChar (list_ascii_of_string pat)).
Proof.
  induction pat as [|c pat IH]; simpl; [reflexivity|].
  intros (Hc & Hpat). rewrite (IH Hpat), Hc.
  destruct (Ascii.eqb c ".") eqn:Hdot; [|reflexivity].
  apply Ascii.eqb_eq in Hdot. subst c. discriminate Hc.
Qed.

Lemma re_match_plain (pat s : string) :
  Text.re_match (map Text.ReChar (list_ascii_of_string pat)) s = true <->
  exists mid after, s = (mid ++ after)%string /\ Text.same_ignoring_case mid pat.
Proof.
  revert s. induction pat as [|a pat IH]; intros s.
  - simpl. split; [intros _ | reflexivity].
    exists EmptyString, s. split; [reflexivity | exact I].
  - destruct s as [|c s]; simpl.
    + split; [discriminate|].
      intros ([|c mid] & after & Heq & Hsame); simpl in *; [contradiction | discriminate].
    + rewrite andb_true_iff, Ascii.eqb_eq, IH. split.
      * intros (Hc & mid & after & -> & Hsame).
        exists (String c mid), after. simpl. auto.
      * intros ([|c' mid] & after & Heq & Hsame); simpl in Hsame; [contradiction|].
        destruct Hsame as (Hc & Hsame). simpl in Heq. injection Heq as -> ->.
        split; [symmetry; exact Hc | exists mid, after; auto].
Qed.

Lemma re_search_plain (pat s : string) :
  Text.re_search (map Text.ReChar (list_ascii_of_string pat)) s = true <->
  Text.contains_ignoring_case s pat.
Proof.
  unfold Text.contains_ignoring_case.
  induction s as [|c s IH].
  - cbn [Text.re_search]. rewrite orb_false_r, re_match_plain. split.
    + intros (mid & after & Heq & Hsame). exists EmptyString, mid, after. auto.
    + intros ([|b before] & mid & after & Heq & Hsame); [|discriminate].
      exists mid, after. auto.
  - cbn [Text.re_search]. rewrite orb_true_iff, re_match_plain, IH. split.
    + intros [(mid & after & Heq & Hsame) | (before & mid & after & Heq & Hsame)].
      * exists EmptyString, mid, after. auto.
      * exists (String c before), mid, after. simpl. rewrite <- Heq. auto.
    + intros ([|b before] & mid & after & Heq & Hsame).
      * left. exists mid, after. auto.
      * right. simpl in Heq. injection Heq as -> ->.
        exists before, mid, after. auto.
Qed.

(** For a search text without special characters the Shop tab lists
    exactly the products whose name contains the text, ignoring case. *)
Lemma list_products_plain (search category_filter sort_by : string)
    (products : list ProductView) :
  plain search ->
  exists listed,
    list_products search category_filter sort_by products = Some listed /\
    forall v, In v listed <->
      In v products /\
      Text.contains_ignoring_case (p_name (pv_product v)) search /\
      (category_filter = "All" \/ pv_category_name v = Some category_filter).
Proof.
  intros Hplain. unfold list_products.
  set (by_category := fun v : ProductView => match pv_category_name v with
                                | Some n => (n =? category_filter)%string
                                | None => false
                                end).
  assert (Hcat : forall l v,
    In v (if negb (category_filter =? "All")%string then filter by_category l else l) <->
    In v l /\ (category_filter = "All" \/ pv_category_name v = Some category_filter)).
  { intros l v. destruct (category_filter =? "All")%string eqn:Hall; cbn [negb].
    - apply String.eqb_eq in Hall. tauto.
    - apply String.eqb_neq in Hall. rewrite filter_In. unfold by_category.
      destruct (pv_category_name v) as [n|].
      + destruct (String.eqb_spec n category_filter) as [->|Hne].
        * tauto.
        * split; [intros []; discriminate | intros (_ & [?|[= ?]]); congruence].
      + split; [intros []; discriminate | intros (_ & [?|?]); congruence]. }
  assert (Hsort : forall l v,
    In v (if (sort_by =? "Name")%string then
            order_by (fun a b => String.leb (p_name (pv_product a)) (p_name (pv_product b))) l
          else if (sort_by =? "Price: Low to High")%string then
            order_by (fun a b => p_price (pv_product a) <=? p_price (pv_product b)) l
          else
            order_by (fun a b => p_price (pv_product b) <=? p_price (pv_product a)) l)
    <-> In v l).
  { intros l v.
    destruct (sort_by =? "Name")%string; [|destruct (sort_by =? "Price: Low to High")%string];
      split; apply Permutation_in;
      auto using order_by_perm, Permutation_sym. }
  destruct (search =? "")%string eqn:Hempty.
  - apply String.eqb_eq in Hempty. subst search.
    eexists. split; [reflexivity|]. intros v. rewrite Hsort, Hcat.
    assert (Text.contains_ignoring_case (p_name (pv_product v)) "").
    { exists EmptyString, EmptyString, (p_name (pv_product v)). split; [reflexivity|exact I]. }
    tauto.
  - rewrite (re_compile_plain search Hplain).
    eexists. split; [reflexivity|]. intros v.
    rewrite Hsort, Hcat, filter_In, re_search_plain. tauto.
Qed.

Lemma lower_char_dot (c : ascii) : Text.lower_char c = "."%char -> c = "."%char.
Proof. each_ascii c; intros H; vm_compute in H; discriminate H || reflexivity. Qed.

(** C6 (the code departs from it).  The search text is compiled as a
    regular expression: searching for "." lists a product named "abc",
    whose name does not contain the text ".". *)
Theorem search_text_is_a_pattern :
  list_products "." "All" "Name"
    [mkProductView (mkProduct 1 "abc" None 100 (Some 1) None None 0 0) None]
  = Some [mkProductView (mkProduct 1 "abc" None 100 (Some 1) None None 0 0) None] /\
  ~ Text.contains_ignoring_case "abc" ".".
Proof.
  split; [reflexivity|].
  intros (before & mid & after & Heq & Hsame).
  destruct mid as [|c [|c' mid]]; simpl in Hsame; try tauto.
  destruct Hsame as (Hc & _). apply lower_char_dot in Hc. subst c.
  destruct before as [|b1 [|b2 [|b3 [|b4 before]]]]; simpl in Heq; discriminate Heq.
Qed.

(** *** Stock *)

(** C2 (the code departs from it).  A product is added with 5 in stock;
    a registered customer adds 5 of it to the cart twice, each time within
    the bound the Shop tab puts on the quantity (at most the current
    stock); the cart row now holds 10 and the checkout brings the stock
    to -5. *)
Theorem stock_can_go_negative :
  let db1 := serve true 1 (init_database None) (AddCategory "tools" "") in
  let db2 := serve true 2 db1
               (AddProduct (mkProductData (Bound (Some "widget")) (Bound (Some 1))
                              (Bound (Some 500)) (Bound (Some 5))
                              (Bound (Some "")) (Bound (Some "")))) in
  let db3 := serve true 3 db2 (Register alice) in
  let db4 := serve true 4 db3 (AddToCart 1 1 5) in
  let db5 := serve true 5 db4 (AddToCart 1 1 5) in
  let cart_items := get_cart_items true db5 1 in
  let db6 := serve true 6 db5 (CreateOrder 1 cart_items "home" "PayPal") in
  reachable db6 /\
  map cu_id (customers db5) = [1] /\
  map p_stock (products db5) = [Some 5] /\
  cart_items = Frame int64 [mkCartLine (Some 1) (Some 10) (Some 500) (Some 5000)] /\
  create_order true 6 db5 1 cart_items "home" "PayPal" = (Value (Some 1), db6) /\
  map p_stock (products db6) = [Some (-5)].
Proof.
  cbv zeta. split; [repeat apply reach_serve; apply reach_init|].
  repeat split; reflexivity.
Qed.

(** *** The stored total *)

(** C4 (the code departs from it).  A product is added at 5.00; a
    registered customer puts two of it in the cart and checks out.  The
    price is stored as the INTEGER 5, so the frame's subtotal column holds
    the integer 10 and has dtype int64; its sum is a [numpy.int64], which
    [sqlite3] writes as the eight bytes 0A 00 00 00 00 00 00 00.  The
    order's total_amount is that BLOB and not the number 10.00, the sum of
    the lines' subtotals.  The order item is as the claim says: 2 at 5.00,
    subtotal 10.00. *)
Theorem order_total_is_stored_as_bytes :
  let db1 := serve true 1 (init_database None) (AddCategory "tools" "") in
  let db2 := serve true 2 db1
               (AddProduct (mkProductData (Bound (Some "widget")) (Bound (Some 1))
                              (Bound (Some 500)) (Bound (Some 5))
                              (Bound (Some "")) (Bound (Some "")))) in
  let db3 := serve true 3 db2 (Register alice) in
  let db4 := serve true 4 db3 (AddToCart 1 1 2) in
  let cart_items := get_cart_items true db4 1 in
  let db5 := serve true 5 db4 (CreateOrder 1 cart_items "home" "PayPal") in
  reachable db5 /\
  map p_price (products db4) = [500] /\
  cart_items = Frame int64 [mkCartLine (Some 1) (Some 2) (Some 500) (Some 1000)] /\
  series_sum (map l_subtotal (iterrows cart_items)) = 1000 /\
  create_order true 5 db4 1 cart_items "home" "PayPal" = (Value (Some 1), db5) /\
  orders db5 = [mkOrder 1 1 5 (Blob [10; 0; 0; 0; 0; 0; 0; 0]) pending "home" "PayPal"] /\
  order_items db5 = [mkOrderItem 1 1 (Some 1) 2 500 1000] /\
  (forall o, In o (orders db5) -> o_total o <> Number 1000).
Proof.
  cbv zeta. split; [repeat apply reach_serve; apply reach_init|].
  do 6 (split; [reflexivity|]).
  intros o [<-|[]]. discriminate.
Qed.

(** *** Keys *)

Lemma keyed_append {A : Type} (key : A -> Z) (rows : list A) (seq : Z) (r : A) :
  keyed key rows seq -> key r = seq + 1 -> keyed key (rows ++ [r]) (seq + 1).
Proof.
  intros (Hseq & Hnd & Hall) Hr. split; [lia|]. split.
  - rewrite map_app. apply NoDup_app; [exact Hnd | repeat constructor; intros [] |].
    intros a Ha [<-|[]]. apply in_map_iff in Ha. destruct Ha as (x & Hx & Hin).
    rewrite Forall_forall in Hall. specialize (Hall x Hin). lia.
  - apply Forall_app. split.
    + eapply Forall_impl; [|exact Hall]. simpl. intros; lia.
    + repeat constructor; lia.
Qed.

Lemma keyed_filter {A : Type} (key : A -> Z) (f : A -> bool) (rows : list A) (seq : Z) :
  keyed key rows seq -> keyed key (filter f rows) seq.
Proof.
  intros (Hseq & Hnd & Hall). split; [exact Hseq|]. split.
  - clear Hall. induction rows as [|x rows IH]; simpl; [constructor|].
    inversion Hnd as [|? ? Hx Hnd']; subst.
    destruct (f x); simpl; [constructor|]; auto.
    intros Hin. apply Hx. apply in_map_iff in Hin. destruct Hin as (y & Hy & Hin).
    apply in_map_iff. exists y. split; [exact Hy|]. apply filter_In in Hin. tauto.
  - rewrite Forall_forall in *. intros x Hx. apply Hall. apply filter_In in Hx. tauto.
Qed.

Lemma keyed_map {A : Type} (key : A -> Z) (f : A -> A) (rows : list A) (seq : Z) :
  (forall r, key (f r) = key r) -> keyed key rows seq -> keyed key (map f rows) seq.
Proof.
  intros Hf (Hseq & Hnd & Hall). split; [exact Hseq|].
  rewrite map_map, (map_ext _ key) by exact Hf. split; [exact Hnd|].
  rewrite Forall_forall in *. intros x Hx. apply in_map_iff in Hx.
  destruct Hx as (y & <- & Hy). rewrite Hf. auto.
Qed.

Lemma keyed_items (order_id : Z) (lines : list CartLine) (rows new : list OrderItem)
    (seq : Z) :
  keyed oi_id rows seq -> items_of (seq + 1) order_id lines new ->
  keyed oi_id (rows ++ new) (seq + Z.of_nat (List.length lines)).
Proof.
  revert rows new seq. induction lines as [|l lines IH]; intros rows [|r new] seq Hk H;
    simpl in H; try contradiction; [|destruct H as [H H']].
  - rewrite app_nil_r, Z.add_0_r. exact Hk.
  - cbn [List.length]. rewrite Nat2Z.inj_succ.
    replace (rows ++ r :: new) with ((rows ++ [r]) ++ new)
      by (rewrite <- app_assoc; reflexivity).
    replace (seq + Z.succ (Z.of_nat (List.length lines)))
      with (seq + 1 + Z.of_nat (List.length lines)) by lia.
    apply IH; [|exact H'].
    apply keyed_append; [exact Hk | apply H].
Qed.

Lemma take_stock_id (q pid : option Z) (p : Product) : p_id (take_stock q pid p) = p_id p.
Proof. unfold take_stock. destruct (eq_param pid (p_id p)); reflexivity. Qed.

Lemma keyed_stock_after (lines : list CartLine) (ps : list Product) (seq : Z) :
  keyed p_id ps seq -> keyed p_id (stock_after lines ps) seq.
Proof.
  revert ps. induction lines as [|l lines IH]; intros ps Hk; [exact Hk|].
  unfold stock_after. cbn [fold_left]. apply IH.
  apply keyed_map; [apply take_stock_id | exact Hk].
Qed.

Lemma not_taken_fresh {A : Type} (key : A -> string) (k : string) (rows : list A) :
  existsb (fun r => (key r =? k)%string) rows = false ->
  NoDup (map key rows) -> NoDup (map key rows ++ [k]).
Proof.
  intros Hfree Hnd. apply NoDup_app; [exact Hnd | repeat constructor; intros [] |].
  intros a Ha [<-|[]]. apply in_map_iff in Ha. destruct Ha as (x & Hx & Hin).
  assert (existsb (fun r => (key r =? k)%string) rows = true)
    by (apply existsb_exists; exists x; split; [exact Hin | apply String.eqb_eq, Hx]).
  congruence.
Qed.

Lemma serve_well_keyed (up : bool) (now : Z) (db : Database) (r : request) :
  well_keyed db -> well_keyed (serve up now db r).
Proof.
  intros [Hc Hp Hu Ho Hi Ht He Hn Hs].
  destruct r as [data|data|name descr|c p q|c|c items a m]; cbn [serve].
  - destruct (register_customer_cases up now db data)
      as [[-> _]|(_ & _ & Hacc & ->)]; [constructor; assumption|].
    destruct (accepted_email _ _ Hacc) as (email & Hemail & Hfree).
    constructor; cbn [snd categories products customers orders order_items cart
                      sqlite_sequence bump_customers seq_categories seq_products
                      seq_customers seq_orders seq_order_items seq_cart];
      try assumption.
    + apply keyed_append; [exact Hu | reflexivity].
    + rewrite map_app. cbn [map customer_row cu_email]. unfold text_of.
      rewrite Hemail. cbn [value_of]. apply not_taken_fresh; assumption.
  - destruct (add_product_cases up now db data)
      as [[-> _]|(n & ci & pr & st & d & _ & _ & _ & _ & _ & _ & ->)];
      [constructor; assumption|].
    constructor; cbn [snd categories products customers orders order_items cart
                      sqlite_sequence bump_products seq_categories seq_products
                      seq_customers seq_orders seq_order_items seq_cart];
      try assumption.
    apply keyed_append; [exact Hp | reflexivity].
  - rewrite add_category_eq.
    destruct up; cbn [andb]; [|constructor; assumption].
    destruct (existsb _ (categories db)) eqn:Hfree; cbn [negb snd];
      [constructor; assumption|].
    constructor; cbn [categories products customers orders order_items cart
                      sqlite_sequence bump_categories seq_categories seq_products
                      seq_customers seq_orders seq_order_items seq_cart];
      try assumption.
    + apply keyed_append; [exact Hc | reflexivity].
    + rewrite map_app. apply not_taken_fresh; assumption.
  - rewrite add_to_cart_eq. destruct up; cbn [snd]; [|constructor; assumption].
    destruct (select_cart c p db);
      constructor; cbn [categories products customers orders order_items cart
                        sqlite_sequence bump_cart seq_categories seq_products
                        seq_customers seq_orders seq_order_items seq_cart];
      try assumption.
    + apply keyed_append; [exact Ht | reflexivity].
    + apply keyed_map; [|exact Ht].
      intros r. destruct (cart_entry_of c p r); reflexivity.
  - rewrite clear_cart_eq. destruct up; cbn [snd]; constructor;
      cbn [categories products customers orders order_items cart sqlite_sequence];
      try assumption.
    apply keyed_filter, Ht.
  - pose proof (create_order_run up now db c items a m) as H.
    destruct (create_order up now db c items a m) as [[[oid|]|e] db']; cbn [snd].
    + destruct H as (_ & -> & subtotal & lines & rows & _ & Hrows & ->).
      constructor; cbn [categories products customers orders order_items cart
                        sqlite_sequence seq_categories seq_products
                        seq_customers seq_orders seq_order_items seq_cart];
        try assumption.
      * apply keyed_stock_after, Hp.
      * apply keyed_append; [exact Ho | reflexivity].
      * apply keyed_items with (order_id := seq_orders (sqlite_sequence db) + 1);
          assumption.
      * apply Forall_app. split; [exact Hs | repeat constructor].
    + destruct H as (_ & ->). constructor; assumption.
    + destruct H as (_ & -> & _). constructor; assumption.
Qed.

Lemma reachable_well_keyed (db : Database) : reachable db -> well_keyed db.
Proof.
  induction 1 as [|up now db r _ IH].
  - constructor; simpl; try (split; [lia | split; constructor]); constructor.
  - apply serve_well_keyed, IH.
Qed.


(** X1. In every reachable state the primary keys of each table are
    distinct, at least 1 and at most the table's AUTOINCREMENT counter, so
    the next key handed out is new. *)
Theorem reachable_keys_are_fresh (db : Database) :
  reachable db ->
  keyed c_id (categories db) (seq_categories (sqlite_sequence db)) /\
  keyed p_id (products db) (seq_products (sqlite_sequence db)) /\
  keyed cu_id (customers db) (seq_customers (sqlite_sequence db)) /\
  keyed o_id (orders db) (seq_orders (sqlite_sequence db)) /\
  keyed oi_id (order_items db) (seq_order_items (sqlite_sequence db)) /\
  keyed ct_id (cart db) (seq_cart (sqlite_sequence db)).
Proof.
  intros H. destruct (reachable_well_keyed db H).
  repeat (split; [assumption|]). assumption.
Qed.

(** X2. In every reachable state no two customers share an email and no
    two categories share a name. *)
Theorem reachable_emails_and_names_are_unique (db : Database) :
  reachable db ->
  NoDup (map cu_email (customers db)) /\ NoDup (map c_name (categories db)).
Proof.
  intros H. destruct (reachable_well_keyed db H). split; assumption.
Qed.

Lemma serve_orders_append (up : bool) (now : Z) (db : Database) (r : request) :
  exists os, orders (serve up now db r) = orders db ++ os.
Proof.
  assert (Hsame : forall d, orders d = orders db -> exists os, orders d = orders db ++ os).
  { intros d ->. exists []. rewrite app_nil_r. reflexivity. }
  destruct r as [data|data|name descr|c p q|c|c items a m]; cbn [serve].
  - destruct (register_customer_cases up now db data) as [[-> _]|(_ & _ & _ & ->)]; apply Hsame; reflexivity.
  - destruct (add_product_cases up now db data)
      as [[-> _]|(n & ci & pr & st & d & _ & _ & _ & _ & _ & _ & ->)];
      apply Hsame; reflexivity.
  - rewrite add_category_eq. destruct (up && negb _); apply Hsame; reflexivity.
  - rewrite add_to_cart_eq.
    destruct up; [destruct (select_cart c p db)|]; apply Hsame; reflexivity.
  - rewrite clear_cart_eq. destruct up; apply Hsame; reflexivity.
  - pose proof (create_order_run up now db c items a m) as H.
    destruct (create_order up now db c items a m) as [[[oid|]|e] db']; cbn [snd].
    + destruct H as (_ & _ & subtotal & lines & rows & _ & _ & ->). eexists. reflexivity.
    + destruct H as (_ & ->). apply Hsame; reflexivity.
    + destruct H as (_ & -> & _). apply Hsame; reflexivity.
Qed.

(** X3. Customers, orders and order items are never deleted or rewritten:
    after any run of calls each of these tables is the old table followed
    by new rows.  Every order of a reachable state is still pending: no
    call changes an order's status. *)
Theorem history_is_append_only (db : Database) (calls : list (bool * Z * request)) :
  reachable db ->
  Forall (fun o => o_status o = pending) (orders (serve_all db calls)) /\
  (exists cs, customers (serve_all db calls) = customers db ++ cs) /\
  (exists os, orders (serve_all db calls) = orders db ++ os) /\
  (exists ois, order_items (serve_all db calls) = order_items db ++ ois).
Proof.
  intros Hreach. split.
  - apply (wk_pending _ (reachable_well_keyed _ (serve_all_reachable calls db Hreach))).
  - destruct (serve_all_appends calls db) as (Hc & Hi).
    split; [exact Hc|]. split; [|exact Hi].
    clear. revert db. induction calls as [|[[up now] r] calls IH]; intros db; cbn [serve_all].
    + exists []. rewrite app_nil_r. reflexivity.
    + destruct (IH (serve up now db r)) as (os & Hos).
      destruct (serve_orders_append up now db r) as (os0 & Hos0).
      rewrite Hos, Hos0, <- app_assoc. eexists. reflexivity.
Qed.


(** *** Login, registration and the admin forms *)

Lemma filter_none {A : Type} (P : A -> bool) (l : list A) :
  (forall x, In x l -> P x = false) -> filter P l = [].
Proof.
  induction l as [|x l IH]; simpl; intros H; [reflexivity|].
  rewrite (H x (or_introl eq_refl)). apply IH. intros y Hy. apply H. right. exact Hy.
Qed.

(** Among rows with distinct keys, a test that only rows with the key of
    [c] pass, and that [c] passes, selects [c] alone. *)
Lemma unique_filter {A B : Type} (key : A -> B) (P : A -> bool) (l : list A) (c : A) :
  NoDup (map key l) -> In c l ->
  (forall x, P x = true -> key x = key c) -> P c = true ->
  filter P l = [c].
Proof.
  intros Hnd Hin Hkey Hc. induction l as [|x l IH]; [destruct Hin|].
  simpl in Hnd. inversion Hnd as [|? ? Hx Hnd']; subst.
  destruct Hin as [->|Hin]; simpl.
  - rewrite Hc. f_equal. apply filter_none. intros y Hy.
    destruct (P y) eqn:Hy'; [|reflexivity].
    exfalso. apply Hx. rewrite <- (Hkey y Hy'). apply in_map, Hy.
  - destruct (P x) eqn:Hx'; [|apply IH; assumption].
    exfalso. apply Hx. rewrite (Hkey x Hx'). apply in_map, Hin.
Qed.

Lemma hd_error_none {A : Type} (l : list A) : hd_error l = None <-> l = [].
Proof. destruct l; simpl; split; intros H; congruence. Qed.

(** X4. In a reachable state [authenticate_user] returns a customer
    exactly when that customer is stored with the given email and with the
    digest of the given password; it returns None exactly when no stored
    customer has both (unknown email and wrong password look the same),
    and always when there is no connection. *)
Theorem login_finds_the_matching_customer
    (db : Database) (email password : string) (c : Customer) :
  reachable db ->
  (authenticate_user true db email password = Some c <->
     In c (customers db) /\ cu_email c = email /\
     cu_password_hash c = hash_password password) /\
  (authenticate_user true db email password = None <->
     forall c', In c' (customers db) -> cu_email c' = email ->
                cu_password_hash c' <> hash_password password) /\
  authenticate_user false db email password = None.
Proof.
  intros Hreach.
  unfold authenticate_user, create_connection, query, select_customer. cbn [txn].
  set (P := fun c0 : Customer =>
              (cu_email c0 =? email)%string
              && (cu_password_hash c0 =? hash_password password)%string).
  assert (HP : forall x, P x = true <->
                cu_email x = email /\ cu_password_hash x = hash_password password).
  { intros x. unfold P. rewrite andb_true_iff, !String.eqb_eq. tauto. }
  split; [|split; [|reflexivity]].
  - split.
    + intros H. assert (Hin : In c (filter P (customers db))).
      { destruct (filter P (customers db)); [discriminate|].
        injection H as ->. apply in_eq. }
      apply filter_In in Hin. rewrite HP in Hin. tauto.
    + intros (Hin & He & Hh).
      rewrite (unique_filter cu_email P (customers db) c); [reflexivity | | exact Hin | |].
      * apply (wk_emails _ (reachable_well_keyed db Hreach)).
      * intros x Hx. apply HP in Hx. destruct Hx. congruence.
      * apply HP. auto.
  - rewrite hd_error_none. split.
    + intros H c' Hin He Hh.
      assert (Hc' : In c' (filter P (customers db)))
        by (apply filter_In; split; [exact Hin | apply HP; auto]).
      rewrite H in Hc'. destruct Hc'.
    + intros H. apply filter_none. intros x Hx.
      destruct (P x) eqn:Hpx; [|reflexivity].
      apply HP in Hpx. destruct Hpx as (He & Hh). destruct (H x Hx He Hh).
Qed.

Lemma first_error_missing (before after : list (string * entry string)) (key : string) :
  Forall (fun kv => snd kv <> Missing) before ->
  ~ In ("password", Bound None) before ->
  first_error (before ++ (key, Missing) :: after) = Some (KeyError key).
Proof.
  induction before as [|[k [|[text|]]] before IH]; intros Hall Hp; cbn [app first_error].
  - reflexivity.
  - inversion Hall as [|? ? Hm _]; subst. destruct Hm. reflexivity.
  - apply IH; [apply (Forall_inv_tail Hall) | intros H; apply Hp; right; exact H].
  - destruct (String.eqb_spec k "password") as [->|_].
    + destruct Hp. left. reflexivity.
    + apply IH; [apply (Forall_inv_tail Hall) | intros H; apply Hp; right; exact H].
Qed.

Lemma accepted_iff (data : Registration) (db : Database) :
  accepted data db = true <->
  exists first last email,
    reg_first_name data = Bound (Some first) /\
    reg_last_name data = Bound (Some last) /\
    reg_email data = Bound (Some email) /\
    ~ In email (map cu_email (customers db)).
Proof.
  assert (Htaken : forall email, email_taken email db = false <->
                                 ~ In email (map cu_email (customers db))).
  { intros email. unfold email_taken.
    rewrite <- not_true_iff_false, existsb_exists, in_map_iff.
    split; intros H (x & H1 & H2); apply H; exists x.
    - split; [exact H2 | apply String.eqb_eq, H1].
    - apply String.eqb_eq in H2. auto. }
  unfold accepted.
  destruct (reg_first_name data) as [|[first|]], (reg_last_name data) as [|[last|]],
           (reg_email data) as [|[email|]]; cbn [value_of];
    try (split; [discriminate | intros (? & ? & ? & ? & ? & ? & _); discriminate]).
  rewrite negb_true_iff, Htaken. split.
  - intros H. exists first, last, email. auto.
  - intros (? & ? & ? & _ & _ & [= <-] & H). exact H.
Qed.

(** X5. [register_customer] reads the ten keys of its dictionary, in a
    fixed order, once it has a connection and before its [try]: a missing
    key raises KeyError (for the first missing one) and a password that is
    None raises AttributeError, and nothing is written; without a
    connection it returns False whatever the dictionary holds.  A
    dictionary that can be read gives True or False.  The result is True
    exactly when there is a connection, the dictionary can be read, its
    first name, last name and email are not None and no stored customer has
    the email; then the customers table gains one row, keyed by the next
    counter value and holding the submitted fields and the digest of the
    password, and no other table changes.  Whenever the result is not True
    the file is as before.  Nothing else is checked: blank fields are
    stored. *)
Theorem register_customer_contract
    (up : bool) (now : Z) (db : Database) (data : Registration) :
  let r := register_customer up now db data in
  register_customer false now db data = (Value false, db) /\
  (forall before key after,
     registration_keys data = before ++ (key, Missing) :: after ->
     Forall (fun kv => snd kv <> Missing) before ->
     ~ In ("password", Bound None) before ->
     register_customer true now db data = (Raised (KeyError key), db)) /\
  (reg_first_name data <> Missing -> reg_last_name data <> Missing ->
   reg_email data <> Missing -> reg_password data = Bound None ->
   register_customer true now db data = (Raised (AttributeError "encode"), db)) /\
  (readable data -> fst r = Value true \/ fst r = Value false) /\
  (fst r = Value true <->
     up = true /\ readable data /\
     exists first last email,
       reg_first_name data = Bound (Some first) /\
       reg_last_name data = Bound (Some last) /\
       reg_email data = Bound (Some email) /\
       ~ In email (map cu_email (customers db))) /\
  (fst r <> Value true -> snd r = db) /\
  (fst r = Value true ->
     customers (snd r) = customers db ++ [customer_row now db data] /\
     cu_id (customer_row now db data) = seq_customers (sqlite_sequence db) + 1 /\
     categories (snd r) = categories db /\ products (snd r) = products db /\
     orders (snd r) = orders db /\ order_items (snd r) = order_items db /\
     cart (snd r) = cart db).
Proof.
  cbv zeta. rewrite !register_customer_eq.
  split; [reflexivity|].
  split; [intros before key after Hkeys Hall Hp;
          rewrite Hkeys, (first_error_missing _ _ _ Hall Hp); reflexivity|].
  split.
  { intros Hf Hl He Hp. unfold registration_keys. rewrite Hp.
    destruct (reg_first_name data) as [|[first|]]; [destruct Hf; reflexivity|..];
      (destruct (reg_last_name data) as [|[last|]]; [destruct Hl; reflexivity|..]);
      (destruct (reg_email data) as [|[email|]]; [destruct He; reflexivity|..]);
      reflexivity. }
  split.
  { intros Hread. apply readable_iff in Hread. rewrite Hread.
    destruct up, (accepted data db); auto. }
  destruct up; cbn [fst snd].
  2: { split; [split; [discriminate | intros (H & _); discriminate]|].
       split; [reflexivity | discriminate]. }
  destruct (first_error (registration_keys data)) as [e|] eqn:Herr; cbn [fst snd].
  { split; [split; [discriminate|]|split; [reflexivity | discriminate]].
    intros (_ & Hread & _). apply readable_iff in Hread. congruence. }
  destruct (accepted data db) eqn:Hacc; cbn [fst snd].
  - split; [split; [intros _ | reflexivity]|].
    + split; [reflexivity|]. split; [apply readable_iff, Herr | apply accepted_iff, Hacc].
    + split; [intros H; destruct H; reflexivity | intros _; repeat split].
  - split; [split; [discriminate|]|split; [reflexivity | discriminate]].
    intros (_ & _ & Hex). apply accepted_iff in Hex. congruence.
Qed.

(** X28. The "Register" form binds every key to the text of a widget, so
    its dictionary can always be read and [register_customer] never raises
    on it: it returns True exactly when there is a connection and no stored
    customer has the email, and False otherwise.  The form checks nothing:
    blank texts, a blank email and a blank password included, are stored
    as they are. *)
Theorem register_form_contract
    (up : bool) (now : Z) (db : Database)
    (first_name last_name email password phone address city state zip_code country
       : string) :
  let data := register_form first_name last_name email password phone address city
                            state zip_code country in
  let r := register_customer up now db data in
  readable data /\
  (fst r = Value true \/ fst r = Value false) /\
  (fst r = Value true <-> up = true /\ ~ In email (map cu_email (customers db))) /\
  (fst r = Value false -> snd r = db) /\
  (fst r = Value true ->
     customers (snd r) =
       customers db ++
         [mkCustomer (seq_customers (sqlite_sequence db) + 1) first_name last_name email
            (hash_password password) (Some phone) (Some address) (Some city)
            (Some state) (Some zip_code) (Some country) now]).
Proof.
  cbv zeta.
  set (data := register_form first_name last_name email password phone address city
                             state zip_code country).
  assert (Hread : readable data)
    by (split; [repeat constructor; discriminate | discriminate]).
  assert (Hacc : accepted data db = true <-> ~ In email (map cu_email (customers db))).
  { rewrite accepted_iff. split.
    - intros (f & l & e & _ & _ & [= <-] & H). exact H.
    - intros H. exists first_name, last_name, email. auto. }
  split; [exact Hread|].
  rewrite register_customer_eq, (proj1 (readable_iff data) Hread).
  destruct up; cbn [fst snd].
  2: { split; [auto|]. split; [split; [discriminate | intros (H & _); discriminate]|].
       split; [reflexivity | discriminate]. }
  destruct (accepted data db) eqn:Ha; cbn [fst snd].
  - split; [auto|]. split; [split; [intros _; split; [reflexivity | apply Hacc, eq_refl]
                                   | reflexivity]|].
    split; [discriminate | intros _; reflexivity].
  - split; [auto|]. split; [split; [discriminate|]|split; [reflexivity | discriminate]].
    intros (_ & H). apply Hacc in H. discriminate.
Qed.

(** X6. [add_product] reads the keys name, category_id, price, stock and
    description in this order and raises KeyError for the first one that is
    missing, but only once it has a connection: without one it returns
    False whatever the dictionary holds.  A missing image_url is not an
    error.  With all five keys present it returns False when the name or
    the price is None, and True otherwise.  Whenever the result is not
    True the file is unchanged. *)
Theorem add_product_contract
    (up : bool) (now : Z) (db : Database) (data : ProductData) :
  add_product false now db data = (Value false, db) /\
  (pd_name data = Missing ->
     add_product true now db data = (Raised (KeyError "name"), db)) /\
  (forall n, pd_name data = Bound n -> pd_category_id data = Missing ->
     add_product true now db data = (Raised (KeyError "category_id"), db)) /\
  (forall n c, pd_name data = Bound n -> pd_category_id data = Bound c ->
     pd_price data = Missing ->
     add_product true now db data = (Raised (KeyError "price"), db)) /\
  (forall n c p, pd_name data = Bound n -> pd_category_id data = Bound c ->
     pd_price data = Bound p -> pd_stock data = Missing ->
     add_product true now db data = (Raised (KeyError "stock"), db)) /\
  (forall n c p s, pd_name data = Bound n -> pd_category_id data = Bound c ->
     pd_price data = Bound p -> pd_stock data = Bound s ->
     pd_description data = Missing ->
     add_product true now db data = (Raised (KeyError "description"), db)) /\
  (forall n c p s d, pd_name data = Bound n -> pd_category_id data = Bound c ->
     pd_price data = Bound p -> pd_stock data = Bound s ->
     pd_description data = Bound d ->
     fst (add_product true now db data)
     = Value (match n, p with Some _, Some _ => true | _, _ => false end)) /\
  (fst (add_product up now db data) <> Value true ->
     snd (add_product up now db data) = db).
Proof.
  destruct data as [n c p s d i]. cbn [pd_name pd_category_id pd_price pd_stock
                                       pd_description pd_image_url].
  unfold add_product, insert_product, getitem. run_exec.
  split; [reflexivity|].
  split; [intros ->; reflexivity|].
  split; [intros n0 -> ->; reflexivity|].
  split; [intros n0 c0 -> -> ->; reflexivity|].
  split; [intros n0 c0 p0 -> -> -> ->; reflexivity|].
  split; [intros n0 c0 p0 s0 -> -> -> -> ->; reflexivity|].
  split.
  - intros n0 c0 p0 s0 d0 -> -> -> -> ->. destruct n0, p0; reflexivity.
  - destruct up; cbn [txn disk]; [|reflexivity].
    destruct n as [|[n|]], c as [|c], p as [|[p|]], s as [|s], d as [|d];
      cbn [fst snd]; try reflexivity.
    intros H. destruct H. reflexivity.
Qed.

(** X7. The "Add Category" form never raises and stores nothing for a
    name that is blank once trimmed.  It reports the category as added
    exactly when the trimmed name is not blank, there is a connection and
    no category has that name; then one row with the trimmed name and
    description is appended.  In every other case the file is unchanged. *)
Theorem category_form_contract
    (up : bool) (now : Z) (db : Database) (cat_name cat_desc : string) :
  let r := submit_add_category up now db cat_name cat_desc in
  (exists m, fst r = Value m) /\
  (Text.strip cat_name = "" -> r = (Value CategoryNameRequired, db)) /\
  (fst r = Value CategoryAdded <->
     Text.strip cat_name <> "" /\ up = true /\
     ~ In (Text.strip cat_name) (map c_name (categories db))) /\
  (fst r = Value CategoryAdded ->
     categories (snd r) =
       categories db ++
         [mkCategory (seq_categories (sqlite_sequence db) + 1)
            (Text.strip cat_name) (Text.strip cat_desc) now]) /\
  (fst r <> Value CategoryAdded -> snd r = db).
Proof.
  cbv zeta. unfold submit_add_category. rewrite add_category_eq.
  set (name := Text.strip cat_name).
  assert (Htaken : existsb (fun c => (c_name c =? name)%string) (categories db) = true <->
                   In name (map c_name (categories db))).
  { rewrite existsb_exists, in_map_iff.
    split; intros (x & H1 & H2); exists x.
    - apply String.eqb_eq in H2. auto.
    - split; [exact H2 | apply String.eqb_eq, H1]. }
  destruct (String.eqb_spec name "") as [Hblank|Hname].
  - cbn [fst snd]. split; [eauto|]. split; [reflexivity|].
    split; [split; [discriminate | intros (H & _); contradiction]|].
    split; [discriminate | reflexivity].
  - destruct up; cbn [andb];
      [destruct (existsb _ (categories db)) eqn:Hfree; cbn [negb fst snd]|cbn [fst snd]].
    + split; [eauto|]. split; [contradiction|].
      split; [split; [discriminate|]|split; [discriminate | reflexivity]].
      intros (_ & _ & H). destruct H. apply Htaken. reflexivity.
    + split; [eauto|]. split; [contradiction|].
      split; [|split; [reflexivity | intros H; destruct H; reflexivity]].
      split; [|reflexivity]. intros _. repeat split; [exact Hname|].
      rewrite <- Htaken. congruence.
    + split; [eauto|]. split; [contradiction|].
      split; [split; [discriminate | intros (_ & H & _); discriminate]|].
      split; [discriminate | reflexivity].
Qed.

(** X8. [create_order] returns an order identifier exactly when it has a
    connection, the frame has its columns and no line lacks its quantity,
    price or subtotal; it raises exactly when it has a connection and the
    frame has no columns or some line lacks one of them, and the exception
    is KeyError('subtotal') exactly in the first case; it returns None
    exactly when it has no connection.  The identifier is the next value of
    the orders counter. *)
Theorem create_order_outcomes
    (up : bool) (now : Z) (db : Database) (customer_id : Z)
    (cart_items : DataFrame) (shipping_address payment_method : string) :
  let r := fst (create_order up now db customer_id cart_items
                  shipping_address payment_method) in
  (r = Value (Some (seq_orders (sqlite_sequence db) + 1)) <->
     up = true /\ cart_items <> NoColumns /\
     forall l, In l (iterrows cart_items) -> ~ incomplete l) /\
  ((exists e, r = Raised e) <->
     up = true /\
     (cart_items = NoColumns \/ exists l, In l (iterrows cart_items) /\ incomplete l)) /\
  (r = Raised (KeyError "subtotal") <-> up = true /\ cart_items = NoColumns) /\
  (r = Value None <-> up = false) /\
  (forall id, r = Value (Some id) -> id = seq_orders (sqlite_sequence db) + 1).
Proof.
  cbv zeta.
  pose proof (create_order_run up now db customer_id cart_items
                shipping_address payment_method) as H.
  destruct (create_order up now db customer_id cart_items
              shipping_address payment_method) as [[[oid|]|e] db']; cbn [fst].
  - destruct H as (-> & -> & subtotal & lines & rows & -> & Hrows & _).
    pose proof (items_of_complete _ _ _ _ Hrows) as Hall. cbn [iterrows].
    split; [split; [intros _; split; [reflexivity|]; split; [discriminate | exact Hall]
                   | reflexivity]|].
    split; [split; [intros (e & He); discriminate|]|].
    + intros (_ & [Hno | (l & Hl & Hinc)]); [discriminate | destruct (Hall l Hl Hinc)].
    + split; [split; [discriminate | intros (_ & Hno); discriminate]|].
      split; [split; discriminate|]. intros id [= <-]. reflexivity.
  - destruct H as (-> & _).
    split; [split; [discriminate | intros (H & _); discriminate]|].
    split; [split; [intros (e & He); discriminate | intros (H & _); discriminate]|].
    split; [split; [discriminate | intros (H & _); discriminate]|].
    split; [split; reflexivity | discriminate].
  - destruct H as (-> & _ & [(-> & ->) | ((k & ->) & l & Hl & Hinc)]).
    + split; [split; [discriminate | intros (_ & Hno & _); destruct Hno; reflexivity]|].
      split; [split; [auto | eauto]|].
      split; [split; auto|]. split; [split; discriminate | discriminate].
    + split; [split; [discriminate|]|].
      * intros (_ & _ & Hall). destruct (Hall l Hl Hinc).
      * split; [split; [eauto | eauto]|].
        split; [split; [discriminate|]|split; [split; discriminate | discriminate]].
        intros (_ & ->). destruct Hl.
Qed.


(** *** What the gateway does not look at *)

Lemma string_app_assoc (a b c : string) : ((a ++ b) ++ c = a ++ b ++ c)%string.
Proof. induction a as [|x a IH]; simpl; [reflexivity | rewrite IH; reflexivity]. Qed.

Lemma lstrip_app_kept (q t : string) :
  Text.lstrip q <> "" -> Text.lstrip (q ++ t) = (Text.lstrip q ++ t)%string.
Proof.
  induction q as [|c q IH]; simpl; intros H; [contradiction|].
  destruct (Text.isspace c); [apply IH, H | reflexivity].
Qed.

(** X9. The gateway looks at the start of the query only: a query that
    passes still passes with any text appended, a second statement
    included, and the whole text is handed to the store. *)
Theorem gateway_checks_only_the_start (custom_query tail : string) :
  query_allowed custom_query = true ->
  query_allowed (custom_query ++ tail) = true /\
  execute_query true (custom_query ++ tail) = Executed (custom_query ++ tail).
Proof.
  intros H.
  assert (Hq : query_allowed (custom_query ++ tail) = true).
  { rewrite query_allowed_lstrip in *.
    apply (startswith_upper "SELECT") in H; [|reflexivity].
    destruct H as (kw & rest & Heq & Hsame).
    apply (startswith_upper "SELECT"); [reflexivity|].
    exists kw, (rest ++ tail)%string. split; [|exact Hsame].
    rewrite lstrip_app_kept, Heq; [apply string_app_assoc|].
    rewrite Heq. destruct kw; [destruct Hsame | discriminate]. }
  split; [exact Hq|]. unfold execute_query. rewrite Hq. reflexivity.
Qed.

(** *** Listings *)

Lemma string_leb_total (a b : string) : String.leb a b = false -> String.leb b a = true.
Proof. intros H. destruct (String.leb_total a b) as [H'|H']; congruence. Qed.

Lemma sorted_relabel {A : Type} (le : A -> A -> bool) (R : A -> A -> Prop) (l : list A) :
  (forall a b, le a b = true -> R a b) ->
  Sorted (fun a b => le a b = true) l -> Sorted R l.
Proof.
  intros HR. induction 1 as [|a l _ IH Hhd]; constructor; [exact IH|].
  destruct Hhd; constructor. auto.
Qed.

(** X10. [get_categories] returns every category once, in ascending order
    of name, and nothing without a connection. *)
Theorem get_categories_sorted (db : Database) :
  Permutation (get_categories true db) (categories db) /\
  Sorted (fun a b => String.leb (c_name a) (c_name b) = true) (get_categories true db) /\
  get_categories false db = [].
Proof.
  split; [apply order_by_perm|]. split; [|reflexivity].
  apply (order_by_sorted (fun a b => String.leb (c_name a) (c_name b))).
  intros a b. apply string_leb_total.
Qed.

Lemma filter_find_unique {A : Type} (key : A -> Z) (P : A -> bool) (l : list A) :
  NoDup (map key l) ->
  (forall x y, P x = true -> P y = true -> key x = key y) ->
  filter P l = match find P l with Some c => [c] | None => [] end.
Proof.
  intros Hnd HP. induction l as [|x l IH]; [reflexivity|].
  simpl in Hnd. inversion Hnd as [|? ? Hx Hnd']; subst. simpl.
  destruct (P x) eqn:Hpx; [|apply IH, Hnd'].
  f_equal. apply filter_none. intros y Hy.
  destruct (P y) eqn:Hpy; [|reflexivity].
  exfalso. apply Hx. rewrite (HP x y Hpx Hpy). apply in_map, Hy.
Qed.

Lemma eq_param_same_key (a : option Z) (x y : Z) :
  eq_param a x = true -> eq_param a y = true -> x = y.
Proof. destruct a; simpl; [rewrite !Z.eqb_eq; congruence | discriminate]. Qed.

(** X11. In a reachable state [get_products] lists every product exactly
    once (the LEFT JOIN neither drops nor repeats a product), each with
    the name of the category its category_id names or with no name when
    there is none, newest first. *)
Theorem get_products_lists_each_product_once (db : Database) :
  reachable db ->
  Permutation (get_products true db)
    (map (fun p => mkProductView p (category_name_of db p)) (products db)) /\
  Sorted (fun a b => p_created_at (pv_product b) <= p_created_at (pv_product a))
         (get_products true db) /\
  get_products false db = [].
Proof.
  intros Hreach. split; [|split; [|reflexivity]].
  - unfold get_products.
    eapply perm_trans; [apply order_by_perm|].
    destruct (wk_categories _ (reachable_well_keyed db Hreach)) as (_ & Hnd & _).
    induction (products db) as [|p ps IH]; [apply perm_nil|].
    cbn [flat_map map]. unfold category_name_of at 1.
    rewrite (filter_find_unique c_id _ (categories db) Hnd)
      by (intros x y; apply eq_param_same_key).
    destruct (find _ (categories db)); cbn [map app option_map];
      apply perm_skip, IH.
  - unfold get_products.
    eapply sorted_relabel;
      [|apply (order_by_sorted
                 (fun a b => p_created_at (pv_product b) <=? p_created_at (pv_product a)))].
    + intros a b. apply Z.leb_le.
    + intros a b H. apply Z.leb_gt in H. apply Z.leb_le. lia.
Qed.

(** X12. Whatever passes the filters, the Shop tab shows it sorted: by
    name ascending for "Name", by price ascending for "Price: Low to
    High", and by price descending for any other choice; every row shown
    is a row of the frame it was given. *)
Theorem list_products_sorted
    (search category_filter sort_by : string) (products listed : list ProductView) :
  list_products search category_filter sort_by products = Some listed ->
  (sort_by = "Name" ->
     Sorted (fun a b => String.leb (p_name (pv_product a)) (p_name (pv_product b)) = true)
            listed) /\
  (sort_by = "Price: Low to High" ->
     Sorted (fun a b => p_price (pv_product a) <= p_price (pv_product b)) listed) /\
  (sort_by <> "Name" -> sort_by <> "Price: Low to High" ->
     Sorted (fun a b => p_price (pv_product b) <= p_price (pv_product a)) listed) /\
  (forall v, In v listed -> In v products).
Proof.
  unfold list_products.
  set (searched := if (search =? "")%string then Some products else _).
  assert (Hsearched : forall l, searched = Some l -> forall v, In v l -> In v products).
  { unfold searched. intros l.
    destruct (search =? "")%string; [intros [= <-]; auto|].
    destruct (Text.re_compile search); [|discriminate].
    intros [= <-] v Hv. apply filter_In in Hv. tauto. }
  destruct searched as [found|]; [|discriminate].
  specialize (Hsearched found eq_refl).
  set (kept := if negb (category_filter =? "All")%string then filter _ found else found).
  assert (Hkept : forall v, In v kept -> In v products).
  { unfold kept. intros v Hv. apply Hsearched.
    destruct (negb _); [apply filter_In in Hv; tauto | exact Hv]. }
  intros [= <-].
  assert (Hasc : forall l,
    Sorted (fun a b => p_price (pv_product a) <= p_price (pv_product b))
      (order_by (fun a b => p_price (pv_product a) <=? p_price (pv_product b)) l)).
  { intros l. eapply sorted_relabel; [|apply order_by_sorted].
    - intros a b. apply Z.leb_le.
    - intros a b H. apply Z.leb_gt in H. apply Z.leb_le. lia. }
  assert (Hdesc : forall l,
    Sorted (fun a b => p_price (pv_product b) <= p_price (pv_product a))
      (order_by (fun a b => p_price (pv_product b) <=? p_price (pv_product a)) l)).
  { intros l. eapply sorted_relabel; [|apply order_by_sorted].
    - intros a b. apply Z.leb_le.
    - intros a b H. apply Z.leb_gt in H. apply Z.leb_le. lia. }
  split; [|split; [|split]].
  - intros ->. cbn [String.eqb Ascii.eqb Bool.eqb andb].
    apply (order_by_sorted
             (fun a b => String.leb (p_name (pv_product a)) (p_name (pv_product b)))).
    intros a b. apply string_leb_total.
  - intros ->. apply Hasc.
  - intros H1 H2. apply String.eqb_neq in H1, H2. rewrite H1, H2. apply Hdesc.
  - intros v Hv. apply Hkept.
    destruct (sort_by =? "Name")%string;
      [|destruct (sort_by =? "Price: Low to High")%string];
      (eapply Permutation_in; [apply order_by_perm | exact Hv]).
Qed.


(** *** Order history of one customer *)

Lemma own_orders_joined (db : Database) (cu : Customer) :
  NoDup (map cu_id (customers db)) -> In cu (customers db) ->
  filter (fun v => eq_param (Some (cu_id cu)) (o_customer_id (ov_order v)))
         (orders_with_customers db)
  = map (fun o => order_view o cu)
        (filter (fun o => o_customer_id o =? cu_id cu) (orders db)).
Proof.
  intros Hnd Hin. unfold orders_with_customers.
  induction (orders db) as [|o os IH]; [reflexivity|].
  cbn [flat_map filter]. rewrite filter_app, IH.
  destruct (o_customer_id o =? cu_id cu) eqn:Ho.
  - apply Z.eqb_eq in Ho.
    rewrite (unique_filter cu_id (fun c => cu_id c =? o_customer_id o) (customers db) cu);
      try assumption.
    + cbn [map filter order_view ov_order eq_param]. rewrite Ho, Z.eqb_refl. reflexivity.
    + intros x Hx. apply Z.eqb_eq in Hx. congruence.
    + apply Z.eqb_eq. congruence.
  - rewrite filter_none; [reflexivity|].
    intros v Hv. apply in_map_iff in Hv. destruct Hv as (c & <- & _).
    cbn [order_view ov_order eq_param]. rewrite Z.eqb_sym. exact Ho.
Qed.

(** X13. In a reachable state a stored customer's order history is that
    customer's orders, each once and with the customer's name and email,
    newest first.  For a non-zero identifier that no customer has, the
    history is empty even if orders carry that identifier. *)
Theorem customer_sees_own_orders (db : Database) (cu : Customer) :
  reachable db -> In cu (customers db) ->
  Permutation (get_orders true db (Some (cu_id cu)))
    (map (fun o => order_view o cu)
         (filter (fun o => o_customer_id o =? cu_id cu) (orders db))) /\
  Sorted (fun a b => o_date (ov_order b) <= o_date (ov_order a))
         (get_orders true db (Some (cu_id cu))) /\
  (forall id, id <> 0 -> (forall c, In c (customers db) -> cu_id c <> id) ->
     get_orders true db (Some id) = []).
Proof.
  intros Hreach Hin.
  destruct (wk_customers _ (reachable_well_keyed db Hreach)) as (_ & Hnd & Hall).
  assert (Hid : (cu_id cu =? 0) = false).
  { rewrite Forall_forall in Hall. specialize (Hall cu Hin). apply Z.eqb_neq. lia. }
  unfold get_orders, truthy. rewrite Hid. cbn [negb].
  rewrite (own_orders_joined db cu Hnd Hin).
  split; [apply order_by_perm|]. split.
  - eapply sorted_relabel;
      [|apply (order_by_sorted newest_first newest_first_total)].
    intros a b. unfold newest_first. apply Z.leb_le.
  - intros id Hne Hnone. apply Z.eqb_neq in Hne. rewrite Hne. cbn [negb].
    rewrite filter_none; [reflexivity|].
    intros v Hv. unfold orders_with_customers in Hv.
    apply in_flat_map in Hv. destruct Hv as (o & _ & Hv).
    apply in_map_iff in Hv. destruct Hv as (c & <- & Hc).
    apply filter_In in Hc. destruct Hc as (Hc & Hco). apply Z.eqb_eq in Hco.
    cbn [order_view ov_order eq_param]. apply Z.eqb_neq.
    intros ->. apply (Hnone c Hc). exact Hco.
Qed.

(** C10. [get_orders] filters by customer only for a truthy identifier.
    With 0, as with the default None, it returns the orders of every
    customer and not those of customer 0: its rows are exactly the orders
    of the table, each joined with the customer that it names (an order of
    any customer is there; an order that names no stored customer is not),
    once each when every customer has a key of their own, newest first.
    With a non-zero identifier its rows are those of the orders of that
    customer only, newest first. *)
Theorem get_orders_falsy_id_lists_everyone (up : bool) (db : Database) :
  get_orders up db (Some 0) = get_orders up db None /\
  get_orders false db None = [] /\
  (forall v, In v (get_orders true db (Some 0)) <->
     exists o c, In o (orders db) /\ In c (customers db) /\
                 cu_id c = o_customer_id o /\ v = order_view o c) /\
  (NoDup (map cu_id (customers db)) ->
   Permutation (get_orders true db (Some 0))
     (flat_map (fun o => match customer_of db o with
                         | Some c => [order_view o c]
                         | None => []
                         end)
               (orders db))) /\
  Sorted (fun a b => o_date (ov_order b) <= o_date (ov_order a))
         (get_orders true db (Some 0)) /\
  (forall id, id <> 0 ->
     (forall v, In v (get_orders true db (Some id)) <->
        exists o c, In o (orders db) /\ In c (customers db) /\
                    o_customer_id o = id /\ cu_id c = id /\ v = order_view o c) /\
     Sorted (fun a b => o_date (ov_order b) <= o_date (ov_order a))
            (get_orders true db (Some id))).
Proof.
  assert (Hsorted : forall l,
             Sorted (fun a b => o_date (ov_order b) <= o_date (ov_order a))
                    (order_by newest_first l)).
  { intros l.
    eapply Sorted_ind with (P := fun l' => Sorted _ l');
      [ | | apply (order_by_sorted newest_first newest_first_total l)].
    - constructor.
    - intros a l' _ IH Hhd. constructor; [exact IH|].
      destruct Hhd as [|b l'' Hab]; constructor.
      unfold newest_first in Hab. apply Z.leb_le in Hab. exact Hab. }
  assert (Hjoin : forall v, In v (orders_with_customers db) <->
            exists o c, In o (orders db) /\ In c (customers db) /\
                        cu_id c = o_customer_id o /\ v = order_view o c).
  { intros v. unfold orders_with_customers. rewrite in_flat_map. split.
    - intros (o & Ho & Hv). apply in_map_iff in Hv. destruct Hv as (c & <- & Hc).
      apply filter_In in Hc. destruct Hc as (Hc & Hid). apply Z.eqb_eq in Hid.
      exists o, c. auto.
    - intros (o & c & Ho & Hc & Hid & ->). exists o. split; [exact Ho|].
      apply in_map, filter_In. split; [exact Hc | apply Z.eqb_eq, Hid]. }
  assert (Hperm : forall l v, In v (order_by newest_first l) <-> In v l).
  { intros l v. split; apply Permutation_in;
      [apply order_by_perm | apply Permutation_sym, order_by_perm]. }
  split; [unfold get_orders; destruct up; reflexivity|].
  split; [reflexivity|].
  split; [intros v; unfold get_orders; cbn [truthy Z.eqb negb];
          rewrite Hperm; apply Hjoin|].
  split.
  { intros Hnd. unfold get_orders. cbn [truthy Z.eqb negb].
    eapply Permutation_trans; [apply order_by_perm|].
    unfold orders_with_customers, customer_of.
    rewrite (flat_map_ext _
               (fun o => match find (fun c => cu_id c =? o_customer_id o) (customers db)
                         with Some c => [order_view o c] | None => [] end));
      [apply Permutation_refl|].
    intros o. rewrite (filter_find_unique cu_id _ (customers db) Hnd).
    - destruct (find _ (customers db)); reflexivity.
    - intros x y Hx Hy. apply Z.eqb_eq in Hx, Hy. congruence. }
  split; [apply Hsorted|].
  intros id Hid. apply Z.eqb_neq in Hid.
  unfold get_orders, truthy. rewrite Hid. cbn [negb]. split; [|apply Hsorted].
  intros v. rewrite Hperm, filter_In, Hjoin. split.
  - intros ((o & c & Ho & Hc & Hco & ->) & Hv).
    cbn [order_view ov_order eq_param] in Hv. apply Z.eqb_eq in Hv.
    exists o, c. repeat split; try assumption; congruence.
  - intros (o & c & Ho & Hc & Hoid & Hcid & ->). split.
    + exists o, c. repeat split; try assumption. congruence.
    + cbn [order_view ov_order eq_param]. apply Z.eqb_eq. congruence.
Qed.


(** X14. An order placed for a stored customer shows in that customer's
    order history right away, pending, with the customer's name and email
    and with the total as it was stored: the sum of the lines' subtotals
    as a number, or its bytes when the frame's subtotal column is int64. *)
Theorem placed_order_shows_in_history
    (up : bool) (now : Z) (db db' : Database) (cu : Customer) (order_id : Z)
    (cart_items : DataFrame) (shipping_address payment_method : string) :
  reachable db -> In cu (customers db) ->
  create_order up now db (cu_id cu) cart_items shipping_address payment_method
  = (Value (Some order_id), db') ->
  exists subtotal lines,
    cart_items = Frame subtotal lines /\
    In (mkOrderView
          (mkOrder order_id (cu_id cu) now
             (match subtotal with
              | int64 => Blob (int64_bytes (series_sum (map l_subtotal lines) / 100))
              | float64 | object => Number (series_sum (map l_subtotal lines))
              end)
             pending shipping_address payment_method)
          (cu_first_name cu) (cu_last_name cu) (cu_email cu))
       (get_orders true db' (Some (cu_id cu))).
Proof.
  intros Hreach Hin Hrun.
  destruct (wk_customers _ (reachable_well_keyed db Hreach)) as (_ & _ & Hall).
  assert (Hid : (cu_id cu =? 0) = false).
  { rewrite Forall_forall in Hall. specialize (Hall cu Hin). apply Z.eqb_neq. lia. }
  pose proof (create_order_run up now db (cu_id cu) cart_items
                shipping_address payment_method) as H.
  rewrite Hrun in H. destruct H as (_ & _ & subtotal & lines & rows & -> & _ & ->).
  exists subtotal, lines. split; [reflexivity|].
  change (match subtotal with
          | int64 => Blob (int64_bytes (series_sum (map l_subtotal lines) / 100))
          | float64 | object => Number (series_sum (map l_subtotal lines))
          end) with (stored_total subtotal lines).
  unfold get_orders, truthy. rewrite Hid. cbn [negb].
  eapply Permutation_in; [apply Permutation_sym, order_by_perm|].
  apply filter_In. split.
  - unfold orders_with_customers. cbn [orders customers].
    apply in_flat_map. eexists. split; [apply in_or_app; right; apply in_eq|].
    cbn [o_customer_id]. apply in_map_iff. exists cu. split; [reflexivity|].
    apply filter_In. split; [exact Hin | apply Z.eqb_refl].
  - cbn [ov_order o_customer_id eq_param]. apply Z.eqb_refl.
Qed.


(** *** The cart and the checkout *)

Lemma cart_items_by_row (db : Database) (c : Z) :
  NoDup (map p_id (products db)) ->
  iterrows (get_cart_items true db c)
  = flat_map (lines_of_row db) (filter (fun r => ct_customer_id r =? c) (cart db)).
Proof.
  intros Hnd. rewrite iterrows_get_cart_items. apply flat_map_ext. intros r.
  unfold lines_of_row, line_of.
  rewrite (filter_find_unique p_id _ (products db) Hnd).
  - destruct (find _ (products db)); reflexivity.
  - intros x y Hx Hy. apply Z.eqb_eq in Hx, Hy. congruence.
Qed.

Lemma lines_of_row_product (db : Database) (r : CartRow) (l : CartLine) :
  In l (lines_of_row db r) -> l_product_id l = Some (ct_product_id r).
Proof.
  unfold lines_of_row, line_of. destruct (find _ (products db)); simpl; [|tauto].
  intros [<-|[]]. reflexivity.
Qed.

Lemma customer_rows_distinct_products (rows : list CartRow) (c : Z) :
  (forall p, (List.length (filter (cart_entry_of c p) rows) <= 1)%nat) ->
  NoDup (map ct_product_id (filter (fun r => ct_customer_id r =? c) rows)).
Proof.
  induction rows as [|r rows IH]; intros H; [constructor|].
  assert (H' : forall p, (List.length (filter (cart_entry_of c p) rows) <= 1)%nat).
  { intros p. specialize (H p). simpl in H.
    destruct (cart_entry_of c p r); simpl in H; lia. }
  simpl. destruct (ct_customer_id r =? c) eqn:Hc; [|apply IH, H'].
  simpl. constructor; [|apply IH, H'].
  intros Hin. apply in_map_iff in Hin. destruct Hin as (r' & Hp & Hr').
  apply filter_In in Hr'. destruct Hr' as (Hr' & Hc').
  specialize (H (ct_product_id r)). simpl in H.
  assert (Hentry : cart_entry_of c (ct_product_id r) r = true)
    by (unfold cart_entry_of; rewrite Hc, Z.eqb_refl; reflexivity).
  rewrite Hentry in H. simpl in H.
  assert (Hin' : In r' (filter (cart_entry_of c (ct_product_id r)) rows)).
  { apply filter_In. split; [exact Hr'|].
    unfold cart_entry_of. rewrite Hc', Hp, Z.eqb_refl. reflexivity. }
  destruct (filter (cart_entry_of c (ct_product_id r)) rows); [destruct Hin' | simpl in H; lia].
Qed.

Lemma lines_distinct_products (db : Database) (rows : list CartRow) :
  NoDup (map ct_product_id rows) ->
  NoDup (map l_product_id (flat_map (lines_of_row db) rows)).
Proof.
  induction rows as [|r rows IH]; intros Hnd; [constructor|].
  simpl in Hnd. inversion Hnd as [|? ? Hr Hnd']; subst.
  cbn [flat_map]. rewrite map_app. apply NoDup_app; [| apply IH, Hnd' |].
  - unfold lines_of_row. destruct (line_of db r); repeat constructor. intros [].
  - intros a Ha Ha'.
    apply in_map_iff in Ha. destruct Ha as (l & <- & Hl).
    apply in_map_iff in Ha'. destruct Ha' as (l' & Heq & Hl').
    apply in_flat_map in Hl'. destruct Hl' as (r' & Hr' & Hl').
    rewrite (lines_of_row_product _ _ _ Hl), (lines_of_row_product _ _ _ Hl') in Heq.
    injection Heq as Heq. apply Hr. rewrite <- Heq. apply in_map, Hr'.
Qed.

Lemma flat_map_at_most_one {A B : Type} (f : A -> list B) (l : list A) :
  (forall a, (List.length (f a) <= 1)%nat) ->
  (List.length (flat_map f l) <= List.length l)%nat.
Proof.
  intros Hf. induction l as [|a l IH]; simpl; [lia|].
  rewrite length_app. specialize (Hf a). lia.
Qed.

(** X15. In a reachable state the cart frame of a customer has one line
    for each of the customer's cart rows whose product exists, carrying
    the row's quantity and the product's current price, and no line for a
    row whose product does not exist; no two lines name the same product.
    Without a connection the frame is the one without columns, which has
    no rows. *)
Theorem cart_lines_match_cart_rows (db : Database) (c : Z) :
  reachable db ->
  iterrows (get_cart_items true db c)
  = flat_map (fun r => match line_of db r with Some l => [l] | None => [] end)
             (filter (fun r => ct_customer_id r =? c) (cart db)) /\
  NoDup (map l_product_id (iterrows (get_cart_items true db c))) /\
  (List.length (iterrows (get_cart_items true db c))
   <= List.length (filter (fun r => Z.eqb (ct_customer_id r) c) (cart db)))%nat /\
  get_cart_items false db c = NoColumns /\
  iterrows (get_cart_items false db c) = [].
Proof.
  intros Hreach.
  destruct (wk_products _ (reachable_well_keyed db Hreach)) as (_ & Hnd & _).
  rewrite (cart_items_by_row db c Hnd).
  split; [reflexivity|]. split; [|split; [|split; reflexivity]].
  - apply lines_distinct_products, customer_rows_distinct_products.
    intros p. apply (reachable_cart_unique db Hreach).
  - apply flat_map_at_most_one. intros r. unfold lines_of_row.
    destruct (line_of db r); simpl; lia.
Qed.

Lemma filter_filter_negb {A : Type} (P : A -> bool) (l : list A) :
  filter P (filter (fun x => negb (P x)) l) = [].
Proof.
  apply filter_none. intros x Hx. apply filter_In in Hx.
  destruct Hx as (_ & Hx). destruct (P x); [discriminate | reflexivity].
Qed.

(** X16. [clear_cart] empties the cart of the given customer and of nobody
    else: afterwards that customer's cart frame is empty, the cart rows of
    every other customer are the same, and no other table has changed.
    Without a connection it changes nothing, and it returns in the same
    way, so the caller cannot tell. *)
Theorem clear_cart_clears_one_customer (up : bool) (db : Database) (c : Z) :
  iterrows (get_cart_items up (snd (clear_cart true db c)) c) = [] /\
  cart (snd (clear_cart true db c))
  = filter (fun r => negb (ct_customer_id r =? c)) (cart db) /\
  (forall c', c' <> c ->
     filter (fun r => ct_customer_id r =? c') (cart (snd (clear_cart true db c)))
     = filter (fun r => ct_customer_id r =? c') (cart db) /\
     get_cart_items up (snd (clear_cart true db c)) c' = get_cart_items up db c') /\
  products (snd (clear_cart true db c)) = products db /\
  orders (snd (clear_cart true db c)) = orders db /\
  order_items (snd (clear_cart true db c)) = order_items db /\
  customers (snd (clear_cart true db c)) = customers db /\
  clear_cart false db c = (Value tt, db) /\
  fst (clear_cart true db c) = fst (clear_cart false db c).
Proof.
  rewrite !clear_cart_eq. cbn [fst snd].
  assert (Hother : forall c', c' <> c ->
    filter (fun r => ct_customer_id r =? c')
           (filter (fun r => negb (ct_customer_id r =? c)) (cart db))
    = filter (fun r => ct_customer_id r =? c') (cart db)).
  { intros c' Hne. induction (cart db) as [|r rows IH]; [reflexivity|].
    simpl. destruct (ct_customer_id r =? c) eqn:Hc; simpl.
    - apply Z.eqb_eq in Hc. rewrite Hc.
      destruct (Z.eqb_spec c c'); [congruence | exact IH].
    - destruct (ct_customer_id r =? c'); rewrite IH; reflexivity. }
  split.
  - unfold get_cart_items, cart_join. destruct up; [|reflexivity]. cbn [cart].
    rewrite (filter_filter_negb (fun r => ct_customer_id r =? c)). reflexivity.
  - split; [reflexivity|]. split; [|repeat split].
    intros c' Hne. cbn [cart]. split; [apply Hother, Hne|].
    unfold get_cart_items, cart_join. destruct up; [|reflexivity]. cbn [cart products].
    rewrite (Hother c' Hne). reflexivity.
Qed.


Lemma select_cart_cases (db : Database) (c p : Z) :
  cart_unique db ->
  select_cart c p db = [] \/ exists r, select_cart c p db = [r].
Proof.
  intros H. specialize (H c p).
  destruct (select_cart c p db) as [|r [|r' rs]]; simpl in H; [auto | eauto | lia].
Qed.

(** X17. After [add_to_cart] for a product that exists, the customer's cart
    frame has a line for that product whose quantity is what the cart held
    of it before plus the quantity added, at the product's current price,
    with the matching subtotal. *)
Theorem added_product_shows_in_cart
    (db : Database) (now c q : Z) (p : Product) :
  reachable db -> In p (products db) ->
  In (mkCartLine (Some (p_id p)) (Some (cart_quantity db c (p_id p) + q))
        (Some (p_price p)) (Some ((cart_quantity db c (p_id p) + q) * p_price p)))
     (iterrows (get_cart_items true (snd (add_to_cart true now db c (p_id p) q)) c)).
Proof.
  intros Hreach Hp. rewrite iterrows_get_cart_items, add_to_cart_eq. cbn [snd].
  unfold cart_quantity.
  destruct (select_cart_cases db c (p_id p) (reachable_cart_unique db Hreach))
    as [Hsel|(r0 & Hsel)]; rewrite Hsel; cbn [fold_right cart products].
  - apply in_flat_map.
    exists (mkCartRow (seq_cart (sqlite_sequence db) + 1) c (p_id p) q now). split.
    + apply filter_In. split; [apply in_or_app; right; apply in_eq | apply Z.eqb_refl].
    + cbn [ct_product_id ct_quantity]. apply in_map_iff. exists p.
      split; [reflexivity|]. apply filter_In. split; [exact Hp | apply Z.eqb_refl].
  - assert (Hr0 : In r0 (cart db) /\ cart_entry_of c (p_id p) r0 = true).
    { apply filter_In. unfold select_cart in Hsel. rewrite Hsel. apply in_eq. }
    destruct Hr0 as (Hin & Hentry).
    pose proof Hentry as Hids. unfold cart_entry_of in Hids.
    apply andb_true_iff in Hids. destruct Hids as (Hc & Hpid).
    apply Z.eqb_eq in Hc, Hpid.
    rewrite Z.add_0_r. apply in_flat_map. exists (add_quantity q r0). split.
    + apply filter_In. split; [|cbn [add_quantity ct_customer_id]; apply Z.eqb_eq, Hc].
      apply in_map_iff. exists r0. rewrite Hentry. auto.
    + cbn [add_quantity ct_product_id ct_quantity]. rewrite Hpid.
      apply in_map_iff. exists p.
      split; [reflexivity|]. apply filter_In. split; [exact Hp | apply Z.eqb_refl].
Qed.

(** X18. [add_to_cart] checks neither the product nor the quantity: for a
    product identifier that no product has it still returns True and
    stores a row, with any quantity, zero and negative included.  The row
    gives no line: every cart frame of the state that the call returns is
    the frame of before.  The row stays in the cart, and in any state a
    cart row shows in its customer's frame once a product bears its product
    identifier. *)
Theorem unknown_product_is_stored_unseen
    (up : bool) (db : Database) (now c pid q c' : Z) :
  (forall p, In p (products db) -> p_id p <> pid) ->
  fst (add_to_cart true now db c pid q) = Value true /\
  (exists r, In r (cart (snd (add_to_cart true now db c pid q))) /\
             ct_customer_id r = c /\ ct_product_id r = pid) /\
  get_cart_items up (snd (add_to_cart true now db c pid q)) c'
  = get_cart_items up db c' /\
  (forall db' r p,
     In r (cart db') -> In p (products db') -> p_id p = ct_product_id r ->
     In (mkCartLine (Some (ct_product_id r)) (Some (ct_quantity r))
           (Some (p_price p)) (Some (ct_quantity r * p_price p)))
        (iterrows (get_cart_items true db' (ct_customer_id r)))).
Proof.
  intros Hunknown. rewrite add_to_cart_eq. cbn [fst snd].
  assert (Hnone : filter (fun p => p_id p =? pid) (products db) = []).
  { apply filter_none. intros p Hp. apply Z.eqb_neq. auto. }
  split; [reflexivity|].
  split; [|split].
  - destruct (select_cart c pid db) as [|r0 rs] eqn:Hsel.
    + eexists. split; [cbn [cart]; apply in_or_app; right; apply in_eq|].
      split; reflexivity.
    + assert (Hr0 : In r0 (cart db) /\ cart_entry_of c pid r0 = true).
      { apply filter_In. unfold select_cart in Hsel. rewrite Hsel. apply in_eq. }
      destruct Hr0 as (Hin & Hentry).
      exists (add_quantity q r0). split.
      * cbn [cart]. apply in_map_iff. exists r0. rewrite Hentry. auto.
      * unfold cart_entry_of in Hentry. apply andb_true_iff in Hentry.
        rewrite !Z.eqb_eq in Hentry. exact Hentry.
  - match goal with |- get_cart_items up ?d c' = _ =>
      assert (Hjoin : cart_join d c' = cart_join db c') end.
    { unfold cart_join. destruct (select_cart c pid db) as [|r0 rs]; cbn [cart products].
      - rewrite filter_app, flat_map_app. cbn [filter ct_customer_id].
        destruct (c =? c'); cbn [flat_map ct_product_id];
          [rewrite Hnone|]; cbn [map app]; apply app_nil_r.
      - induction (cart db) as [|r rows IH]; [reflexivity|].
        cbn [map filter].
        destruct (cart_entry_of c pid r) eqn:Hentry.
        + change (ct_customer_id (add_quantity q r)) with (ct_customer_id r).
          unfold cart_entry_of in Hentry. apply andb_true_iff in Hentry.
          destruct Hentry as (_ & Hpid). apply Z.eqb_eq in Hpid.
          destruct (ct_customer_id r =? c'); [|exact IH].
          cbn [flat_map].
          change (ct_product_id (add_quantity q r)) with (ct_product_id r).
          rewrite Hpid, Hnone. cbn [map app]. exact IH.
        + destruct (ct_customer_id r =? c'); [|exact IH].
          cbn [flat_map]. rewrite IH. reflexivity. }
    unfold get_cart_items. destruct up; [|reflexivity]. cbv zeta.
    rewrite Hjoin. reflexivity.
  - intros db' r p Hr Hp Hid. rewrite iterrows_get_cart_items.
    apply in_flat_map. exists r. split.
    + apply filter_In. split; [exact Hr | apply Z.eqb_refl].
    + apply in_map_iff. exists p. split; [reflexivity|].
      apply filter_In. split; [exact Hp | apply Z.eqb_eq, Hid].
Qed.


Lemma quantity_ordered_app (pid : Z) (l1 l2 : list CartLine) :
  quantity_ordered pid (l1 ++ l2) = quantity_ordered pid l1 + quantity_ordered pid l2.
Proof. induction l1 as [|l l1 IH]; simpl; [reflexivity | rewrite IH; lia]. Qed.

Lemma filter_filter_and {A : Type} (P Q : A -> bool) (l : list A) :
  filter Q (filter P l) = filter (fun x => P x && Q x) l.
Proof.
  induction l as [|x l IH]; simpl; [reflexivity|].
  destruct (P x); simpl; [destruct (Q x)|]; rewrite IH; reflexivity.
Qed.

(** The lines of a cart order, of a product that exists, what the cart
    holds of it. *)
Lemma quantity_ordered_cart (db : Database) (c : Z) (p : Product) :
  NoDup (map p_id (products db)) -> In p (products db) ->
  quantity_ordered (p_id p) (iterrows (get_cart_items true db c))
  = cart_quantity db c (p_id p).
Proof.
  intros Hnd Hp. rewrite (cart_items_by_row db c Hnd).
  unfold cart_quantity, select_cart.
  rewrite (filter_ext (cart_entry_of c (p_id p))
             (fun r => (ct_customer_id r =? c) && (ct_product_id r =? p_id p)))
    by reflexivity.
  rewrite <- filter_filter_and.
  induction (filter (fun r => ct_customer_id r =? c) (cart db)) as [|r rows IH];
    [reflexivity|].
  cbn [flat_map filter]. rewrite quantity_ordered_app, IH.
  unfold lines_of_row, line_of.
  destruct (ct_product_id r =? p_id p) eqn:Hr.
  - destruct (find (fun p0 => p_id p0 =? ct_product_id r) (products db)) eqn:Hfind.
    + cbn [option_map quantity_ordered l_product_id l_quantity eq_param fold_right].
      rewrite Hr. lia.
    + exfalso. apply (find_none _ _ Hfind p) in Hp.
      apply Z.eqb_eq in Hr. rewrite Hr, Z.eqb_refl in Hp. discriminate.
  - destruct (find _ (products db));
      cbn [option_map quantity_ordered l_product_id l_quantity eq_param];
      [rewrite Hr|]; lia.
Qed.

Lemma items_of_length (first_id order_id : Z) (lines : list CartLine)
    (rows : list OrderItem) :
  items_of first_id order_id lines rows -> List.length rows = List.length lines.
Proof.
  revert first_id rows. induction lines as [|l lines IH]; intros f [|r rows] H;
    simpl in H; try contradiction; [reflexivity|].
  simpl. f_equal. apply (IH _ _ (proj2 H)).
Qed.

Lemma forallb_false {A : Type} (f : A -> bool) (l : list A) :
  forallb f l = false -> exists x, In x l /\ f x = false.
Proof.
  induction l as [|x l IH]; simpl; [discriminate|].
  destruct (f x) eqn:Hx; [|eauto].
  intros H. destruct (IH H) as (y & Hy & Hfy). eauto.
Qed.

Lemma whole_price_cart_line (x : CartRow * Product) :
  whole_price (cart_line x) <-> is_integer (p_price (snd x)) = true.
Proof.
  unfold whole_price, is_integer, cart_line. cbn [l_price]. rewrite Z.eqb_eq. split.
  - intros (price & [= <-] & H). exact H.
  - intros H. eauto.
Qed.

Lemma read_dtype_cases (integers : list bool) :
  integers = [] /\ read_dtype integers = object
  \/
  integers <> [] /\ forallb (fun b => b) integers = true /\ read_dtype integers = int64
  \/
  forallb (fun b => b) integers = false /\ read_dtype integers = float64.
Proof.
  destruct integers as [|b bs]; [left; split; reflexivity|]. right.
  unfold read_dtype. destruct (forallb (fun b0 => b0) (b :: bs));
    [left; split; [discriminate | split; reflexivity] | right; split; reflexivity].
Qed.

(** The dtype of the subtotal column of a cart frame: object without rows,
    int64 when every line has a whole price, float64 otherwise. *)
Lemma cart_frame_dtype_cases (db : Database) (c : Z) :
  iterrows (get_cart_items true db c) = [] /\
  subtotal_dtype (get_cart_items true db c) = object
  \/
  iterrows (get_cart_items true db c) <> [] /\
  Forall whole_price (iterrows (get_cart_items true db c)) /\
  subtotal_dtype (get_cart_items true db c) = int64
  \/
  (exists l, In l (iterrows (get_cart_items true db c)) /\ ~ whole_price l) /\
  subtotal_dtype (get_cart_items true db c) = float64.
Proof.
  unfold get_cart_items. cbv zeta. cbn [iterrows subtotal_dtype].
  set (join := cart_join db c).
  destruct (read_dtype_cases (map (fun x => is_integer (p_price (snd x))) join))
    as [(Hnil & ->) | [(Hne & Hall & ->) | (Hall & ->)]].
  - left. split; [|reflexivity]. destruct join; [reflexivity | discriminate].
  - right. left. split; [destruct join; [destruct Hne; reflexivity | discriminate]|].
    split; [|reflexivity].
    rewrite forallb_forall in Hall. apply Forall_forall. intros l Hl.
    apply in_map_iff in Hl. destruct Hl as (y & <- & Hy).
    apply whole_price_cart_line, Hall, in_map_iff. exists y. auto.
  - right. right. split; [|reflexivity].
    apply forallb_false in Hall. destruct Hall as (b0 & Hb & Hfalse).
    apply in_map_iff in Hb. destruct Hb as (y & <- & Hy).
    exists (cart_line y). split; [apply in_map, Hy|].
    rewrite whole_price_cart_line. congruence.
Qed.

(** An order of the customer's own cart frame goes through. *)
Lemma cart_order_succeeds (now : Z) (db : Database) (c : Z) (a m : string) :
  exists rows,
    items_of (seq_order_items (sqlite_sequence db) + 1)
      (seq_orders (sqlite_sequence db) + 1) (iterrows (get_cart_items true db c)) rows /\
    create_order true now db c (get_cart_items true db c) a m
    = (Value (Some (seq_orders (sqlite_sequence db) + 1)),
       mkDatabase (categories db)
         (stock_after (iterrows (get_cart_items true db c)) (products db)) (customers db)
         (orders db ++
            [mkOrder (seq_orders (sqlite_sequence db) + 1) c now
               (stored_total (subtotal_dtype (get_cart_items true db c))
                             (iterrows (get_cart_items true db c)))
               pending a m])
         (order_items db ++ rows) (cart db)
         (mkSequence (seq_categories (sqlite_sequence db))
            (seq_products (sqlite_sequence db))
            (seq_customers (sqlite_sequence db))
            (seq_orders (sqlite_sequence db) + 1)
            (seq_order_items (sqlite_sequence db)
             + Z.of_nat (List.length (iterrows (get_cart_items true db c))))
            (seq_cart (sqlite_sequence db)))).
Proof.
  pose proof (create_order_run true now db c (get_cart_items true db c) a m) as H.
  destruct (create_order true now db c (get_cart_items true db c) a m)
    as [[[oid|]|e] db'].
  - destruct H as (_ & -> & subtotal & lines & rows & Hframe & Hrows & ->).
    rewrite Hframe. cbn [iterrows subtotal_dtype]. exists rows. auto.
  - destruct H as (H & _). discriminate.
  - destruct H as (_ & _ & [(Hno & _) | (_ & l & Hl & Hinc)]); exfalso.
    + discriminate Hno.
    + destruct (cart_lines_priced true db c l Hl) as (q & p & _ & _ & Hq & Hp & Hs).
      unfold incomplete in Hinc. rewrite Hq, Hp, Hs in Hinc.
      destruct Hinc as [|[|]]; discriminate.
Qed.

Lemma not_empty (df : DataFrame) : iterrows df <> [] -> empty df = false.
Proof. unfold empty. destruct (iterrows df); [contradiction | reflexivity]. Qed.

(** X19. Checkout of a cart frame just read, in a reachable state with its
    connections available: the order is placed under the next order key,
    as many order items are added as the frame has lines, every product
    loses exactly what the customer's cart held of it, the customer's cart
    rows are deleted and nobody else's, and the customer's cart frame is
    empty afterwards.  The order's total is the sum of the lines' subtotals
    as a number when some line's price is no whole number; when every price
    is whole, it is stored as the eight bytes of the sum instead. *)
Theorem checkout_places_the_cart
    (now : Z) (db : Database) (c : Z) (shipping_address payment_method : string) :
  reachable db ->
  iterrows (get_cart_items true db c) <> [] ->
  exists db2 total,
    submit_checkout true true now db c (get_cart_items true db c)
      shipping_address payment_method
    = (Value (OrderPlaced (seq_orders (sqlite_sequence db) + 1)), db2) /\
    orders db2 =
      orders db ++
        [mkOrder (seq_orders (sqlite_sequence db) + 1) c now total pending
           shipping_address payment_method] /\
    (total = Blob (int64_bytes
                     (series_sum (map l_subtotal (iterrows (get_cart_items true db c)))
                      / 100)) /\
     Forall whole_price (iterrows (get_cart_items true db c))
     \/
     total = Number (series_sum (map l_subtotal (iterrows (get_cart_items true db c)))) /\
     exists l, In l (iterrows (get_cart_items true db c)) /\ ~ whole_price l) /\
    List.length (order_items db2)
    = (List.length (order_items db)
       + List.length (iterrows (get_cart_items true db c)))%nat /\
    products db2 =
      map (fun p => with_stock p
             (sub_null (p_stock p) (Some (cart_quantity db c (p_id p)))))
          (products db) /\
    cart db2 = filter (fun r => negb (ct_customer_id r =? c)) (cart db) /\
    iterrows (get_cart_items true db2 c) = [].
Proof.
  intros Hreach Hlines.
  pose proof (reachable_well_keyed db Hreach) as Hwk.
  destruct (wk_products _ Hwk) as (_ & Hnd & _).
  destruct (wk_orders _ Hwk) as (Hseq & _ & _).
  destruct (cart_order_succeeds now db c shipping_address payment_method)
    as (rows & Hrows & Horder).
  unfold submit_checkout. rewrite (not_empty _ Hlines), Horder. cbn [truthy].
  replace (seq_orders (sqlite_sequence db) + 1 =? 0) with false
    by (symmetry; apply Z.eqb_neq; lia).
  cbn [negb]. rewrite clear_cart_eq.
  eexists. eexists. split; [reflexivity|].
  cbn [orders order_items products cart].
  split; [reflexivity|]. split; [|split; [|split; [|split; [reflexivity|]]]].
  - destruct (cart_frame_dtype_cases db c)
      as [(Hnil & _) | [(_ & Hwhole & ->) | (Hsome & ->)]];
      [contradiction | left | right]; split; auto.
  - rewrite length_app, (items_of_length _ _ _ _ Hrows). reflexivity.
  - rewrite stock_after_total by (apply (items_of_complete _ _ _ _ Hrows)).
    apply map_ext_in. intros p Hp.
    rewrite (quantity_ordered_cart db c p Hnd Hp). reflexivity.
  - unfold get_cart_items, cart_join. cbn [cart].
    rewrite (filter_filter_negb (fun r => ct_customer_id r =? c)). reflexivity.
Qed.

(** X20. The checkout is two transactions.  When [create_order] has no
    connection nothing is written and nothing is reported; when the order
    goes through but [clear_cart] has no connection, the page still
    reports the order as placed, the order and the stock updates stay
    committed, and the cart is left as it was. *)
Theorem checkout_is_two_transactions
    (up_clear : bool) (now : Z) (db : Database) (c : Z)
    (shipping_address payment_method : string) :
  reachable db ->
  iterrows (get_cart_items true db c) <> [] ->
  submit_checkout false up_clear now db c (get_cart_items true db c)
    shipping_address payment_method
  = (Value NoOrder, db) /\
  exists db1,
    submit_checkout true false now db c (get_cart_items true db c)
      shipping_address payment_method
    = (Value (OrderPlaced (seq_orders (sqlite_sequence db) + 1)), db1) /\
    create_order true now db c (get_cart_items true db c)
      shipping_address payment_method
    = (Value (Some (seq_orders (sqlite_sequence db) + 1)), db1) /\
    cart db1 = cart db /\
    List.length (orders db1) = S (List.length (orders db)).
Proof.
  intros Hreach Hlines.
  destruct (wk_orders _ (reachable_well_keyed db Hreach)) as (Hseq & _ & _).
  destruct (cart_order_succeeds now db c shipping_address payment_method)
    as (rows & Hrows & Horder).
  unfold submit_checkout. rewrite (not_empty _ Hlines). split.
  - unfold create_order, with_connection, create_connection. reflexivity.
  - rewrite Horder. cbn [truthy].
    replace (seq_orders (sqlite_sequence db) + 1 =? 0) with false
      by (symmetry; apply Z.eqb_neq; lia).
    cbn [negb]. rewrite clear_cart_eq.
    eexists. split; [reflexivity|]. split; [reflexivity|].
    cbn [cart orders]. split; [reflexivity|].
    rewrite length_app. simpl. lia.
Qed.

(** X21. A cart frame without rows.  The Cart tab offers no checkout for
    it and writes nothing, whether the frame has columns or not.
    [create_order] itself tells the two apart: given the frame without
    rows that [get_cart_items] reads from an empty cart, it writes an order
    of total 0 without items and leaves the stock alone; given the frame
    without columns that [get_cart_items] returns without a connection, it
    raises KeyError and writes nothing. *)
Theorem empty_cart_frame
    (up_order up_clear : bool) (now : Z) (db : Database) (c : Z)
    (cart_items : DataFrame) (shipping_address payment_method : string) :
  (iterrows cart_items = [] ->
   submit_checkout up_order up_clear now db c cart_items shipping_address payment_method
   = (Value CartIsEmpty, db)) /\
  (filter (fun r => ct_customer_id r =? c) (cart db) = [] ->
   get_cart_items true db c = Frame object []) /\
  get_cart_items false db c = NoColumns /\
  fst (create_order true now db c (Frame object []) shipping_address payment_method)
  = Value (Some (seq_orders (sqlite_sequence db) + 1)) /\
  orders (snd (create_order true now db c (Frame object [])
                 shipping_address payment_method))
  = orders db ++
      [mkOrder (seq_orders (sqlite_sequence db) + 1) c now (Number 0) pending
         shipping_address payment_method] /\
  order_items (snd (create_order true now db c (Frame object [])
                      shipping_address payment_method))
  = order_items db /\
  products (snd (create_order true now db c (Frame object [])
                   shipping_address payment_method))
  = products db /\
  create_order true now db c NoColumns shipping_address payment_method
  = (Raised (KeyError "subtotal"), db).
Proof.
  split; [intros Hnil; unfold submit_checkout, empty; rewrite Hnil; reflexivity|].
  split; [intros Hnil; unfold get_cart_items, cart_join; rewrite Hnil; reflexivity|].
  repeat split.
Qed.


(** X27. The total of an order of a cart frame just read.  The order
    always goes through.  Its total is the number 0 for a frame without
    rows and the sum of the lines' subtotals, as a number, when some line's
    price is no whole number.  When the frame has rows and every price is
    a whole number, the subtotal column is int64, the sum is a
    [numpy.int64], and the total is stored as the eight bytes of the sum
    (counted in whole units), not as a number. *)
Theorem whole_prices_give_a_blob_total
    (now : Z) (db : Database) (c : Z) (shipping_address payment_method : string) :
  let cart_items := get_cart_items true db c in
  let r := create_order true now db c cart_items shipping_address payment_method in
  fst r = Value (Some (seq_orders (sqlite_sequence db) + 1)) /\
  exists total,
    orders (snd r) =
      orders db ++
        [mkOrder (seq_orders (sqlite_sequence db) + 1) c now total pending
           shipping_address payment_method] /\
    (iterrows cart_items = [] -> total = Number 0) /\
    (iterrows cart_items <> [] -> Forall whole_price (iterrows cart_items) ->
     total = Blob (int64_bytes (series_sum (map l_subtotal (iterrows cart_items)) / 100))) /\
    ((exists l, In l (iterrows cart_items) /\ ~ whole_price l) ->
     total = Number (series_sum (map l_subtotal (iterrows cart_items)))).
Proof.
  cbv zeta.
  destruct (cart_order_succeeds now db c shipping_address payment_method)
    as (rows & _ & ->).
  cbn [fst snd orders]. split; [reflexivity|].
  eexists. split; [reflexivity|].
  destruct (cart_frame_dtype_cases db c)
    as [(Hnil & ->) | [(Hne & Hwhole & ->) | ((l & Hl & Hnot) & ->)]];
    cbn [stored_total].
  - rewrite Hnil. split; [reflexivity|].
    split; [intros H; destruct H; reflexivity | intros (l & [] & _)].
  - split; [intros H; contradiction|]. split; [reflexivity|].
    intros (l & Hl & Hnot). rewrite Forall_forall in Hwhole.
    destruct (Hnot (Hwhole l Hl)).
  - split; [intros H; rewrite H in Hl; destruct Hl|]. split; [|reflexivity].
    intros _ Hwhole. rewrite Forall_forall in Hwhole. destruct (Hnot (Hwhole l Hl)).
Qed.

(** *** Reports *)

Lemma distinct_In (k : Z) (l : list Z) : In k (distinct l) <-> In k l.
Proof.
  induction l as [|x l IH]; simpl; [tauto|].
  rewrite filter_In, IH, negb_true_iff, Z.eqb_neq.
  destruct (Z.eq_dec x k); [tauto|]. intuition congruence.
Qed.

Lemma distinct_NoDup (l : list Z) : NoDup (distinct l).
Proof.
  induction l as [|x l IH]; simpl; constructor.
  - rewrite filter_In, negb_true_iff, Z.eqb_neq. tauto.
  - apply NoDup_filter, IH.
Qed.

Lemma Zleb_total (a b : Z) : (a <=? b) = false -> (b <=? a) = true.
Proof. intros H. apply Z.leb_gt in H. apply Z.leb_le. lia. Qed.

Lemma sorted_distinct_strict (l : list Z) :
  Sorted (fun a b => (a <=? b) = true) l -> NoDup l -> Sorted Z.lt l.
Proof.
  induction l as [|a l IH]; intros Hs Hnd; constructor.
  - apply IH; [inversion Hs | inversion Hnd]; assumption.
  - inversion Hs as [|? ? _ Hhd]; subst. inversion Hnd as [|? ? Ha _]; subst.
    destruct Hhd as [|b l Hab]; constructor.
    apply Z.leb_le in Hab. assert (a <> b) by (intros ->; apply Ha, in_eq). lia.
Qed.

(** The keys of a GROUP BY: each key of a row once, in ascending order. *)
Lemma group_keys {A : Type} (key : A -> Z) (rows : list A) :
  let ks := order_by Z.leb (distinct (map key rows)) in
  NoDup ks /\ (forall k, In k ks <-> exists r, In r rows /\ key r = k) /\
  Sorted Z.lt ks.
Proof.
  cbv zeta.
  pose proof (order_by_perm Z.leb (distinct (map key rows))) as Hperm.
  assert (Hnd : NoDup (order_by Z.leb (distinct (map key rows)))).
  { apply (Permutation_NoDup (Permutation_sym Hperm)), distinct_NoDup. }
  split; [exact Hnd|]. split.
  - intros k. split.
    + intros H. apply (Permutation_in _ Hperm) in H.
      apply distinct_In, in_map_iff in H. destruct H as (r & Hr & Hin). eauto.
    + intros (r & Hin & Hr). apply (Permutation_in _ (Permutation_sym Hperm)).
      apply distinct_In, in_map_iff. eauto.
  - apply sorted_distinct_strict; [|exact Hnd].
    apply (order_by_sorted Z.leb Zleb_total).
Qed.

Lemma sum_of_add {A : Type} (f g : A -> Z) (l : list A) :
  sum_of (fun x => f x + g x) l = sum_of f l + sum_of g l.
Proof. induction l as [|x l IH]; simpl; [reflexivity | rewrite IH; lia]. Qed.

Lemma sum_of_ext {A : Type} (f g : A -> Z) (l : list A) :
  (forall x, In x l -> f x = g x) -> sum_of f l = sum_of g l.
Proof.
  induction l as [|x l IH]; simpl; intros H; [reflexivity|].
  rewrite (H x (or_introl eq_refl)), IH; [reflexivity|]. intros y Hy. apply H. auto.
Qed.

Lemma sum_of_map {A B : Type} (g : A -> B) (f : B -> Z) (l : list A) :
  sum_of f (map g l) = sum_of (fun x => f (g x)) l.
Proof. induction l as [|x l IH]; simpl; [reflexivity | rewrite IH; reflexivity]. Qed.

Lemma sum_of_ones {A : Type} (l : list A) :
  sum_of (fun _ => 1) l = Z.of_nat (List.length l).
Proof. induction l as [|x l IH]; [reflexivity|]. cbn [sum_of fold_right List.length].
  fold (sum_of (fun _ : A => 1) l). rewrite IH. lia. Qed.

Lemma sum_of_at (a v : Z) (ks : list Z) :
  NoDup ks -> In a ks -> sum_of (fun k => if a =? k then v else 0) ks = v.
Proof.
  induction ks as [|k ks IH]; intros Hnd Hin; [destruct Hin|].
  inversion Hnd as [|? ? Hk Hnd']; subst. simpl.
  fold (sum_of (fun k0 => if a =? k0 then v else 0) ks).
  destruct (Z.eqb_spec a k) as [->|Hne].
  - rewrite (sum_of_ext _ (fun _ => 0)).
    + clear. induction ks; simpl; lia.
    + intros x Hx. destruct (Z.eqb_spec k x); [subst; contradiction | reflexivity].
  - destruct Hin as [Heq|Hin]; [congruence|]. rewrite IH by assumption. lia.
Qed.

(** The groups split the rows: a sum taken group by group is the sum over
    all rows. *)
Lemma sum_of_groups {A : Type} (key : A -> Z) (f : A -> Z) (rows : list A) (ks : list Z) :
  NoDup ks -> (forall r, In r rows -> In (key r) ks) ->
  sum_of (fun k => sum_of f (filter (fun r => key r =? k) rows)) ks = sum_of f rows.
Proof.
  intros Hnd. induction rows as [|x rows IH]; intros Hall.
  - simpl. clear. induction ks; simpl; lia.
  - rewrite (sum_of_ext _
      (fun k => (if key x =? k then f x else 0)
                + sum_of f (filter (fun r => key r =? k) rows))).
    + rewrite sum_of_add, (sum_of_at (key x) (f x) ks Hnd) by (apply Hall, in_eq).
      rewrite IH by (intros r Hr; apply Hall; right; exact Hr). reflexivity.
    + intros k _. simpl. destruct (key x =? k); simpl; lia.
Qed.

(** X22. The daily sales report covers exactly the orders dated from 30
    days before today on (later dates included): it has one row per day
    that has such an order, in strictly ascending order of the day; a
    row's count and revenue are the number and the summed totals of that
    day's orders; the counts add up to the number of these orders and the
    revenues to the sum of their totals.  A total counts as SUM reads it:
    a number as it is, a BLOB as the number SQLite reads from its bytes. *)
Theorem daily_sales_report (now : Z) (db : Database) :
  Sorted Z.lt (map ds_date (daily_sales now db)) /\
  (forall d, In d (map ds_date (daily_sales now db)) <->
     exists o, In o (orders db) /\ date_of now - 30 <= date_of (o_date o) /\
               date_of (o_date o) = d) /\
  (forall row, In row (daily_sales now db) ->
     let day := filter (fun o => date_of (o_date o) =? ds_date row)
                       (recent_orders now db) in
     ds_orders row = Z.of_nat (List.length day) /\
     ds_revenue row = sum_of (fun o => sql_real (o_total o)) day /\
     1 <= ds_orders row) /\
  sum_of ds_orders (daily_sales now db)
  = Z.of_nat (List.length (recent_orders now db)) /\
  sum_of ds_revenue (daily_sales now db)
  = sum_of (fun o => sql_real (o_total o)) (recent_orders now db).
Proof.
  unfold daily_sales, group_by.
  set (rows := recent_orders now db).
  destruct (group_keys (fun o : Order => date_of (o_date o)) rows) as (Hnd & Hin & Hsorted).
  cbv beta in Hin.
  set (ks := order_by Z.leb (distinct (map (fun o : Order => date_of (o_date o)) rows))) in *.
  pose proof (sum_of_groups (fun o : Order => date_of (o_date o)) (fun _ => 1) rows ks Hnd)
    as Hcount.
  pose proof (sum_of_groups (fun o : Order => date_of (o_date o))
                (fun o => sql_real (o_total o)) rows ks Hnd)
    as Hrevenue.
  cbv beta in Hcount, Hrevenue.
  assert (Hcover : forall r, In r rows -> In (date_of (o_date r)) ks)
    by (intros r Hr; apply Hin; eauto).
  rewrite !map_map. cbn [fst snd ds_date]. rewrite map_id.
  split; [exact Hsorted|]. split; [|split; [|split]].
  - intros d. rewrite Hin. unfold rows, recent_orders.
    split; intros (o & Ho & Hd); exists o.
    + apply filter_In in Ho. destruct Ho as (Ho & Hrecent).
      apply Z.leb_le in Hrecent. auto.
    + destruct Hd as (Hrecent & Hd). split; [|exact Hd].
      apply filter_In. split; [exact Ho | apply Z.leb_le, Hrecent].
  - intros row Hrow. apply in_map_iff in Hrow.
    destruct Hrow as (k & <- & Hk). cbn [fst snd ds_date ds_orders ds_revenue].
    split; [reflexivity|]. split; [reflexivity|].
    apply Hin in Hk. destruct Hk as (o & Ho & Hko).
    assert (Hmem : In o (filter (fun r => date_of (o_date r) =? k) rows))
      by (apply filter_In; split; [exact Ho | apply Z.eqb_eq, Hko]).
    destruct (filter (fun r => date_of (o_date r) =? k) rows); [destruct Hmem|].
    simpl. lia.
  - rewrite sum_of_map. cbn [fst snd ds_orders].
    rewrite (sum_of_ext _
      (fun k => sum_of (fun _ => 1)
                  (filter (fun r : Order => date_of (o_date r) =? k) rows)))
      by (intros k _; symmetry; apply sum_of_ones).
    rewrite (Hcount Hcover). apply sum_of_ones.
  - rewrite sum_of_map. cbn [fst snd ds_revenue]. apply (Hrevenue Hcover).
Qed.


Lemma sorted_firstn {A : Type} (R : A -> A -> Prop) (n : nat) (l : list A) :
  Sorted R l -> Sorted R (firstn n l).
Proof.
  revert l. induction n as [|n IH]; intros l Hs; [constructor|].
  destruct l as [|a l]; [constructor|]. simpl.
  inversion Hs as [|? ? Hs' Hhd]; subst. constructor; [apply IH, Hs'|].
  destruct n; [constructor|]. destruct l as [|b l]; simpl; constructor.
  inversion Hhd; assumption.
Qed.

Lemma strongly_sorted_app {A : Type} (R : A -> A -> Prop) (l1 l2 : list A) :
  StronglySorted R (l1 ++ l2) -> forall a b, In a l1 -> In b l2 -> R a b.
Proof.
  induction l1 as [|x l1 IH]; intros Hs a b Ha Hb; [destruct Ha|].
  simpl in Hs. inversion Hs as [|? ? Hs' Hall]; subst.
  destruct Ha as [<-|Ha]; [|apply IH; assumption].
  rewrite Forall_forall in Hall. apply Hall, in_or_app. right. exact Hb.
Qed.

Lemma eq_param_true (a : option Z) (b : Z) : eq_param a b = true <-> a = Some b.
Proof.
  destruct a as [x|]; simpl; [rewrite Z.eqb_eq|]; split; intros H;
    congruence || (injection H; auto).
Qed.

(** With distinct product keys, the group of a product in the join is its
    order items, each paired with it. *)
Lemma product_group (db : Database) (p : Product) :
  NoDup (map p_id (products db)) -> In p (products db) ->
  filter (fun x => p_id (snd x) =? p_id p) (sold_items db)
  = map (fun oi => (oi, p)) (items_for db p).
Proof.
  intros Hnd Hp. unfold sold_items, items_for.
  induction (order_items db) as [|oi ois IH]; [reflexivity|].
  cbn [flat_map filter]. rewrite filter_app, IH.
  destruct (eq_param (oi_product_id oi) (p_id p)) eqn:Hoi.
  - rewrite (unique_filter p_id (fun p0 => eq_param (oi_product_id oi) (p_id p0))
               (products db) p Hnd Hp);
      [|intros x Hx; apply (eq_param_same_key _ _ _ Hx Hoi) | exact Hoi].
    cbn [map filter snd]. rewrite Z.eqb_refl. reflexivity.
  - rewrite filter_none; [reflexivity|].
    intros x Hx. apply in_map_iff in Hx. destruct Hx as (p0 & <- & Hp0).
    apply filter_In in Hp0. destruct Hp0 as (_ & Hp0). cbn [snd].
    apply Z.eqb_neq. intros Heq. rewrite Heq in Hp0. congruence.
Qed.

(** The rows of the product report before LIMIT: one per product that has
    an order item. *)
Lemma product_sales_rows (db : Database) (row : ProductSales) :
  NoDup (map p_id (products db)) ->
  In row (product_sales db) <->
  exists p, In p (products db) /\
            (exists oi, In oi (order_items db) /\ oi_product_id oi = Some (p_id p)) /\
            row = sales_row db p.
Proof.
  intros Hnd. unfold product_sales, group_by.
  destruct (group_keys (fun x : OrderItem * Product => p_id (snd x)) (sold_items db))
    as (_ & Hin & _).
  cbv beta in Hin. rewrite map_map. cbn [fst snd].
  assert (Hrow : forall p oi, In p (products db) -> In oi (order_items db) ->
            oi_product_id oi = Some (p_id p) ->
            mkProductSales
              (match filter (fun r : OrderItem * Product => p_id (snd r) =? p_id p)
                            (sold_items db) with
               | (_, p0) :: _ => p_name p0
               | [] => ""
               end)
              (sum_of (fun x => oi_quantity (fst x))
                 (filter (fun r : OrderItem * Product => p_id (snd r) =? p_id p)
                         (sold_items db)))
              (sum_of (fun x => oi_subtotal (fst x))
                 (filter (fun r : OrderItem * Product => p_id (snd r) =? p_id p)
                         (sold_items db)))
            = sales_row db p).
  { intros p oi Hp Hoi Hpid. rewrite (product_group db p Hnd Hp).
    unfold sales_row. rewrite !sum_of_map. cbn [fst].
    assert (Hmem : In oi (items_for db p))
      by (apply filter_In; split; [exact Hoi | apply eq_param_true, Hpid]).
    destruct (items_for db p); [destruct Hmem | reflexivity]. }
  assert (Hjoin : forall p oi, In (oi, p) (sold_items db) <->
            In oi (order_items db) /\ In p (products db) /\
            oi_product_id oi = Some (p_id p)).
  { intros p oi. unfold sold_items. rewrite in_flat_map. split.
    - intros (oi' & Hoi' & Hx). apply in_map_iff in Hx.
      destruct Hx as (p' & [= -> ->] & Hp'). apply filter_In in Hp'.
      rewrite eq_param_true in Hp'. tauto.
    - intros (Hoi & Hp & Hpid). exists oi. split; [exact Hoi|].
      apply in_map_iff. exists p. split; [reflexivity|].
      apply filter_In. split; [exact Hp | apply eq_param_true, Hpid]. }
  rewrite in_map_iff. split.
  - intros (k & <- & Hk). apply Hin in Hk. destruct Hk as ([oi p] & Hx & <-).
    apply Hjoin in Hx. destruct Hx as (Hoi & Hp & Hpid). cbn [snd].
    exists p. split; [exact Hp|]. split; [eauto|]. apply (Hrow p oi); assumption.
  - intros (p & Hp & (oi & Hoi & Hpid) & ->). exists (p_id p). split.
    + apply (Hrow p oi); assumption.
    + apply Hin. exists (oi, p). split; [apply Hjoin; auto | reflexivity].
Qed.

(** X23. In a reachable state the top-products report has at most 10
    rows, in descending order of the quantity sold; each row is the row of
    a product that has an order item: its name, the summed quantity and the
    summed subtotal of its order items; and a product with order items that
    is left out has sold no more than any product shown. *)
Theorem top_products_report (db : Database) :
  reachable db ->
  (List.length (top_products db) <= 10)%nat /\
  Sorted (fun a b => ps_total_sold b <= ps_total_sold a) (top_products db) /\
  (forall row, In row (top_products db) ->
     exists p, In p (products db) /\
               (exists oi, In oi (order_items db) /\
                           oi_product_id oi = Some (p_id p)) /\
               row = sales_row db p) /\
  (forall p oi shown,
     In p (products db) -> In oi (order_items db) ->
     oi_product_id oi = Some (p_id p) ->
     ~ In (sales_row db p) (top_products db) -> In shown (top_products db) ->
     ps_total_sold (sales_row db p) <= ps_total_sold shown).
Proof.
  intros Hreach.
  destruct (wk_products _ (reachable_well_keyed db Hreach)) as (_ & Hnd & _).
  unfold top_products.
  set (le := fun a b => ps_total_sold b <=? ps_total_sold a).
  assert (Hsorted : Sorted (fun a b => ps_total_sold b <= ps_total_sold a)
                           (order_by le (product_sales db))).
  { eapply sorted_relabel; [|apply (order_by_sorted le)].
    - intros a b. apply Z.leb_le.
    - intros a b. apply Zleb_total. }
  split; [apply firstn_le_length|]. split; [apply sorted_firstn, Hsorted|]. split.
  - intros row Hrow. apply (product_sales_rows db row Hnd).
    apply (Permutation_in _ (order_by_perm le (product_sales db))).
    rewrite <- (firstn_skipn 10). apply in_or_app. left. exact Hrow.
  - intros p oi shown Hp Hoi Hpid Hout Hshown.
    assert (Hall : In (sales_row db p) (order_by le (product_sales db))).
    { apply (Permutation_in _ (Permutation_sym (order_by_perm le (product_sales db)))).
      apply (product_sales_rows db _ Hnd).
      exists p. split; [exact Hp|]. split; [exists oi; auto | reflexivity]. }
    rewrite <- (firstn_skipn 10 (order_by le (product_sales db))) in Hall, Hsorted.
    apply in_app_or in Hall. destruct Hall as [Hall|Hall]; [contradiction|].
    apply Sorted_StronglySorted in Hsorted; [|intros x y z; lia].
    apply (strongly_sorted_app _ _ _ Hsorted shown (sales_row db p) Hshown Hall).
Qed.




(** *** Stock and sales *)

Lemma items_of_sold (first_id order_id : Z) (lines : list CartLine)
    (rows : list OrderItem) (p : Product) :
  items_of first_id order_id lines rows ->
  quantity_ordered (p_id p) lines = sold_in rows p.
Proof.
  unfold sold_in.
  revert first_id rows. induction lines as [|l lines IH]; intros f [|r rows] H;
    simpl in H; try contradiction; [reflexivity|].
  destruct H as ((_ & _ & Hpid & Hq & _ & _) & H).
  cbn [quantity_ordered filter]. rewrite (IH _ _ H), Hq, Hpid.
  destruct (eq_param (l_product_id l) (p_id p)); simpl; lia.
Qed.

Lemma sum_of_app {A : Type} (f : A -> Z) (l1 l2 : list A) :
  sum_of f (l1 ++ l2) = sum_of f l1 + sum_of f l2.
Proof. induction l1 as [|x l1 IH]; simpl; [reflexivity|]. unfold sum_of in *. lia. Qed.

Lemma with_stock_twice (p : Product) (a b : Z) :
  with_stock (with_stock p (sub_null (p_stock p) (Some a)))
             (sub_null (sub_null (p_stock p) (Some a)) (Some b))
  = with_stock p (sub_null (p_stock p) (Some (a + b))).
Proof.
  unfold with_stock. simpl. f_equal.
  destruct (p_stock p); simpl; [f_equal; lia | reflexivity].
Qed.

Lemma serve_stock (up : bool) (now : Z) (db : Database) (r : request) :
  exists rows extra,
    order_items (serve up now db r) = order_items db ++ rows /\
    products (serve up now db r)
    = map (fun p => with_stock p (sub_null (p_stock p) (Some (sold_in rows p))))
          (products db) ++ extra.
Proof.
  assert (Hsame : forall d, order_items d = order_items db ->
            forall extra, products d = products db ++ extra ->
            exists rows extra,
              order_items d = order_items db ++ rows /\
              products d
              = map (fun p => with_stock p (sub_null (p_stock p) (Some (sold_in rows p))))
                    (products db) ++ extra).
  { intros d Hi extra Hp. exists [], extra. rewrite Hi, Hp, app_nil_r.
    split; [reflexivity|]. f_equal. rewrite <- (map_id (products db)) at 1.
    apply map_ext. intros p. symmetry. apply with_stock_same. }
  destruct r as [data|data|name descr|c p q|c|c items a m]; cbn [serve].
  - destruct (register_customer_cases up now db data) as [[-> _]|(_ & _ & _ & ->)];
      apply Hsame with (extra := []); try rewrite app_nil_r; reflexivity.
  - destruct (add_product_cases up now db data)
      as [[-> _]|(n & ci & pr & st & d & _ & _ & _ & _ & _ & _ & ->)].
    + apply Hsame with (extra := []); try rewrite app_nil_r; reflexivity.
    + eapply Hsame; reflexivity.
  - rewrite add_category_eq. destruct (up && negb _);
      apply Hsame with (extra := []); try rewrite app_nil_r; reflexivity.
  - rewrite add_to_cart_eq. destruct up; [destruct (select_cart c p db)|];
      apply Hsame with (extra := []); try rewrite app_nil_r; reflexivity.
  - rewrite clear_cart_eq. destruct up;
      apply Hsame with (extra := []); try rewrite app_nil_r; reflexivity.
  - pose proof (create_order_run up now db c items a m) as H.
    destruct (create_order up now db c items a m) as [[[oid|]|e] db']; cbn [snd].
    + destruct H as (_ & _ & subtotal & lines & rows & _ & Hrows & ->).
      exists rows, []. cbn [order_items products]. split; [reflexivity|].
      rewrite app_nil_r, stock_after_total by (apply (items_of_complete _ _ _ _ Hrows)).
      apply map_ext. intros p. rewrite (items_of_sold _ _ _ _ p Hrows). reflexivity.
    + destruct H as (_ & ->).
      apply Hsame with (extra := []); try rewrite app_nil_r; reflexivity.
    + destruct H as (_ & -> & _).
      apply Hsame with (extra := []); try rewrite app_nil_r; reflexivity.
Qed.

(** X25. Stock accounts for sales.  Over any run of calls, every product
    that existed at the start is still there, in the same place and with
    the same key, name, category and price, and its stock has gone down by
    exactly the quantity of the order items written for it during the run;
    products added during the run come after. *)
Theorem stock_accounts_for_sales (db : Database) (calls : list (bool * Z * request)) :
  exists rows extra,
    order_items (serve_all db calls) = order_items db ++ rows /\
    products (serve_all db calls)
    = map (fun p => with_stock p (sub_null (p_stock p) (Some (sold_in rows p))))
          (products db) ++ extra.
Proof.
  revert db. induction calls as [|[[up now] r] calls IH]; intros db; cbn [serve_all].
  - exists [], []. rewrite !app_nil_r. split; [reflexivity|].
    rewrite <- (map_id (products db)) at 1.
    apply map_ext. intros p. symmetry. apply with_stock_same.
  - destruct (IH (serve up now db r)) as (rows2 & extra2 & Hi2 & Hp2).
    destruct (serve_stock up now db r) as (rows1 & extra1 & Hi1 & Hp1).
    exists (rows1 ++ rows2),
           (map (fun p => with_stock p (sub_null (p_stock p) (Some (sold_in rows2 p))))
                extra1 ++ extra2).
    rewrite Hi2, Hi1, Hp2, Hp1, map_app, map_map, <- !app_assoc.
    split; [reflexivity|]. f_equal. apply map_ext. intros p.
    replace (sold_in (rows1 ++ rows2) p) with (sold_in rows1 p + sold_in rows2 p)
      by (unfold sold_in; rewrite filter_app, sum_of_app; reflexivity).
    rewrite <- with_stock_twice. reflexivity.
Qed.


(** *** Orders and their items *)

Lemma items_of_order (first_id order_id : Z) (lines : list CartLine)
    (rows : list OrderItem) :
  items_of first_id order_id lines rows ->
  Forall (fun r => oi_order_id r = order_id) rows.
Proof.
  revert first_id rows. induction lines as [|l lines IH]; intros f [|r rows] H;
    simpl in H; try contradiction; constructor.
  - apply H.
  - apply (IH _ _ (proj2 H)).
Qed.

Lemma orders_consistent_same (db db' : Database) :
  orders db' = orders db -> order_items db' = order_items db ->
  seq_orders (sqlite_sequence db') = seq_orders (sqlite_sequence db) ->
  orders_consistent db -> orders_consistent db'.
Proof.
  unfold orders_consistent, total_matches, items_in. intros -> -> ->. auto.
Qed.

Lemma serve_orders_consistent (up : bool) (now : Z) (db : Database) (r : request) :
  well_keyed db -> orders_consistent db -> orders_consistent (serve up now db r).
Proof.
  intros Hwk Hoc.
  destruct r as [data|data|name descr|c p q|c|c items a m]; cbn [serve].
  - destruct (register_customer_cases up now db data) as [[-> _]|(_ & _ & _ & ->)]; [exact Hoc|].
    revert Hoc. apply orders_consistent_same; reflexivity.
  - destruct (add_product_cases up now db data)
      as [[-> _]|(n & ci & pr & st & d & _ & _ & _ & _ & _ & _ & ->)]; [exact Hoc|].
    revert Hoc. apply orders_consistent_same; reflexivity.
  - rewrite add_category_eq. destruct (up && negb _); cbn [snd]; [|exact Hoc].
    revert Hoc. apply orders_consistent_same; reflexivity.
  - rewrite add_to_cart_eq. destruct up; cbn [snd]; [|exact Hoc].
    destruct (select_cart c p db); revert Hoc; apply orders_consistent_same; reflexivity.
  - rewrite clear_cart_eq. destruct up; cbn [snd]; [|exact Hoc].
    revert Hoc. apply orders_consistent_same; reflexivity.
  - pose proof (create_order_run up now db c items a m) as H.
    destruct (create_order up now db c items a m) as [[[oid|]|e] db']; cbn [snd].
    + destruct H as (_ & -> & subtotal & lines & rows & _ & Hrows & ->).
      destruct Hoc as (Hitems & Htotals).
      destruct (wk_orders _ Hwk) as (Hseq & _ & Hids).
      pose proof (items_of_order _ _ _ _ Hrows) as Hnew.
      rewrite Forall_forall in Hitems, Htotals, Hids, Hnew.
      unfold orders_consistent, total_matches, items_in in *.
      cbn [orders order_items sqlite_sequence seq_orders].
      assert (Hold_rows : forall k, k <= seq_orders (sqlite_sequence db) ->
                filter (fun oi => oi_order_id oi =? k) rows = []).
      { intros k Hk. apply filter_none. intros oi Hoi.
        apply Z.eqb_neq. rewrite (Hnew oi Hoi). lia. }
      assert (Hold_items :
                filter (fun oi => oi_order_id oi =? seq_orders (sqlite_sequence db) + 1)
                       (order_items db) = []).
      { apply filter_none. intros oi Hoi. apply Z.eqb_neq.
        destruct (Hitems oi Hoi) as (Hb & _). lia. }
      assert (Hall_rows :
                filter (fun oi => oi_order_id oi =? seq_orders (sqlite_sequence db) + 1)
                       rows = rows).
      { clear - Hnew. induction rows as [|x rows IH]; [reflexivity|]. simpl.
        rewrite (Hnew x (or_introl eq_refl)), Z.eqb_refl. f_equal.
        apply IH. intros y Hy. apply Hnew. right. exact Hy. }
      split; rewrite Forall_forall.
      * intros oi Hoi. apply in_app_or in Hoi. destruct Hoi as [Hoi|Hoi].
        -- destruct (Hitems oi Hoi) as (Hb & o & Ho & Hid).
           split; [lia|]. exists o. split; [apply in_or_app; left; exact Ho | exact Hid].
        -- rewrite (Hnew oi Hoi). split; [lia|].
           eexists. split; [apply in_or_app; right; apply in_eq | reflexivity].
      * intros o Ho. rewrite filter_app. apply in_app_or in Ho.
        destruct Ho as [Ho|[<-|[]]].
        -- rewrite (Hold_rows (o_id o)) by (specialize (Hids o Ho); lia).
           rewrite app_nil_r. apply Htotals, Ho.
        -- cbn [o_id o_total]. rewrite Hold_items, Hall_rows. cbn [app].
           rewrite <- (items_of_total _ _ _ _ Hrows).
           destruct subtotal; cbn [stored_total]; auto.
    + destruct H as (_ & ->). exact Hoc.
    + destruct H as (_ & -> & _). exact Hoc.
Qed.

(** X26. In every reachable state each order item belongs to a stored
    order, and each order's total is the sum of the subtotals of its order
    items, stored as that number or as the eight bytes of the sum counted
    in whole units. *)
Theorem reachable_orders_match_their_items (db : Database) :
  reachable db ->
  (forall oi, In oi (order_items db) ->
     exists o, In o (orders db) /\ o_id o = oi_order_id oi) /\
  (forall o, In o (orders db) ->
     let items := filter (fun oi => oi_order_id oi =? o_id o) (order_items db) in
     o_total o = Number (total_of items) \/
     o_total o = Blob (int64_bytes (total_of items / 100))).
Proof.
  intros Hreach.
  assert (H : orders_consistent db).
  { induction Hreach as [|up now db r Hreach IH].
    - split; constructor.
    - apply serve_orders_consistent; [apply reachable_well_keyed, Hreach | exact IH]. }
  destruct H as (Hitems & Htotals). rewrite Forall_forall in Hitems, Htotals.
  split.
  - intros oi Hoi. apply (Hitems oi Hoi).
  - intros o Ho. apply (Htotals o Ho).
Qed.


End Properties.

(** ** Scenarios: the properties at concrete inputs *)

(** [add_to_cart(1, 5, 2)] twice on a fresh database: one row, quantity 4. *)
Lemma cart_has_one_entry_per_pair_witness :
  reachable (digest := demo_digest) (init_database None) /\
  select_cart 1 5
    (snd (add_to_cart true 8
            (snd (add_to_cart true 7 (init_database None) 1 5 2)) 1 5 2))
  = [mkCartRow 1 1 5 4 7] /\
  cart (snd (add_to_cart true 8
               (snd (add_to_cart true 7 (init_database None) 1 5 2)) 1 5 2))
  = [mkCartRow 1 1 5 4 7].
Proof.
  split; [apply reach_init|].
  split; [|reflexivity].
  exact (proj1 (proj2 (proj2
    (proj2 (proj2 (proj2
       (cart_has_one_entry_per_pair (digest := demo_digest) (init_database None) 7 8 1 5 2
          reach_init)))
     eq_refl)))).
Defined.

(** Alice registers; a second registration with her email is refused. *)
Lemma second_registration_is_refused_witness :
  register_customer (digest := demo_digest) true 1 (init_database None) alice
  = (Value true, db_alice) /\
  reg_email impostor = reg_email alice /\
  readable impostor /\
  register_customer (digest := demo_digest) true 2 db_alice impostor = (Value false, db_alice).
Proof.
  assert (Hread : readable impostor)
    by (split; [repeat constructor; discriminate | discriminate]).
  split; [reflexivity|]. split; [reflexivity|]. split; [exact Hread|].
  exact (proj1 (proj2
    (second_registration_is_refused (digest := demo_digest) true true 1 2
       (init_database None) db_alice alice impostor [] eq_refl eq_refl)) Hread).
Defined.

(** Alice registers and logs in with the same email and password. *)
Lemma register_then_authenticate_witness :
  register_customer (digest := demo_digest) true 1 (init_database None) alice
  = (Value true, db_alice) /\
  authenticate_user (digest := demo_digest) true db_alice "alice@example.org" "correct horse"
  = Some (mkCustomer 1 "Alice" "Archer" "alice@example.org" "sha256:correct horse"
            (Some "555-0100") (Some "1 Main St") (Some "Springfield") (Some "IL")
            (Some "62701") (Some "US") 1).
Proof.
  split; [reflexivity|].
  destruct (register_then_authenticate (digest := demo_digest) true 1 (init_database None)
              db_alice alice [] eq_refl)
    as (email & password & He & Hp & Hauth & _).
  cbn in He, Hp. injection He as <-. injection Hp as <-. exact Hauth.
Defined.

(** The cart of [demo_shop], two widgets at 5.00, is ordered: one item,
    2 at 5.00 with subtotal 10.00. *)
Lemma order_items_are_snapshots_witness :
  create_order true 9 demo_shop 1 (get_cart_items true demo_shop 1) "home" "PayPal"
  = (Value (Some 1),
     snd (create_order true 9 demo_shop 1 (get_cart_items true demo_shop 1)
            "home" "PayPal")) /\
  exists rows,
    order_items (snd (create_order true 9 demo_shop 1
                        (get_cart_items true demo_shop 1) "home" "PayPal")) = rows /\
    Forall (fun r => oi_subtotal r = oi_quantity r * oi_unit_price r) rows.
Proof.
  split; [reflexivity|].
  destruct (order_items_are_snapshots (digest := demo_digest) true 9 demo_shop _ 1 1
              (get_cart_items true demo_shop 1) "home" "PayPal" [] eq_refl)
    as (rows & Hitems & _ & Hpriced & _).
  exists rows. split; [exact Hitems|].
  eapply Forall_impl; [|exact (Hpriced true demo_shop 1 eq_refl)].
  intros r H. exact (proj1 H).
Defined.



(** Both outcomes of [create_order] occur: the cart of [demo_shop] is
    ordered in full (the price 5.00 is a whole number, so the total is
    stored as bytes), and a frame whose second line lacks its quantity
    raises after the order row and the first line were written to the
    transaction, and leaves the file untouched. *)
Example create_order_commits :
  create_order true 9 demo_shop 1 (get_cart_items true demo_shop 1) "home" "PayPal"
  = (Value (Some 1),
     mkDatabase []
       [mkProduct 1 "widget-9000" None 500 (Some 3) None None 0 0]
       []
       [mkOrder 1 1 9 (Blob [10; 0; 0; 0; 0; 0; 0; 0]) pending "home" "PayPal"]
       [mkOrderItem 1 1 (Some 1) 2 500 1000]
       [mkCartRow 1 1 1 2 0]
       (mkSequence 0 1 0 1 1 1)).
Proof. reflexivity. Qed.

Example create_order_rolls_back :
  create_order true 9 demo_shop 1
    (Frame float64
       [mkCartLine (Some 1) (Some 2) (Some 500) (Some 1000);
        mkCartLine (Some 1) None (Some 500) (Some 500)]) "home" "PayPal"
  = (Raised (IntegrityError "NOT NULL constraint failed: order_items.quantity"),
     demo_shop).
Proof. reflexivity. Qed.

Example strip_example :
  Text.strip "  select * from products " = "select * from products".
Proof. reflexivity. Qed.

Example gateway_examples :
  execute_query true "  SeLeCt 1" = Executed "  SeLeCt 1" /\
  execute_query true "SELECT 1; DROP TABLE products"
  = Executed "SELECT 1; DROP TABLE products" /\
  execute_query true "selection" = Executed "selection" /\
  execute_query true "DROP TABLE products" = Rejected.
Proof. repeat split; reflexivity. Qed.

Example widget_search :
  list_products "WIDGET" "All" "Name" (get_products true demo_shop)
  = Some [mkProductView (mkProduct 1 "widget-9000" None 500 (Some 5) None None 0 0) None].
Proof. reflexivity. Qed.

(** Customer 1 has an order; asked for customer 0, [get_orders] lists it. *)
Example get_orders_zero :
  get_orders true
    (snd (create_order true 9 db_alice 1 (Frame object []) "home" "PayPal")) (Some 0)
  = [mkOrderView (mkOrder 1 1 9 (Number 0) pending "home" "PayPal")
       "Alice" "Archer" "alice@example.org"].
Proof. reflexivity. Qed.

(** *** Further scenarios *)

Lemma db_shop_reachable : reachable (digest := demo_digest) db_shop.
Proof. unfold db_shop, shop_calls. cbn [serve_all]. repeat apply reach_serve. apply reach_init. Qed.

Lemma db_sold_reachable : reachable (digest := demo_digest) db_sold.
Proof.
  unfold db_sold. apply serve_all_reachable, db_shop_reachable.
Qed.

(** The keys of the shop once Alice has checked out. *)
Lemma reachable_keys_are_fresh_witness :
  reachable (digest := demo_digest) db_sold /\
  NoDup (map o_id (orders db_sold)) /\
  Forall (fun r => 1 <= oi_id r <= seq_order_items (sqlite_sequence db_sold))
         (order_items db_sold).
Proof.
  split; [exact db_sold_reachable|].
  pose proof (reachable_keys_are_fresh (digest := demo_digest) db_sold db_sold_reachable)
    as (_ & _ & _ & (_ & Ho & _) & (_ & _ & Hi) & _).
  split; assumption.
Defined.

Lemma reachable_emails_and_names_are_unique_witness :
  reachable (digest := demo_digest) db_shop /\
  NoDup (map cu_email (customers db_shop)).
Proof.
  split; [exact db_shop_reachable|].
  exact (proj1 (reachable_emails_and_names_are_unique (digest := demo_digest)
                  db_shop db_shop_reachable)).
Defined.

(** Alice's checkout leaves the customers of the shop in place. *)
Lemma history_is_append_only_witness :
  reachable (digest := demo_digest) db_shop /\
  exists cs, customers db_sold = customers db_shop ++ cs.
Proof.
  split; [exact db_shop_reachable|].
  exact (proj1 (proj2
    (history_is_append_only (digest := demo_digest) db_shop
       [(true, 9, CreateOrder 1 (get_cart_items true db_shop 1) "home" "PayPal");
        (true, 10, ClearCart 1)]
       db_shop_reachable))).
Defined.

(** Alice logs in to the shop; a wrong password finds nobody. *)
Lemma login_finds_the_matching_customer_witness :
  reachable (digest := demo_digest) db_shop /\
  authenticate_user (digest := demo_digest) true db_shop
    "alice@example.org" "correct horse" = Some alice_row.
Proof.
  split; [exact db_shop_reachable|].
  apply (proj1 (login_finds_the_matching_customer (digest := demo_digest) db_shop
                  "alice@example.org" "correct horse" alice_row db_shop_reachable)).
  split; [left; reflexivity | split; reflexivity].
Defined.

Lemma gateway_checks_only_the_start_witness :
  query_allowed "SELECT 1" = true /\
  query_allowed "SELECT 1; DROP TABLE products" = true.
Proof.
  split; [reflexivity|].
  exact (proj1 (gateway_checks_only_the_start "SELECT 1" "; DROP TABLE products" eq_refl)).
Defined.

Lemma get_products_lists_each_product_once_witness :
  reachable (digest := demo_digest) db_shop /\
  Permutation (get_products true db_shop) [mkProductView widget_row (Some "tools")].
Proof.
  split; [exact db_shop_reachable|].
  exact (proj1 (get_products_lists_each_product_once (digest := demo_digest)
                  db_shop db_shop_reachable)).
Defined.

Lemma list_products_sorted_witness :
  list_products "widget" "All" "Price: High to Low" (get_products true db_shop)
  = Some [mkProductView widget_row (Some "tools")] /\
  Sorted (fun a b => p_price (pv_product b) <= p_price (pv_product a))
         [mkProductView widget_row (Some "tools")].
Proof.
  split; [reflexivity|].
  apply (proj1 (proj2 (proj2
    (list_products_sorted "widget" "All" "Price: High to Low"
       (get_products true db_shop) _ eq_refl))));
    discriminate.
Defined.

(** Alice's order history once she has checked out. *)
Lemma customer_sees_own_orders_witness :
  reachable (digest := demo_digest) db_sold /\ In alice_row (customers db_sold) /\
  Permutation (get_orders true db_sold (Some 1))
    [mkOrderView (mkOrder 1 1 9 (Blob [10; 0; 0; 0; 0; 0; 0; 0]) pending "home" "PayPal")
       "Alice" "Archer" "alice@example.org"].
Proof.
  split; [exact db_sold_reachable|]. split; [left; reflexivity|].
  exact (proj1 (customer_sees_own_orders (digest := demo_digest) db_sold alice_row
                  db_sold_reachable (or_introl eq_refl))).
Defined.

Lemma placed_order_shows_in_history_witness :
  reachable (digest := demo_digest) db_shop /\ In alice_row (customers db_shop) /\
  In (mkOrderView
        (mkOrder 1 1 9 (Blob [10; 0; 0; 0; 0; 0; 0; 0]) pending "home" "PayPal")
        "Alice" "Archer" "alice@example.org")
     (get_orders true
        (snd (create_order true 9 db_shop 1 (get_cart_items true db_shop 1)
                "home" "PayPal"))
        (Some 1)).
Proof.
  split; [exact db_shop_reachable|]. split; [left; reflexivity|].
  destruct (placed_order_shows_in_history (digest := demo_digest) true 9 db_shop _
              alice_row 1 (get_cart_items true db_shop 1) "home" "PayPal"
              db_shop_reachable (or_introl eq_refl) eq_refl)
    as (subtotal & lines & Hframe & Hshown).
  assert (E : get_cart_items true db_shop 1
              = Frame int64 [mkCartLine (Some 1) (Some 2) (Some 500) (Some 1000)])
    by reflexivity.
  rewrite E in Hframe. injection Hframe as <- <-. exact Hshown.
Defined.

Lemma cart_lines_match_cart_rows_witness :
  reachable (digest := demo_digest) db_shop /\
  NoDup (map l_product_id (iterrows (get_cart_items true db_shop 1))).
Proof.
  split; [exact db_shop_reachable|].
  exact (proj1 (proj2 (cart_lines_match_cart_rows (digest := demo_digest)
                         db_shop 1 db_shop_reachable))).
Defined.

(** Alice adds three more widgets to the two in her cart. *)
Lemma added_product_shows_in_cart_witness :
  reachable (digest := demo_digest) db_shop /\ In widget_row (products db_shop) /\
  In (mkCartLine (Some 1) (Some 5) (Some 500) (Some 2500))
     (iterrows (get_cart_items true (snd (add_to_cart true 5 db_shop 1 1 3)) 1)).
Proof.
  split; [exact db_shop_reachable|]. split; [left; reflexivity|].
  exact (added_product_shows_in_cart (digest := demo_digest) db_shop 5 1 3 widget_row
           db_shop_reachable (or_introl eq_refl)).
Defined.

(** Product 99 does not exist; -4 of it go into Alice's cart unseen. *)
Lemma unknown_product_is_stored_unseen_witness :
  (forall p, In p (products db_shop) -> p_id p <> 99) /\
  fst (add_to_cart true 5 db_shop 1 99 (-4)) = Value true /\
  get_cart_items true (snd (add_to_cart true 5 db_shop 1 99 (-4))) 1
  = get_cart_items true db_shop 1.
Proof.
  assert (H : forall p, In p (products db_shop) -> p_id p <> 99)
    by (intros p [<-|[]]; discriminate).
  split; [exact H|].
  pose proof (unknown_product_is_stored_unseen true db_shop 5 1 99 (-4) 1 H)
    as (H1 & _ & H2 & _).
  split; assumption.
Defined.

Lemma checkout_places_the_cart_witness :
  reachable (digest := demo_digest) db_shop /\
  iterrows (get_cart_items true db_shop 1) <> [] /\
  exists db2,
    submit_checkout true true 9 db_shop 1 (get_cart_items true db_shop 1)
      "home" "PayPal" = (Value (OrderPlaced 1), db2) /\
    map p_stock (products db2) = [Some 3] /\
    iterrows (get_cart_items true db2 1) = [].
Proof.
  split; [exact db_shop_reachable|]. split; [discriminate|].
  destruct (checkout_places_the_cart (digest := demo_digest) 9 db_shop 1 "home" "PayPal"
              db_shop_reachable)
    as (db2 & total & Hrun & _ & _ & _ & Hstock & _ & Hcart); [discriminate|].
  exists db2. split; [exact Hrun|]. split; [rewrite Hstock; reflexivity | exact Hcart].
Defined.

Lemma checkout_is_two_transactions_witness :
  reachable (digest := demo_digest) db_shop /\
  iterrows (get_cart_items true db_shop 1) <> [] /\
  exists db1,
    submit_checkout true false 9 db_shop 1 (get_cart_items true db_shop 1)
      "home" "PayPal" = (Value (OrderPlaced 1), db1) /\
    cart db1 = cart db_shop.
Proof.
  split; [exact db_shop_reachable|]. split; [discriminate|].
  destruct (proj2 (checkout_is_two_transactions (digest := demo_digest) false 9 db_shop 1
                     "home" "PayPal" db_shop_reachable ltac:(discriminate)))
    as (db1 & Hrun & _ & Hcart & _).
  exists db1. split; assumption.
Defined.

Lemma top_products_report_witness :
  reachable (digest := demo_digest) db_sold /\
  (List.length (top_products db_sold) <= 10)%nat /\
  top_products db_sold = [mkProductSales "widget-9000" 2 1000].
Proof.
  split; [exact db_sold_reachable|].
  split; [|reflexivity].
  exact (proj1 (top_products_report (digest := demo_digest) db_sold db_sold_reachable)).
Defined.

(** Fifty days after Alice's order (day 0) the daily report is empty;
    on the day itself it has her order, whose total is a BLOB. *)
Example daily_sales_window {reader : BlobReader} :
  map ds_date (daily_sales 9 db_sold) = [0] /\
  map ds_orders (daily_sales 9 db_sold) = [1] /\
  map ds_revenue (daily_sales 9 db_sold) = [blob_real [10; 0; 0; 0; 0; 0; 0; 0]] /\
  daily_sales (9 + 50 * 86400) db_sold = [].
Proof.
  split; [reflexivity|]. split; [reflexivity|]. split; [|reflexivity].
  cbn. rewrite Z.add_0_r. reflexivity.
Qed.

(** Alice's order and its one item, once she has checked out. *)
Lemma reachable_orders_match_their_items_witness :
  reachable (digest := demo_digest) db_sold /\
  (forall oi, In oi (order_items db_sold) ->
     exists o, In o (orders db_sold) /\ o_id o = oi_order_id oi).
Proof.
  split; [exact db_sold_reachable|].
  exact (proj1 (reachable_orders_match_their_items (digest := demo_digest)
                  db_sold db_sold_reachable)).
Defined.
